(** * Logistics order uploader: extraction, order building and submission

    Shallow embedding of [app2.py].  Python values are modelled as the code
    uses them: strings as [string] (ASCII text), floats as IEEE binary64
    through [SpecFloat], lists as [list], the row of a data frame as a
    labelled series, exceptions through the [result] type, and the remote
    logistics service as a stream of call outcomes. *)

From Stdlib Require Import ZArith Ascii SpecFloat.
From stdpp Require Import base option list functions strings pretty gmap.

#[local] Set Warnings "-register-all".

Local Open Scope Z_scope.

(** ** Exceptions *)

Inductive exn_kind :=
  | ValueError | KeyError | IndexError | TypeError | AttributeError
  | OverflowError | RequestException | JSONDecodeError.

Record exn := Exn { exn_type : exn_kind; exn_msg : string }.

Inductive result (A : Type) :=
  | Ok (a : A)
  | Raise (e : exn).
Arguments Ok {A} a.
Arguments Raise {A} e.

Definition rbind {A B} (m : result A) (k : A → result B) : result B :=
  match m with
  | Ok a => k a
  | Raise e => Raise e
  end.

#[global] Instance result_ret : MRet result := @Ok.
#[global] Instance result_bind : MBind result := λ A B k m, rbind m k.

(** ** Python string methods *)

Module PyStr.

(** [str.isspace] on ASCII: tab, LF, VT, FF, CR, the separators
    0x1c-0x1f and the space. *)
Definition is_space (c : ascii) : bool :=
  match c with
  | "009" | "010" | "011" | "012" | "013"
  | "028" | "029" | "030" | "031" | " " => true
  | _ => false
  end%char.

(** Stripping the characters that [sp] takes for white space. *)
Fixpoint lstrip_by (sp : ascii → bool) (s : string) : string :=
  match s with
  | String c s' => if sp c then lstrip_by sp s' else s
  | EmptyString => EmptyString
  end.

(** On the right a character is kept when it is not a space or when
    something other than spaces follows it. *)
Fixpoint rstrip_by (sp : ascii → bool) (s : string) : string :=
  match s with
  | String c s' =>
      match rstrip_by sp s' with
      | EmptyString => if sp c then EmptyString else String c EmptyString
      | r => String c r
      end
  | EmptyString => EmptyString
  end.

Definition strip_by (sp : ascii → bool) (s : string) : string :=
  rstrip_by sp (lstrip_by sp s).

(** [s.strip()] *)
Definition strip : string → string := strip_by is_space.

Fixpoint startswith (s pre : string) {struct pre} : bool :=
  match pre, s with
  | EmptyString, _ => true
  | String a pre', String b s' => if Ascii.eqb a b then startswith s' pre' else false
  | String _ _, EmptyString => false
  end.

(** [sub in s] *)
Fixpoint contains (sub s : string) : bool :=
  startswith s sub ||
  match s with
  | String _ s' => contains sub s'
  | EmptyString => false
  end.

(** [s.split(sep)] and [s.replace(old, new)] scan from the left and cut at
    every leftmost occurrence; [skip] counts the characters of an
    occurrence that remain to be passed over, [cur] holds the current
    piece, reversed. *)
Fixpoint split_go (sep s : string) (skip : nat) (cur : string) : list string :=
  match s with
  | EmptyString => [String.rev cur]
  | String c s' =>
      match skip with
      | S k => split_go sep s' k cur
      | O =>
          if startswith s sep
          then String.rev cur :: split_go sep s' (String.length sep - 1) EmptyString
          else split_go sep s' O (String c cur)
      end
  end.

Definition split (s sep : string) : list string := split_go sep s O EmptyString.

Fixpoint replace_go (old new s : string) (skip : nat) : string :=
  match s with
  | EmptyString => EmptyString
  | String c s' =>
      match skip with
      | S k => replace_go old new s' k
      | O =>
          if startswith s old
          then new +:+ replace_go old new s' (String.length old - 1)
          else String c (replace_go old new s' O)
      end
  end.

Definition replace (s old new : string) : string := replace_go old new s O.

Definition upper_char (c : ascii) : ascii :=
  let n := nat_of_ascii c in
  if (97 <=? n)%nat && (n <=? 122)%nat then ascii_of_nat (n - 32) else c.

Definition lower_char (c : ascii) : ascii :=
  let n := nat_of_ascii c in
  if (65 <=? n)%nat && (n <=? 90)%nat then ascii_of_nat (n + 32) else c.

Fixpoint map_chars (f : ascii → ascii) (s : string) : string :=
  match s with
  | String c s' => String (f c) (map_chars f s')
  | EmptyString => EmptyString
  end.

Definition upper : string → string := map_chars upper_char.
Definition lower : string → string := map_chars lower_char.

(** [re.search(pat, s, re.IGNORECASE)] for a literal [pat]. *)
Definition contains_nocase (pat s : string) : bool :=
  contains (lower pat) (lower s).

(** [re.sub(r"\s*\n\s*", " ", s)]: every maximal run of white space that
    holds a line feed becomes one space; [run] is the pending run,
    reversed, and [nl] tells whether it holds a line feed. *)
Fixpoint collapse_go (s run : string) (nl : bool) : string :=
  let flush := if nl then " " else String.rev run in
  match s with
  | EmptyString => flush
  | String c s' =>
      if is_space c
      then collapse_go s' (String c run) (nl || Ascii.eqb c "010"%char)
      else flush +:+ String c (collapse_go s' EmptyString false)
  end.

Definition collapse_newlines (s : string) : string :=
  collapse_go s EmptyString false.

(** [c in s] for a character, and whether [s] is made of the characters
    that [p] holds of. *)
Fixpoint has_char (c : ascii) (s : string) : bool :=
  match s with
  | String c' s' => Ascii.eqb c c' || has_char c s'
  | EmptyString => false
  end.

Fixpoint all_chars (p : ascii → bool) (s : string) : bool :=
  match s with
  | String c s' => p c && all_chars p s'
  | EmptyString => true
  end.


End PyStr.

(** ** Python floats: IEEE binary64 *)

Module PyFloat.

Definition float := spec_float.

Definition prec : Z := 53.
Definition emax : Z := 1024.

Definition mul : float → float → float := SFmul prec emax.

Definition is_nan (x : float) : bool :=
  match x with S754_nan => true | _ => false end.

(** The double nearest (ties to even) to [(-1)^neg * m * 10^e10], the
    value of a decimal literal; out of range it is an infinity. *)
Definition of_decimal (neg : bool) (m : Z) (e10 : Z) : float :=
  match m with
  | Zpos p =>
      if 0 <=? e10
      then binary_round prec emax neg (p * Z.to_pos (10 ^ e10)) 0
      else SFdiv prec emax (S754_finite neg p 0)
                 (S754_finite false (Z.to_pos (10 ^ (- e10))) 0)
  | _ => S754_zero neg
  end.

(** [float(n)] for an int [n]. *)
Definition of_Z (n : Z) : result float :=
  match binary_normalize prec emax n 0 false with
  | S754_infinity _ => Raise (Exn OverflowError "int too large to convert to float")
  | x => Ok x
  end.

(** *** Syntax of [float(s)] *)

Definition digit (c : ascii) : option Z :=
  let n := nat_of_ascii c in
  if (48 <=? n)%nat && (n <=? 57)%nat then Some (Z.of_nat (n - 48)) else None.

(** [digit (["_"] digit)*], read greedily after [n] digits of value [acc]:
    the value, the number of digits and the rest of the text. *)
Fixpoint digitpart (s : string) (acc : Z) (n : nat) : Z * nat * string :=
  match s with
  | String c s' =>
      match digit c with
      | Some d => digitpart s' (10 * acc + d) (S n)
      | None =>
          match n, c, s' with
          | S _, "_"%char, String c' s'' =>
              match digit c' with
              | Some d => digitpart s'' (10 * acc + d) (S n)
              | None => (acc, n, s)
              end
          | _, _, _ => (acc, n, s)
          end
      end
  | EmptyString => (acc, n, s)
  end.

Definition sign (s : string) : bool * string :=
  match s with
  | String "-" s' => (true, s')
  | String "+" s' => (false, s')
  | _ => (false, s)
  end.

(** [exponent ::= ("e" | "E") [sign] digitpart], absent when the text
    ends after the number. *)
Definition exponent (s : string) : option Z :=
  match s with
  | EmptyString => Some 0
  | String c s' =>
      if Ascii.eqb c "e" || Ascii.eqb c "E" then
        let '(neg, s1) := sign s' in
        match digitpart s1 0 0 with
        | (e, S _, EmptyString) => Some (if neg then - e else e)
        | _ => None
        end
      else None
  end.

(** [number ::= [digitpart] "." digitpart | digitpart ["."]] followed by
    the exponent: mantissa and decimal exponent. *)
Definition floatnumber (s : string) : option (Z * Z) :=
  let '(mi, ni, s1) := digitpart s 0 0 in
  let '(m, nf, s2) :=
    match s1 with
    | String "." s1' => digitpart s1' mi 0
    | _ => (mi, O, s1)
    end in
  match (ni + nf)%nat with
  | O => None
  | S _ => e ← exponent s2; Some (m, e - Z.of_nat nf)
  end.

(** The white space that [float] skips at both ends of an ASCII text is
    that of C's [isspace]: tab, LF, VT, FF, CR and the space. *)
Definition is_space : ascii → bool := Ascii.is_space.

(** The characters of the texts that [float] accepts. *)
Definition float_char (c : ascii) : bool :=
  bool_decide (is_Some (digit c)) || PyStr.has_char c "+-._eE"
  || PyStr.has_char (PyStr.lower_char c) "infatyn".

Definition absfloatvalue (neg : bool) (s : string) : option float :=
  let l := PyStr.lower s in
  if String.eqb l "inf" || String.eqb l "infinity" then Some (S754_infinity neg)
  else if String.eqb l "nan" then Some S754_nan
  else '(m, e) ← floatnumber s; Some (of_decimal neg m e).

(** [float(s)] for a string: [None] stands for the [ValueError]. *)
Definition parse (s : string) : option float :=
  let '(neg, s') := sign (PyStr.strip_by is_space s) in absfloatvalue neg s'.

Definition of_string (s : string) : result float :=
  match parse s with
  | Some x => Ok x
  | None => Raise (Exn ValueError ("could not convert string to float: '" +:+ s +:+ "'"))
  end.

(** [int(x)] truncates toward zero. *)
Definition to_int (x : float) : result Z :=
  match x with
  | S754_zero _ => Ok 0
  | S754_finite s m e =>
      Ok (cond_Zopp s (if 0 <=? e then Z.pos m * 2 ^ e else Z.pos m / 2 ^ (- e)))
  | S754_infinity _ => Raise (Exn OverflowError "cannot convert float infinity to integer")
  | S754_nan => Raise (Exn ValueError "cannot convert float NaN to integer")
  end.

End PyFloat.

Abbreviation float := PyFloat.float.

(** ** Python values held by table cells and order fields *)

Inductive pyval :=
  | VNone
  | VInt (n : Z)
  | VFloat (x : float)
  | VStr (s : string).

(** Truth value of [v] in a condition. *)
Definition truthy (v : pyval) : bool :=
  match v with
  | VNone => false
  | VInt n => negb (n =? 0)
  | VFloat (S754_zero _) => false
  | VFloat _ => true
  | VStr s => negb (String.eqb s "")
  end.

(** [float(v)] *)
Definition py_float (v : pyval) : result float :=
  match v with
  | VStr s => PyFloat.of_string s
  | VFloat x => Ok x
  | VInt n => PyFloat.of_Z n
  | VNone => Raise (Exn TypeError "float() argument must be a string or a real number")
  end.

(** A row of a data frame ([pandas.Series]): labels and values. *)
Abbreviation series := (list (string * pyval)).

Fixpoint assoc {A} (k : string) (kvs : list (string * A)) : option A :=
  match kvs with
  | (k', v) :: kvs' => if String.eqb k k' then Some v else assoc k kvs'
  | [] => None
  end.

(** [r[k]] *)
Definition getitem (r : series) (k : string) : result pyval :=
  match assoc k r with
  | Some v => Ok v
  | None => Raise (Exn KeyError k)
  end.

(** [r.get(k, default)] *)
Definition get (r : series) (k : string) (default : pyval) : pyval :=
  match assoc k r with
  | Some v => v
  | None => default
  end.

Definition labels (r : series) : list string := fst <$> r.

(** ** CoordinateParser: [extract_coordinates] *)

Abbreviation coords := (option float * option float)%type.

(** [l[i]] on a list *)
Definition index {A} (l : list A) (i : nat) : result A :=
  match l !! i with
  | Some a => Ok a
  | None => Raise (Exn IndexError "list index out of range")
  end.

(** The body of the [try] block: [Ok None] when the [if] is not taken. *)
Definition extract_coordinates_try (coord_str : pyval) : result (option (float * float)) :=
  match coord_str with
  | VStr coord_str =>
      if PyStr.contains "LAT:" coord_str && PyStr.contains "LONG:" coord_str then
        let parts := PyStr.split coord_str "LONG:" in
        p0 ← index parts 0;
        lat ← PyFloat.of_string (PyStr.strip (PyStr.replace p0 "LAT:" ""));
        p1 ← index parts 1;
        lon ← PyFloat.of_string (PyStr.strip p1);
        Ok (Some (lat, lon))
      else Ok None
  | _ => Raise (Exn TypeError "argument is not iterable")
  end.

Definition extract_coordinates (coord_str : pyval) : coords :=
  match extract_coordinates_try coord_str with
  | Ok (Some (lat, lon)) => (Some lat, Some lon)
  | Ok None => (None, None)
  | Raise _ => (None, None)
  end.

(** The two texts that the code hands to [float]: [parts[0]] with every
    ["LAT:"] removed, and [parts[1]], the text between the first ["LONG:"]
    and the second one (or the end), both stripped. *)
Definition lat_payload (s : string) : string :=
  PyStr.strip (PyStr.replace (default "" (PyStr.split s "LONG:" !! 0%nat)) "LAT:" "").

Definition lon_payload (s : string) : string :=
  PyStr.strip (default "" (PyStr.split s "LONG:" !! 1%nat)).

(** ** TableExtractor: [read_pdf_to_df], lines 25-56

    The pages are what [pdfplumber] hands over: per page the list of
    extracted tables, each a list of rows of cells, a cell being a text or
    [None].  The model ends with the frame of line 56; the stages after it
    (clustering, the join with the county polygons, the display) are
    library calls that add the columns [Cluster], [geometry], [index_right]
    and [Correct County] and drop no column. *)

Abbreviation cell := (option string).
Abbreviation row := (list cell).
Abbreviation table := (list row).
Abbreviation page := (list table).

Definition REQUIRED_COLUMNS : list string :=
  ["REP"; "CUSTOMER ID"; "CUSTOMER NAME"; "LOCATION"; "COORDINATES";
   "INVOICE NO."; "AMOUNT"; "TONNAGE"].

Definition LF : string := String "010" EmptyString.

(** [str(c)] and the truth value of a cell *)
Definition py_str (c : cell) : string := default "None" c.

Definition cell_truthy (c : cell) : bool :=
  match c with
  | Some s => negb (String.eqb s "")
  | None => false
  end.

Definition clean_column_names (cols : list cell) : list string :=
  (λ c, PyStr.strip (PyStr.replace (py_str c) LF " ")) <$> filter (λ c, cell_truthy c) cols.

(** [row and row[0] and not row[0].startswith("Sales Order Booking")] *)
Definition is_header_row (r : row) : bool :=
  match r with
  | c :: _ => cell_truthy c && negb (PyStr.startswith (py_str c) "Sales Order Booking")
  | [] => false
  end.

(** [any(str(c).strip() for c in r)] *)
Definition nonblank (r : row) : bool :=
  existsb (λ c, negb (String.eqb (PyStr.strip (py_str c)) "")) r.

(** The [for row in tbl] loop of line 34. *)
Definition find_header (tbl : table) : option (list string) :=
  clean_column_names <$> (snd <$> list_find (λ r, is_header_row r) tbl).

Definition list_truthy {A} (l : option (list A)) : bool :=
  match l with
  | Some (_ :: _) => true
  | _ => false
  end.

(** The data rows one table contributes (lines 33-40) and the header after
    it, on page [i] with the header found so far. *)
Definition table_data (i : nat) (header : option (list string)) (tbl : table)
    : option (list string) * list row :=
  match i, header with
  | O, None =>
      let header := find_header tbl in
      (header, if list_truthy header then drop 1 tbl else [])
  | _, _ => (header, tbl)
  end.

Abbreviation scan_state := (list row * option (list string))%type.

Definition scan_table (i : nat) (st : scan_state) (tbl : table) : scan_state :=
  let '(all_rows, header) := st in
  let '(header, data) := table_data i header tbl in
  (all_rows ++ filter (λ r, nonblank r) data, header).

Fixpoint scan_pages (i : nat) (pages : list page) (st : scan_state) : scan_state :=
  match pages with
  | pg :: pages' => scan_pages (S i) pages' (foldl (scan_table i) st pg)
  | [] => st
  end.

Definition scan (pages : list page) : scan_state := scan_pages 0 pages ([], None).

(** The frame of lines 46-53: column labels and rows of cells. *)
Record dataframe := DataFrame { columns : list string; rows : list row }.

Definition NO_VALID_DATA : exn :=
  Exn ValueError "PDF parsing failed — no valid data found.".

(** [pd.DataFrame(all_rows, columns=cols)]: short rows are filled with
    [None]; the number of labels must be the length of the longest row (the
    message of the error leaves the two counts out). *)
Definition make_frame (all_rows : list row) (cols : list string) : result dataframe :=
  let width := max_list (length <$> all_rows) in
  if decide (length cols = width)
  then Ok (DataFrame cols ((λ r, r ++ replicate (width - length r) None) <$> all_rows))
  else Raise (Exn ValueError "columns passed, passed data had columns").

Definition required (c : string) : bool :=
  bool_decide (PyStr.upper (PyStr.strip c) ∈ REQUIRED_COLUMNS).

(** Line 47: a cell of the row is one of the required column names. *)
Definition repeats_header (r : row) : bool :=
  existsb (λ c, required (py_str c)) r.

Definition NOISE : list string := ["Fixed"; "Driver Sign"; "Mileage"; "Cartons"].

(** Line 48: a cell of the row holds one of the noise markers. *)
Definition has_noise (r : row) : bool :=
  existsb (λ c, existsb (λ m, PyStr.contains_nocase m (py_str c)) NOISE) r.

(** Lines 49-50: the required columns, renamed. *)
Definition select_required (cols : list string) (r : row) : row :=
  snd <$> filter (λ cv, required cv.1) (zip cols r).

(** Line 52: [astype(str)] (under pandas 1 and 2 a missing cell becomes
    the text ["None"]), the collapse of line breaks and [strip]. *)
Definition normalize (c : cell) : cell :=
  Some (PyStr.strip (PyStr.collapse_newlines (py_str c))).

Definition notna (c : cell) : bool := bool_decide (is_Some c).

(** [df[label]] on a frame with distinct labels: the position of the column. *)
Definition column_index (cols : list string) (label : string) : result nat :=
  match list_find (λ c, c = label) cols with
  | Some (i, _) => Ok i
  | None => Raise (Exn KeyError label)
  end.

Definition at_column (i : nat) (r : row) : cell := default None (r !! i).

(** Lines 46-53. *)
Definition clean_frame (all_rows : list row) (header : list string) : result dataframe :=
  df ← make_frame all_rows (clean_column_names (Some <$> header));
  let rows := filter (λ r, negb (repeats_header r)) (rows df) in
  let rows := filter (λ r, negb (has_noise r)) rows in
  let rows := select_required (columns df) <$> rows in
  let cols := (λ c, PyStr.upper (PyStr.strip c)) <$> filter (λ c, required c) (columns df) in
  if bool_decide (NoDup cols) then
    let rows := fmap normalize <$> rows in
    cid ← column_index cols "CUSTOMER ID";
    let rows := filter (λ r, notna (at_column cid r)) rows in
    let rows := filter (λ r, existsb notna r) rows in
    Ok (DataFrame cols rows)
  else Raise (Exn AttributeError "'DataFrame' object has no attribute 'str'").

Definition cell_val (c : cell) : pyval :=
  match c with
  | Some s => VStr s
  | None => VNone
  end.

Definition float_val (x : option float) : pyval :=
  match x with
  | Some x => VFloat x
  | None => VNone
  end.

(** [dropna] looks for [None] and NaN. *)
Definition isna (v : pyval) : bool :=
  match v with
  | VNone => true
  | VFloat x => PyFloat.is_nan x
  | _ => false
  end.

(** Line 55 for one row: the cells under their labels, then [LAT] and [LONG]. *)
Definition with_coordinates (cols : list string) (ci : nat) (r : row) : series :=
  let '(lat, lon) := extract_coordinates (cell_val (at_column ci r)) in
  zip cols (cell_val <$> r) ++ [("LAT", float_val lat); ("LONG", float_val lon)].

(** Lines 55-56.  On a frame without rows the assignment of line 55 fails
    in pandas: the [apply] yields an empty series, not two columns. *)
Definition locate (df : dataframe) : result (list series) :=
  ci ← column_index (columns df) "COORDINATES";
  match rows df with
  | [] => Raise (Exn ValueError "Columns must be same length as key")
  | _ =>
      Ok (filter (λ r, negb (isna (get r "LAT" VNone)) && negb (isna (get r "LONG" VNone)))
                 (with_coordinates (columns df) ci <$> rows df))
  end.

(** Lines 25-56 of [read_pdf_to_df]: the frame that line 56 leaves, as the
    list of its records.  [Ok] says that line 58 is reached with this
    frame; the rest of the function (lines 58-68) is not part of it. *)
Definition read_pdf_to_df (pages : list page) : result (list series) :=
  let '(all_rows, header) := scan pages in
  match header, all_rows with
  | Some (h :: header'), _ :: _ =>
      df ← clean_frame all_rows (h :: header');
      locate df
  | _, _ => Raise NO_VALID_DATA
  end.

(** ** Decoded JSON *)

Inductive json :=
  | JNull
  | JBool (b : bool)
  | JInt (n : Z)
  | JFloat (x : float)
  | JStr (s : string)
  | JList (l : list json)
  | JDict (kvs : list (string * json)).

(** Is the finite float [x] the integer [n]? *)
Definition float_eq_Z (x : float) (n : Z) : bool :=
  match x with
  | S754_zero _ => n =? 0
  | S754_finite s m e =>
      if 0 <=? e then cond_Zopp s (Z.pos m * 2 ^ e) =? n
      else cond_Zopp s (Z.pos m) =? n * 2 ^ (- e)
  | _ => false
  end.

(** Python's [==] on decoded JSON: numbers and booleans compare by value,
    lists element by element, dicts (whose keys are distinct) key by key. *)
Fixpoint py_eq (a b : json) {struct a} : bool :=
  match a, b with
  | JNull, JNull => true
  | JBool x, JBool y => Bool.eqb x y
  | JBool x, JInt n | JInt n, JBool x => Z.b2z x =? n
  | JBool x, JFloat f | JFloat f, JBool x => float_eq_Z f (Z.b2z x)
  | JInt m, JInt n => m =? n
  | JInt n, JFloat f | JFloat f, JInt n => float_eq_Z f n
  | JFloat f, JFloat g => SFeqb f g
  | JStr s, JStr t => String.eqb s t
  | JList l, JList l' =>
      (fix go (l l' : list json) : bool :=
         match l, l' with
         | [], [] => true
         | u :: l, v :: l' => py_eq u v && go l l'
         | _, _ => false
         end) l l'
  | JDict kvs, JDict kvs' =>
      (length kvs =? length kvs')%nat &&
      (fix go (kvs : list (string * json)) : bool :=
         match kvs with
         | [] => true
         | (k, u) :: kvs =>
             match assoc k kvs' with
             | Some v => py_eq u v
             | None => false
             end && go kvs
         end) kvs
  | _, _ => false
  end.

(** ** Orders *)

Module Order.

(** The ["p"] entry of the payload. *)
Record props := Props {
  p_n : pyval;
  a : string;
  w : Z;
  c : pyval;
  cid : string;
  uic : string;
  cm : string
}.

(** The payload built by [convert_to_orders]; [sequence] is the key that
    [optimize_route] adds. *)
Record t := Make {
  itemId : Z;
  id : json;
  n : pyval;
  oldOrderId : Z;
  oldOrderFiles : list json;
  p : props;
  rp : string;
  tf : Z;
  tt : Z;
  trt : Z;
  r : Z;
  y : float;
  x : float;
  tz : Z;
  ej : list (string * json);
  callMode : string;
  dp : list json;
  cf : list (string * string);
  routing_mode : string;
  path_type : string;
  sequence : option Z
}.

(** [o['id'] = v] *)
Definition set_id (v : json) (o : t) : t :=
  Make (itemId o) v (n o) (oldOrderId o) (oldOrderFiles o) (p o) (rp o)
       (tf o) (tt o) (trt o) (r o) (y o) (x o) (tz o) (ej o) (callMode o)
       (dp o) (cf o) (routing_mode o) (path_type o) (sequence o).

(** [o['sequence'] = k] *)
Definition set_sequence (k : option Z) (o : t) : t :=
  Make (itemId o) (id o) (n o) (oldOrderId o) (oldOrderFiles o) (p o) (rp o)
       (tf o) (tt o) (trt o) (r o) (y o) (x o) (tz o) (ej o) (callMode o)
       (dp o) (cf o) (routing_mode o) (path_type o) k.

End Order.

(** ** OrderBuilder: [convert_to_orders] *)

Section OrderBuilder.

(** [repr] of a float, used by the f-string of the address. *)
Variable float_repr : float → string.

(** [str(v)] *)
Definition str (v : pyval) : string :=
  match v with
  | VNone => "None"
  | VInt n => pretty n
  | VFloat x => float_repr x
  | VStr s => s
  end.

(** Line 162. *)
Definition order_weight (r : series) : result Z :=
  if truthy (get r "TONNAGE" VNone) then
    t ← py_float (get r "TONNAGE" (VInt 0));
    PyFloat.to_int (PyFloat.mul t (PyFloat.of_decimal false 1000 0))
  else Ok 0.

(** [county_asset.get(county, "")]: the keys of the dict are strings. *)
Definition asset_of (county_asset : gmap string string) (county : pyval) : string :=
  match county with
  | VStr s => default "" (county_asset !! s)
  | _ => ""
  end.

(** The body of the loop for one row: [None] for the [continue]. *)
Definition convert_row (tf tt : Z) (county_asset : gmap string string) (r : series)
    : result (option Order.t) :=
  coord_str ← getitem r "COORDINATES";
  match extract_coordinates coord_str with
  | (Some lat, Some lon) =>
      w ← order_weight r;
      county ← getitem r "Correct County";
      let asset := asset_of county_asset county in
      n ← getitem r "CUSTOMER NAME";
      p_n ← getitem r "CUSTOMER NAME";
      county ← getitem r "Correct County";
      let a := str county +:+ " (LAT:" +:+ float_repr lat +:+ ", LONG:" +:+ float_repr lon +:+ ")" in
      c ← getitem r "AMOUNT";
      cid ← getitem r "CUSTOMER ID";
      uic ← getitem r "INVOICE NO";
      Ok (Some {|
        Order.itemId := 25601229;
        Order.id := JInt 0;
        Order.n := n;
        Order.oldOrderId := 0;
        Order.oldOrderFiles := [];
        Order.p := {|
          Order.p_n := p_n;
          Order.a := a;
          Order.w := w;
          Order.c := c;
          Order.cid := str cid;
          Order.uic := str uic;
          Order.cm := "Handle with care" |};
        Order.rp := if String.eqb asset "" then "Unassigned" else asset;
        Order.tf := tf;
        Order.tt := tt;
        Order.trt := 600;
        Order.r := 20;
        Order.y := lat;
        Order.x := lon;
        Order.tz := 3;
        Order.ej := [];
        Order.callMode := "create";
        Order.dp := [];
        Order.cf := [("delivery_notes", ""); ("payment_status", "")];
        Order.routing_mode := "optimal";
        Order.path_type := "optimal";
        Order.sequence := None |})
  | _ => Ok None
  end.

Fixpoint convert_to_orders (gdf : list series) (tf tt : Z)
    (county_asset : gmap string string) : result (list Order.t) :=
  match gdf with
  | r :: gdf' =>
      o ← convert_row tf tt county_asset r;
      orders ← convert_to_orders gdf' tf tt county_asset;
      Ok (option_list o ++ orders)
  | [] => Ok []
  end.

End OrderBuilder.

(** ** RemoteOrderService

    Orders are Python dicts that [send_orders] and [optimize_route] update
    in place and pass around by reference: the lists hold locations of a
    store of orders.  A remote call ([requests.post] followed by
    [resp.json()]) either raises or yields the decoded body; the [k]-th
    call of a run gets the [k]-th outcome of the stream [remote]. *)

Abbreviation loc := nat (only parsing).
Abbreviation store := (loc → Order.t).

Inductive outcome :=
  | Raised (e : exn)
  | Decoded (v : json).

Inductive request :=
  | OrderUpdate (o : Order.t)
  | OrderOptimize (orders : list json) (resource : string) (flags : Z)
      (departure : Z) (path_type optimization_type : string)
  | OrderRouteUpdate (id : json) (path_type : string) (flags : Z).

(** What the operator sees, with the values the messages are built from. *)
Inductive message :=
  | CreateFailed (n : pyval) (error : json)
  | Created (n : pyval) (id : json)
  | OptimizationFailed (resource : string)
  | OptimizationError (resource : string) (e : exn)
  | RouteUpdateFailed (n : pyval) (error : json)
  | RouteUpdateError (n : pyval) (e : exn)
  | Text (s : string).

Inductive event :=
  | Post (svc : string) (params : request)
  | Sleep (seconds : Z)
  | StError (m : message)
  | StSuccess (m : message)
  | StWarning (m : message)
  | StInfo (m : message).

Record world := World { heap : store; calls : nat; log : list event }.

(** Computations that read and update the world and may raise. *)
Definition M (A : Type) : Type := world → result A * world.

Definition ret {A} (a : A) : M A := λ w, (Ok a, w).

Definition bind {A B} (m : M A) (k : A → M B) : M B :=
  λ w, match m w with
       | (Ok a, w') => k a w'
       | (Raise e, w') => (Raise e, w')
       end.

(** [try: m  except Exception as e: h e]; what [m] did before it raised stays. *)
Definition try_except {A} (m : M A) (h : exn → M A) : M A :=
  λ w, match m w with
       | (Ok a, w') => (Ok a, w')
       | (Raise e, w') => h e w'
       end.

#[global] Instance M_ret : MRet M := @ret.
#[global] Instance M_bind : MBind M := λ A B k m, bind m k.

Definition emit (ev : event) : M unit :=
  λ w, (Ok (), World (heap w) (calls w) (log w ++ [ev])).

Definition gets {A} (f : store → A) : M A := λ w, (Ok (f (heap w)), w).

Definition modify (f : store → store) : M unit :=
  λ w, (Ok (), World (f (heap w)) (calls w) (log w)).

Definition lift {A} (r : result A) : M A := λ w, (r, w).

(** [for x in l: body x] *)
Fixpoint for_each {A} (l : list A) (body : A → M unit) : M unit :=
  match l with
  | a :: l' => body a;; for_each l' body
  | [] => ret ()
  end.

(** [k in d] and [d[k]] on a decoded value that [isinstance(_, dict)]. *)
Definition dict_get (result : json) (k : string) : option json :=
  match result with
  | JDict kvs => assoc k kvs
  | _ => None
  end.

Fixpoint chars (s : string) : list json :=
  match s with
  | String c s' => JStr (String c EmptyString) :: chars s'
  | EmptyString => []
  end.

(** The items [enumerate(v)] goes through. *)
Definition iterate (v : json) : result (list json) :=
  match v with
  | JList l => Ok l
  | JStr s => Ok (chars s)
  | JDict kvs => Ok (JStr <$> kvs.*1)
  | _ => Raise (Exn TypeError "object is not iterable")
  end.

(** [orders_by_resource]: a dict keeps its keys in insertion order. *)
Fixpoint group_insert (resource : string) (o : loc) (groups : list (string * list loc))
    : list (string * list loc) :=
  match groups with
  | (k, os) :: groups' =>
      if String.eqb k resource then (k, os ++ [o]) :: groups'
      else (k, os) :: group_insert resource o groups'
  | [] => [(resource, [o])]
  end.

Definition group_by_resource (h : store) (orders : list loc) : list (string * list loc) :=
  foldl (λ groups o, group_insert (Order.rp (h o)) o groups) [] orders.

(** Lines 117-120: the first order of the group with this id gets the
    sequence number. *)
Definition assign_sequence (resource_orders : list loc) (idx : nat) (order_id : json)
    (h : store) : store :=
  match list_find (λ o, py_eq (Order.id (h o)) order_id = true) resource_orders with
  | Some (_, o) => <[o := Order.set_sequence (Some (Z.of_nat idx + 1)) (h o)]> h
  | None => h
  end.

(** Lines 116-120, from position [idx] on. *)
Fixpoint assign_sequences (resource_orders : list loc) (idx : nat) (ids : list json)
    (h : store) : store :=
  match ids with
  | order_id :: ids' =>
      assign_sequences resource_orders (S idx) ids'
        (assign_sequence resource_orders idx order_id h)
  | [] => h
  end.

Section Remote.

Variable remote : nat → outcome.

(** [requests.post(url, params={"svc": svc, "params": json.dumps(params)}).json()] *)
Definition post (svc : string) (params : request) : M json :=
  λ w, let w' := World (heap w) (S (calls w)) (log w ++ [Post svc params]) in
       match remote (calls w) with
       | Raised e => (Raise e, w')
       | Decoded v => (Ok v, w')
       end.

(** The body of the loop of line 91 for one group: the orders it appends
    to [optimized_orders]. *)
Definition optimize_group (resource : string) (resource_orders : list loc)
    : M (list loc) :=
  if (length resource_orders <? 2)%nat then ret resource_orders
  else
    ids ← gets (λ h, (λ o, Order.id (h o)) <$> resource_orders);
    first ← lift (index resource_orders 0);
    departure ← gets (λ h, Order.tf (h first));
    let optimization_params :=
      OrderOptimize ids resource 1 departure "optimal" "time" in
    try_except
      (result ← post "order/optimize" optimization_params;
       match dict_get result "orders" with
       | Some returned =>
           returned ← lift (iterate returned);
           modify (assign_sequences resource_orders 0 returned);;
           ret resource_orders
       | None =>
           emit (StWarning (OptimizationFailed resource));;
           ret resource_orders
       end)
      (λ e,
         emit (StWarning (OptimizationError resource e));;
         ret resource_orders).

Fixpoint optimize_groups (groups : list (string * list loc)) : M (list loc) :=
  match groups with
  | (resource, resource_orders) :: groups' =>
      done ← optimize_group resource resource_orders;
      rest ← optimize_groups groups';
      ret (done ++ rest)
  | [] => ret []
  end.

Definition optimize_route (orders : list loc) : M (list loc) :=
  groups ← gets (λ h, group_by_resource h orders);
  optimize_groups groups.

Definition update_route_paths (orders : list loc) : M unit :=
  for_each orders (λ order,
    try_except
      (id ← gets (λ h, Order.id (h order));
       result ← post "order/route_update" (OrderRouteUpdate id "optimal" 1);
       match dict_get result "error" with
       | Some error =>
           n ← gets (λ h, Order.n (h order));
           emit (StWarning (RouteUpdateFailed n error))
       | None => ret ()
       end)
      (λ e,
         n ← gets (λ h, Order.n (h order));
         emit (StWarning (RouteUpdateError n e)));;
    emit (Sleep 1)).

(** The loop of line 213: the orders created so far are [created]. *)
Fixpoint create_orders (orders : list loc) (created : list loc) : M (list loc) :=
  match orders with
  | o :: orders' =>
      payload ← gets (λ h, h o);
      result ← post "order/update" (OrderUpdate payload);
      created ←
        match dict_get result "error" with
        | Some error =>
            emit (StError (CreateFailed (Order.n payload) error));;
            ret created
        | None =>
            modify (λ h, <[o := Order.set_id result (h o)]> h);;
            emit (StSuccess (Created (Order.n payload) result));;
            ret (created ++ [o])
        end;
      emit (Sleep 1);;
      create_orders orders' created
  | [] => ret created
  end.

Definition send_orders (orders : list loc) : M unit :=
  created_orders ← create_orders orders [];
  match created_orders with
  | _ :: _ =>
      emit (StInfo (Text "Optimizing routes..."));;
      optimized_orders ← optimize_route created_orders;
      emit (StInfo (Text "Updating routes to follow roads..."));;
      update_route_paths optimized_orders;;
      emit (StSuccess (Text "✅ Routes optimized and updated to follow roads"))
  | [] => ret ()
  end.

End Remote.

(** "A header row was located": some row of some table of the first page
    passes the test of line 35. *)
Definition header_located (pages : list page) : bool :=
  match pages with
  | pg :: _ => existsb (existsb is_header_row) pg
  | [] => false
  end.

(** ** Sample manifest *)

Module Sample.

Definition header_cells : row :=
  Some <$> ["REP"; "CUSTOMER ID"; "CUSTOMER NAME"; "LOCATION"; "COORDINATES";
            "INVOICE NO."; "AMOUNT"; "TONNAGE"].

Definition banner : row :=
  [Some "Sales Order Booking Report"; None; None; None; None; None; None; None].

Definition acme : row :=
  Some <$> ["R1"; "C1"; "Acme"; "Nairobi"; "LAT: -1.28 LONG: 36.82"; "INV1"; "100"; "2"].

Definition mileage : row :=
  Some <$> ["Mileage"; ""; ""; ""; ""; ""; ""; ""].

(** A line above the header whose first cell is empty. *)
Definition carried_over : row :=
  Some <$> [""; "C0"; "Carried"; "Thika"; "LAT: -1.03 LONG: 37.07"; "INV0"; "50"; "1"].

(** Rows without a customer id: a missing cell and an empty one. *)
Definition no_customer : row :=
  [Some "R2"; None; Some "Beta"; Some "Nakuru"; Some "LAT: -0.30 LONG: 36.08";
   Some "INV2"; Some "70"; Some "1.5"].

Definition empty_customer : row :=
  Some <$> ["R3"; ""; "Gamma"; "Kisumu"; "LAT: -0.09 LONG: 34.77"; "INV3"; "80"; "0.5"].

Definition unlocated : row :=
  Some <$> ["R4"; "C4"; "Delta"; "Mombasa"; "n/a"; "INV4"; "90"; "3"].

Definition lat_acme : float := S754_finite true 5764607523034235 (-52).
Definition lon_acme : float := S754_finite false 5181954321243177 (-47).

(** The row of [acme] in the frame that reaches [convert_to_orders], with
    the columns that are read there. *)
Definition acme_record : series :=
  [("REP", VStr "R1"); ("CUSTOMER ID", VStr "C1"); ("CUSTOMER NAME", VStr "Acme");
   ("LOCATION", VStr "Nairobi"); ("COORDINATES", VStr "LAT: -1.28 LONG: 36.82");
   ("INVOICE NO.", VStr "INV1"); ("AMOUNT", VStr "100"); ("TONNAGE", VStr "2");
   ("LAT", VFloat lat_acme); ("LONG", VFloat lon_acme);
   ("Cluster", VInt 0); ("Correct County", VStr "Nairobi")].

End Sample.

(** ** Exact values of floats, for the statements about the weight *)

(** The value of a finite float as a fraction [n / d] with [0 < d]. *)
Definition exact (x : float) : option (Z * Z) :=
  match x with
  | S754_zero _ => Some (0, 1)
  | S754_finite s m e =>
      if 0 <=? e then Some (cond_Zopp s (Z.pos m * 2 ^ e), 1)
      else Some (cond_Zopp s (Z.pos m), 2 ^ (- e))
  | _ => None
  end.

(** [w] is [n / d] cut at the decimal point. *)
Definition truncation (n d w : Z) : Prop :=
  Z.abs w * d ≤ Z.abs n < (Z.abs w + 1) * d ∧ 0 ≤ w * n.

(** The integer nearest to [n / d], the even one of two. *)
Definition nearest (n d : Z) : Z :=
  let q := n / d in
  match 2 * (n mod d) ?= d with
  | Lt => q
  | Gt => q + 1
  | Eq => if Z.even q then q else q + 1
  end.

(** The weight as the specification words it: the tonnage times 1000
    rounded to the nearest integer when the tonnage is there and is a
    number, 0 otherwise. *)
Definition specified_weight (r : series) : Z :=
  match py_float (get r "TONNAGE" VNone) with
  | Ok t =>
      match exact (PyFloat.mul t (PyFloat.of_decimal false 1000 0)) with
      | Some (n, d) => nearest n d
      | None => 0
      end
  | Raise _ => 0
  end.

(** ** Sample batch *)

Module Batch.

Definition order (name resource : string) (departure : Z) : Order.t :=
  {| Order.itemId := 25601229;
     Order.id := JInt 0;
     Order.n := VStr name;
     Order.oldOrderId := 0;
     Order.oldOrderFiles := [];
     Order.p := {| Order.p_n := VStr name;
                   Order.a := "Nairobi (LAT:-1.28, LONG:36.82)";
                   Order.w := 2000;
                   Order.c := VStr "100";
                   Order.cid := "C1";
                   Order.uic := "INV1";
                   Order.cm := "Handle with care" |};
     Order.rp := resource;
     Order.tf := departure;
     Order.tt := departure + 86400;
     Order.trt := 600;
     Order.r := 20;
     Order.y := Sample.lat_acme;
     Order.x := Sample.lon_acme;
     Order.tz := 3;
     Order.ej := [];
     Order.callMode := "create";
     Order.dp := [];
     Order.cf := [("delivery_notes", ""); ("payment_status", "")];
     Order.routing_mode := "optimal";
     Order.path_type := "optimal";
     Order.sequence := None |}.

(** Four orders, three of them for the truck KDA 001. *)
Definition orders : store :=
  λ l, match l with
       | 0 => order "Acme" "KDA 001" 1700000000
       | 1 => order "Beta" "KDA 001" 1700000000
       | 2 => order "Gamma" "KDB 002" 1700000000
       | _ => order "Delta" "KDA 001" 1700000000
       end%nat.

Definition start : world := World orders 0 [].

(** The second call does not come back with JSON. *)
Definition malformed_second : nat → outcome :=
  λ k, match k with
       | 1%nat => Raised (Exn JSONDecodeError "Expecting value: line 1 column 1 (char 0)")
       | _ => Decoded (JInt (100 + Z.of_nat k))
       end.

(** The orders of the store with the ids the service gave them. *)
Definition created : store :=
  λ l, Order.set_id (JInt (100 + Z.of_nat l)) (orders l).

Definition optimized (v : json) : nat → outcome := λ _, Decoded v.

End Batch.

(** ** Notions for the statements about [optimize_route] *)

(** The stores differ at most in the [sequence] of their orders. *)
Definition same_but_sequence (h h' : store) : Prop :=
  ∀ l, Order.set_sequence None (h' l) = Order.set_sequence None (h l).

(** The order of the group that a returned id stands for: the first one
    with this id. *)
Definition picked (h : store) (resource_orders : list loc) (order_id : json) : option loc :=
  snd <$> list_find (λ o, py_eq (Order.id (h o)) order_id = true) resource_orders.

(** The request of lines 97-111 for a group. *)
Definition optimization_request (h : store) (resource : string) (resource_orders : list loc)
    : request :=
  OrderOptimize ((λ o, Order.id (h o)) <$> resource_orders) resource 1
    (Order.tf (h (default 0%nat (head resource_orders)))) "optimal" "time".

(** ** Session: [login_to_wialon] *)

(** [k in v] for a text [k] and a decoded value [v]. *)
Definition json_contains (k : string) (v : json) : result bool :=
  match v with
  | JDict kvs => Ok (bool_decide (is_Some (assoc k kvs)))
  | JList l => Ok (existsb (λ item, py_eq item (JStr k)) l)
  | JStr s => Ok (PyStr.contains k s)
  | _ => Raise (Exn TypeError "argument is not iterable")
  end.

(** [v[k]] for a text [k]. *)
Definition json_getitem (v : json) (k : string) : result json :=
  match v with
  | JDict kvs =>
      match assoc k kvs with
      | Some x => Ok x
      | None => Raise (Exn KeyError k)
      end
  | JList _ => Raise (Exn TypeError "list indices must be integers or slices, not str")
  | JStr _ => Raise (Exn TypeError "string indices must be integers")
  | _ => Raise (Exn TypeError "object is not subscriptable")
  end.

(** How [login_to_wialon] ends when no built-in exception leaves it: with
    the session id, or with the [Exception] of line 204, whose text is
    ["Login failed: "] followed by the answer. *)
Inductive login :=
  | LoggedIn (eid : json)
  | LoginFailed (data : json).

Section Session.

Variable remote : nat → outcome.

(** [requests.get(url, params=...).json()]: one more call to the service;
    the log lists the POST requests only. *)
Definition get_json : M json :=
  λ w, let w' := World (heap w) (S (calls w)) (log w) in
       match remote (calls w) with
       | Raised e => (Raise e, w')
       | Decoded v => (Ok v, w')
       end.

Definition login_to_wialon (token : string) : M login :=
  data ← get_json;
  present ← lift (json_contains "eid" data);
  if negb present then ret (LoginFailed data)
  else
    eid ← lift (json_getitem data "eid");
    ret (LoggedIn eid).

End Session.

(** ** Assets: [assign_assets_ui] *)

From stdpp Require sorting.

(** [Series.unique()]: the values in the order of their first appearance. *)
Definition unique (l : list string) : list string :=
  foldl (λ seen c, if bool_decide (c ∈ seen) then seen else seen ++ [c]) [] l.

(** [sorted] on texts: by code point. *)
Definition str_le (s t : string) : Prop := String.leb s t = true.

#[global] Instance str_le_dec (s t : string) : Decision (str_le s t) :=
  decide (String.leb s t = true).

Definition sorted (l : list string) : list string := sorting.merge_sort str_le l.

Section Widgets.

(** [st.text_input(label, key=key)]: the text that the widget [key] holds. *)
Variable text_input : string → string.

(** The argument is the column [Correct County] of the frame: the name of
    the county that holds the point, [None] where the join found none. *)
Definition assign_assets_ui (county : list (option string)) : gmap string string :=
  let counties := sorted (unique (omap id county)) in
  foldl (λ county_asset c, <[c := text_input ("asset_" +:+ c)]> county_asset) ∅ counties.

End Widgets.

(** ** Driver: [run_wialon_uploader], from line 247 on *)

(** [str(e)]: the message, and for a [KeyError] the key between quotes. *)
Definition exn_str (e : exn) : string :=
  match exn_type e with
  | KeyError => "'" +:+ exn_msg e +:+ "'"
  | _ => exn_msg e
  end.

(** [gdf["Correct County"]]: the column holds the names of the counties,
    and is missing (NaN) where the join found none. *)
Definition county_column (gdf : list series) : result (list (option string)) :=
  mapM (λ r, county ← getitem r "Correct County";
             Ok (match county with
                 | VStr county => Some county
                 | _ => None
                 end)) gdf.

(** The orders built by [convert_to_orders] become objects of the store,
    at the locations 0, 1, ... in the order of the list. *)
Definition allocate (orders : list Order.t) : M (list loc) :=
  λ w, (Ok (seq 0 (length orders)),
        World (λ l, default (heap w l) (orders !! l)) (calls w) (log w)).

Section Uploader.

Variable float_repr : float → string.
(** [str] of a decoded answer, as the f-string of line 204 prints it. *)
Variable json_repr : json → string.
Variable text_input : string → string.
Variable remote : nat → outcome.

(** The run after the form: [submit] is the button, [pdf] tells whether a
    file was uploaded, [frame] is what [read_pdf_to_df] does at line 257
    (the frame it returns or the exception it raises), [tf] and [tt] are
    the time stamps of line 254. *)
Definition run_wialon_uploader (submit pdf : bool) (token : string)
    (frame : result (list series)) (tf tt : Z) : M unit :=
  if submit then
    if negb pdf || String.eqb token "" then
      emit (StError (Text "Please upload a PDF and enter your token."))
    else
      try_except
        (gdf ← lift frame;
         county ← lift (county_column gdf);
         let assets := assign_assets_ui text_input county in
         orders ← lift (convert_to_orders float_repr gdf tf tt assets);
         emit (StInfo (Text (pretty (length orders) +:+ " orders prepared. Sending now…")));;
         session ← login_to_wialon remote token;
         match session with
         | LoggedIn sid =>
             orders ← allocate orders;
             send_orders remote orders
         | LoginFailed data =>
             emit (StError (Text ("❌ Login failed: " +:+ json_repr data)))
         end)
        (λ e, emit (StError (Text ("❌ " +:+ exn_str e))))
  else ret ().

End Uploader.

(** ** Notions for the statements about the requests *)

(** The requests of a log and the pauses, in their order. *)
Definition requests (l : list event) : list (string * request) :=
  omap (λ ev, match ev with Post svc params => Some (svc, params) | _ => None end) l.

Definition pauses (l : list event) : list Z :=
  omap (λ ev, match ev with Sleep s => Some s | _ => None end) l.

(** A group that [optimize_route] sends to the service: two orders or more. *)
Definition long (g : string * list loc) : Prop := (2 ≤ length g.2)%nat.

#[global] Instance long_dec (g : string * list loc) : Decision (long g) :=
  decide (2 ≤ length g.2)%nat.

(** An answer to [order/update] that is taken as the id of the order. *)
Definition accepted (result : json) : bool :=
  bool_decide (dict_get result "error" = None).

(** A record with coordinates that parse. *)
Definition located (r : series) : bool :=
  match extract_coordinates (get r "COORDINATES" VNone) with
  | (Some _, Some _) => true
  | _ => false
  end.

(** ** Sample records with the label that line 176 reads *)

Module Delivery.

Definition record (name coordinates tonnage county : string) : series :=
  [("CUSTOMER ID", VStr "C1"); ("CUSTOMER NAME", VStr name);
   ("COORDINATES", VStr coordinates); ("INVOICE NO", VStr "INV1");
   ("AMOUNT", VStr "100"); ("TONNAGE", VStr tonnage);
   ("Correct County", VStr county)].

Definition acme : series := record "Acme" "LAT: -1.28 LONG: 36.82" "2" "Nairobi".
Definition beta : series := record "Beta" "n/a" "1" "Nakuru".
Definition gamma : series := record "Gamma" "LAT: -0.09 LONG: 34.77" "0.5" "Kisumu".
Definition delta : series := record "Delta" "LAT: -4.04 LONG: 39.66" "two" "Mombasa".

Definition assets : gmap string string := {[ "Nairobi" := "KDA 001"; "Kisumu" := "" ]}.

Definition repr (x : float) : string := "".

End Delivery.

(** * Properties *)

(** ** Strings *)

Module PyStrFacts.
Import PyStr.

Lemma app_cons (c : ascii) (s t : string) : String c s +:+ t = String c (s +:+ t).
Proof. done. Qed.

Lemma app_nil_r (s : string) : s +:+ "" = s.
Proof. induction s as [|c s IH]; [done|]. by rewrite app_cons, IH. Qed.

Lemma app_assoc (s t u : string) : (s +:+ t) +:+ u = s +:+ t +:+ u.
Proof. induction s as [|c s IH]; [done|]. by rewrite !app_cons, IH. Qed.

Lemma rev_app_app (s t : string) : String.rev_app s t = String.rev s +:+ t.
Proof.
  unfold String.rev. revert t.
  induction s as [|c s IH]; intros t; [done|].
  cbn. rewrite (IH (String c t)), (IH (String c "")), app_assoc. done.
Qed.

Lemma rev_cons (c : ascii) (s : string) :
  String.rev (String c s) = String.rev s +:+ String c "".
Proof. unfold String.rev at 1. cbn. apply rev_app_app. Qed.

Lemma has_char_app c s t : has_char c (s +:+ t) = has_char c s || has_char c t.
Proof.
  induction s as [|c' s IH]; [done|].
  rewrite app_cons. cbn. rewrite IH. by destruct (Ascii.eqb c c').
Qed.

Lemma all_chars_impl (p q : ascii → bool) (s : string) :
  (∀ c, p c = true → q c = true) → all_chars p s = true → all_chars q s = true.
Proof.
  intros Hpq. induction s as [|c s IH]; [done|].
  cbn. intros [Hc Hs]%andb_prop. by rewrite (Hpq c Hc), IH.
Qed.

Lemma all_chars_has_char (p : ascii → bool) (c : ascii) (s : string) :
  all_chars p s = true → p c = false → has_char c s = false.
Proof.
  intros Hs Hc. induction s as [|c' s IH]; [done|].
  cbn in *. apply andb_prop in Hs as [Hc' Hs]. rewrite IH by done.
  destruct (Ascii.eqb_spec c c') as [->|]; [congruence|done].
Qed.

(** *** Stripping *)

Section strip.
Variable sp : ascii → bool.

Lemma lstrip_head (s : string) :
  match lstrip_by sp s with
  | String c _ => sp c = false
  | EmptyString => True
  end.
Proof.
  induction s as [|c s IH]; [done|].
  cbn. destruct (sp c) eqn:E; [done|]. exact E.
Qed.

Lemma rstrip_idemp (s : string) : rstrip_by sp (rstrip_by sp s) = rstrip_by sp s.
Proof.
  induction s as [|c s IH]; [done|].
  cbn. destruct (rstrip_by sp s) as [|c' r] eqn:E.
  - destruct (sp c) eqn:Ec; [done|]. cbn. by rewrite Ec.
  - cbn. cbn in IH. by rewrite IH.
Qed.

Lemma rstrip_head (c : ascii) (s : string) :
  sp c = false → ∃ r, rstrip_by sp (String c s) = String c r.
Proof.
  intros Hc. cbn. destruct (rstrip_by sp s); [|by eexists].
  rewrite Hc. by eexists.
Qed.

Lemma strip_idemp (s : string) : strip_by sp (strip_by sp s) = strip_by sp s.
Proof.
  unfold strip_by. pose proof (lstrip_head s) as H.
  destruct (lstrip_by sp s) as [|c t]; [done|].
  destruct (rstrip_head c t H) as [r Hr].
  rewrite Hr. cbn [lstrip_by]. rewrite H, <- Hr. apply rstrip_idemp.
Qed.

Lemma lstrip_spaces (w s : string) :
  all_chars sp w = true → lstrip_by sp (w +:+ s) = lstrip_by sp s.
Proof.
  induction w as [|c w IH]; [done|].
  rewrite app_cons. cbn. intros [Hc Hw]%andb_prop. rewrite Hc. auto.
Qed.

Lemma rstrip_all_space (w : string) : all_chars sp w = true → rstrip_by sp w = "".
Proof.
  induction w as [|c w IH]; [done|].
  cbn. intros [Hc Hw]%andb_prop. by rewrite IH, Hc.
Qed.

Lemma rstrip_spaces (s w : string) :
  all_chars sp w = true → rstrip_by sp (s +:+ w) = rstrip_by sp s.
Proof.
  intros Hw. induction s as [|c s IH].
  - by apply rstrip_all_space.
  - rewrite app_cons. cbn. by rewrite IH.
Qed.

Lemma strip_spaces (w s w' : string) :
  all_chars sp w = true → all_chars sp w' = true →
  strip_by sp (w +:+ s +:+ w') = strip_by sp s.
Proof.
  intros Hw Hw'. unfold strip_by. rewrite lstrip_spaces by done.
  induction s as [|c s IH].
  - cbn. assert (all_chars sp (lstrip_by sp w') = true) as H.
    { clear Hw. induction w' as [|c w' IH]; [done|].
      cbn in *. apply andb_prop in Hw' as [Hc Hw']. rewrite Hc. auto. }
    by apply rstrip_all_space.
  - rewrite app_cons. cbn [lstrip_by]. destruct (sp c); [done|].
    rewrite <- app_cons. by apply rstrip_spaces.
Qed.

(** What is stripped is white space. *)
Lemma lstrip_split (s : string) :
  ∃ w, all_chars sp w = true ∧ s = w +:+ lstrip_by sp s.
Proof.
  induction s as [|c s (w & Hw & IH)]; [by exists ""|].
  cbn. destruct (sp c) eqn:Hc; [|by exists ""].
  exists (String c w). cbn. rewrite Hc, Hw, app_cons. by rewrite <- IH.
Qed.

Lemma rstrip_split (s : string) :
  ∃ w, all_chars sp w = true ∧ s = rstrip_by sp s +:+ w.
Proof.
  induction s as [|c s (w & Hw & IH)]; [by exists ""|].
  cbn. destruct (rstrip_by sp s) as [|c' r] eqn:E.
  - destruct (sp c) eqn:Hc.
    + exists (String c w). cbn. rewrite Hc, Hw. by rewrite IH at 1.
    + exists w. split; [done|]. rewrite app_cons. by rewrite IH at 1.
  - exists w. split; [done|]. rewrite app_cons. by rewrite <- IH.
Qed.

Lemma strip_split (s : string) :
  ∃ w w', all_chars sp w = true ∧ all_chars sp w' = true ∧
          s = w +:+ strip_by sp s +:+ w'.
Proof.
  destruct (lstrip_split s) as (w & Hw & Hs).
  destruct (rstrip_split (lstrip_by sp s)) as (w' & Hw' & Hs').
  exists w, w'. split_and!; [done..|]. unfold strip_by. by rewrite <- Hs'.
Qed.

(** A text without white space is left as it is. *)
Lemma strip_fixed (s : string) :
  (∀ c, sp c = true → has_char c s = false) → strip_by sp s = s.
Proof.
  intros Hs. unfold strip_by.
  assert (lstrip_by sp s = s) as ->.
  { destruct s as [|c s]; [done|]. cbn. destruct (sp c) eqn:Hc; [|done].
    specialize (Hs c Hc). cbn in Hs. by rewrite Ascii.eqb_refl in Hs. }
  induction s as [|c s IH]; [done|].
  cbn. rewrite IH.
  - destruct s; [|done]. destruct (sp c) eqn:Hc; [|done].
    specialize (Hs c Hc). cbn in Hs. by rewrite Ascii.eqb_refl in Hs.
  - intros c' Hc'. specialize (Hs c' Hc'). cbn in Hs.
    by apply orb_false_elim in Hs as [_ Hs].
Qed.

Lemma has_char_lstrip c s :
  sp c = false → has_char c (lstrip_by sp s) = has_char c s.
Proof.
  intros Hc. induction s as [|c' s IH]; [done|].
  cbn. destruct (sp c') eqn:E; [|done].
  rewrite IH. destruct (Ascii.eqb_spec c c') as [->|]; [congruence|done].
Qed.

Lemma has_char_rstrip c s :
  sp c = false → has_char c (rstrip_by sp s) = has_char c s.
Proof.
  intros Hc. induction s as [|c' s IH]; [done|].
  cbn. destruct (rstrip_by sp s) as [|c'' r] eqn:E.
  - cbn in IH. rewrite <- IH.
    destruct (sp c') eqn:E'; cbn; [|done].
    destruct (Ascii.eqb_spec c c') as [->|]; [congruence|done].
  - cbn [has_char]. cbn [has_char] in IH. by rewrite IH.
Qed.

Lemma has_char_strip c s :
  sp c = false → has_char c (strip_by sp s) = has_char c s.
Proof.
  intros Hc. unfold strip_by. by rewrite has_char_rstrip, has_char_lstrip.
Qed.

End strip.

(** *** Texts in which the first character of a marker does not occur *)

Lemma startswith_head c pre s :
  has_char c s = false → startswith s (String c pre) = false.
Proof.
  destruct s as [|c' s]; [done|].
  cbn. destruct (Ascii.eqb_spec c c') as [->|]; [done|]. done.
Qed.

Lemma startswith_app_head c pre s t :
  has_char c s = false → s ≠ "" → startswith (s +:+ t) (String c pre) = false.
Proof.
  destruct s as [|c' s]; [done|]. intros H _.
  rewrite app_cons. cbn in *. destruct (Ascii.eqb_spec c c') as [->|]; done.
Qed.

Lemma startswith_app pre s : startswith (pre +:+ s) pre = true.
Proof.
  induction pre as [|c pre IH]; [done|].
  rewrite app_cons. cbn. by rewrite Ascii.eqb_refl.
Qed.

Lemma contains_app sub s t : contains sub (s +:+ sub +:+ t) = true.
Proof.
  induction s as [|c s IH].
  - change ("" +:+ sub +:+ t) with (sub +:+ t).
    assert (startswith (sub +:+ t) sub = true) as H by apply startswith_app.
    destruct (sub +:+ t); cbn; by rewrite H.
  - rewrite app_cons. cbn. rewrite IH. apply orb_true_r.
Qed.

Lemma split_go_skip sep s t k cur :
  String.length s = k → split_go sep (s +:+ t) k cur = split_go sep t 0 cur.
Proof.
  revert k. induction s as [|c s IH]; intros k Hk; cbn in Hk; subst; [done|].
  rewrite app_cons. cbn. by apply IH.
Qed.


(** Up to the first occurrence of the marker. *)
Lemma split_go_first c sep s t cur :
  has_char c s = false →
  split_go (String c sep) (s +:+ String c sep +:+ t) 0 cur
  = (String.rev cur +:+ s) :: split_go (String c sep) t 0 "".
Proof.
  revert cur. induction s as [|c' s IH]; intros cur Hs.
  - change ("" +:+ String c sep +:+ t) with (String c (sep +:+ t)).
    cbn [split_go]. rewrite <- app_cons.
    rewrite startswith_app. rewrite app_nil_r. f_equal.
    cbn [String.length]. rewrite Nat.sub_1_r. cbn [Nat.pred].
    by apply split_go_skip.
  - rewrite app_cons. cbn [split_go]. rewrite <- app_cons.
    rewrite startswith_app_head by done.
    cbn in Hs. apply orb_false_elim in Hs as [_ Hs].
    rewrite IH by done. by rewrite rev_cons, app_assoc.
Qed.

Lemma replace_go_clear c old new s :
  has_char c s = false → replace_go (String c old) new s 0 = s.
Proof.
  induction s as [|c' s IH]; intros Hs; [done|].
  cbn [replace_go]. rewrite startswith_head by done.
  cbn in Hs. apply orb_false_elim in Hs as [_ Hs]. by rewrite IH.
Qed.

Lemma replace_go_skip old new s t k :
  String.length s = k → replace_go old new (s +:+ t) k = replace_go old new t 0.
Proof.
  revert k. induction s as [|c s IH]; intros k Hk; cbn in Hk; subst; [done|].
  rewrite app_cons. cbn. by apply IH.
Qed.

(** A leading marker is removed. *)
Lemma replace_leading c old s :
  has_char c s = false → replace (String c old +:+ s) (String c old) "" = s.
Proof.
  intros Hs. unfold replace.
  rewrite app_cons. cbn [replace_go]. rewrite <- app_cons.
  rewrite startswith_app. cbn [String.length].
  rewrite Nat.sub_1_r. cbn [Nat.pred].
  rewrite replace_go_skip by done.
  change ("" +:+ ?x) with x. by apply replace_go_clear.
Qed.

(** *** Texts in which a separator does not occur *)




Lemma has_char_lower c s :
  has_char c s = true → has_char (lower_char c) (lower s) = true.
Proof.
  induction s as [|c' s IH]; [done|].
  cbn [has_char lower map_chars]. intros [H|H]%orb_prop.
  - apply Ascii.eqb_eq in H as <-. by rewrite Ascii.eqb_refl.
  - fold (lower s). rewrite IH by done. apply orb_true_r.
Qed.

End PyStrFacts.

(** ** Float literals *)

Module PyFloatFacts.
Import PyStr PyStrFacts PyFloat.

Lemma float_char_digit c c' d :
  float_char c = false → digit c' = Some d → Ascii.eqb c c' = false.
Proof.
  intros Hc Hd. destruct (Ascii.eqb_spec c c') as [->|]; [|done].
  unfold float_char in Hc. rewrite Hd in Hc.
  by rewrite bool_decide_eq_true_2 in Hc.
Qed.

Lemma float_char_mark c c' :
  float_char c = false → has_char c' "+-._eE" = true → Ascii.eqb c c' = false.
Proof.
  intros Hc Hm. destruct (Ascii.eqb_spec c c') as [->|]; [|done].
  unfold float_char in Hc. rewrite Hm in Hc. by rewrite orb_true_r in Hc.
Qed.

Lemma float_char_letter c :
  float_char c = false → has_char (lower_char c) "infatyn" = false.
Proof. unfold float_char. by intros [_ ?]%orb_false_elim. Qed.

Section outsider.
(** A character [c] that is none of those of a float literal. *)
Variable c : ascii.
Hypothesis Hc : float_char c = false.

(** [digitpart] reads digits and underscores only. *)
Lemma digitpart_rest (s : string) :
  ∀ acc n v k r, digitpart s acc n = (v, k, r) → has_char c s = has_char c r.
Proof.
  remember (S (String.length s)) as fuel eqn:Hfuel.
  assert (String.length s < fuel)%nat as Hlt by lia. clear Hfuel.
  revert s Hlt. induction fuel as [|fuel IH]; intros s Hlt; [lia|].
  intros acc n v k r H. destruct s as [|c1 s]; cbn in H; [by simplify_eq|].
  destruct (digit c1) as [d|] eqn:Hd.
  - cbn [has_char]. rewrite (float_char_digit _ _ _ Hc Hd). cbn [orb].
    eapply (IH s); [cbn in Hlt; lia|done].
  - destruct n as [|n]; [by simplify_eq|].
    destruct (Ascii.eqb_spec c1 "_"%char) as [->|Hc1].
    + destruct s as [|c2 s]; [by simplify_eq|].
      destruct (digit c2) as [d|] eqn:Hd'; [|by simplify_eq].
      cbn [has_char]. rewrite (float_char_digit _ _ _ Hc Hd').
      rewrite (float_char_mark _ "_" Hc) by done. cbn [orb].
      eapply (IH s); [cbn in Hlt; lia|done].
    + assert (r = String c1 s) as ->; [|done].
      destruct c1 as [[] [] [] [] [] [] [] []]; try (by simplify_eq); by destruct Hc1.
Qed.

Lemma sign_rest s neg r : sign s = (neg, r) → has_char c s = has_char c r.
Proof.
  unfold sign. intros H.
  destruct s as [|c1 s]; [by simplify_eq|].
  destruct (Ascii.eqb_spec c1 "-"%char) as [->|].
  { simplify_eq. cbn [has_char]. by rewrite (float_char_mark _ "-" Hc). }
  destruct (Ascii.eqb_spec c1 "+"%char) as [->|].
  { simplify_eq. cbn [has_char]. by rewrite (float_char_mark _ "+" Hc). }
  assert (r = String c1 s) as ->; [|done].
  destruct c1 as [[] [] [] [] [] [] [] []]; by simplify_eq.
Qed.

Lemma exponent_clear s e : exponent s = Some e → has_char c s = false.
Proof.
  unfold exponent. destruct s as [|c1 s]; [done|].
  destruct (Ascii.eqb c1 "e" || Ascii.eqb c1 "E") eqn:Hc1; [|done].
  destruct (sign s) as [neg s1] eqn:Hs.
  destruct (digitpart s1 0 0) as [[v k] r] eqn:Hd.
  destruct k; [done|]. destruct r; [|done]. intros _.
  cbn [has_char]. rewrite (sign_rest _ _ _ Hs), (digitpart_rest _ _ _ _ _ _ Hd).
  rewrite (float_char_mark _ c1 Hc); [done|].
  apply orb_prop in Hc1 as [->%Ascii.eqb_eq| ->%Ascii.eqb_eq]; done.
Qed.

Lemma floatnumber_clear s me : floatnumber s = Some me → has_char c s = false.
Proof.
  unfold floatnumber.
  destruct (digitpart s 0 0) as [[mi ni] s1] eqn:H1.
  rewrite (digitpart_rest _ _ _ _ _ _ H1).
  assert (∀ m nf s2,
    match (ni + nf)%nat with
    | O => None
    | S _ => e ← exponent s2; Some (m, e - Z.of_nat nf)
    end = Some me → has_char c s2 = false) as Hexp.
  { intros m nf s2. destruct (ni + nf)%nat; [done|].
    destruct (exponent s2) eqn:He; [|done]. intros _. by eapply exponent_clear. }
  destruct s1 as [|c1 s1]; [by apply Hexp|].
  destruct (Ascii.eqb_spec c1 "."%char) as [->|Hc1].
  - destruct (digitpart s1 mi 0) as [[m nf] s2] eqn:H2.
    intros H. cbn [has_char]. rewrite (float_char_mark _ "." Hc) by done. cbn [orb].
    rewrite (digitpart_rest _ _ _ _ _ _ H2). by eapply Hexp.
  - intros H. apply (Hexp mi O (String c1 s1)).
    destruct c1 as [[] [] [] [] [] [] [] []]; try done; by destruct Hc1.
Qed.

Lemma lower_clear s t :
  lower s = t → has_char (lower_char c) t = false → has_char c s = false.
Proof.
  intros <- H. destruct (has_char c s) eqn:E; [|done].
  by rewrite has_char_lower in H.
Qed.

(** The text that [float] accepts holds, between the white space at its
    ends, characters of float literals only. *)
Lemma parse_clear s x : parse s = Some x → has_char c (strip_by is_space s) = false.
Proof.
  unfold parse. destruct (sign (strip_by is_space s)) as [neg s'] eqn:Hs.
  intros H. rewrite (sign_rest _ _ _ Hs).
  unfold absfloatvalue in H. pose proof (float_char_letter _ Hc) as Hl.
  assert (∀ t, has_char (lower_char c) "infatyn" = false →
               t = "inf" ∨ t = "infinity" ∨ t = "nan" →
               has_char (lower_char c) t = false) as Hword.
  { intros t Ht Hin. cbn [has_char] in Ht.
    repeat match type of Ht with
           | _ || _ = false => apply orb_false_elim in Ht as [? Ht]
           end.
    destruct Hin as [->|[->| ->]]; cbn [has_char];
      repeat (apply orb_false_intro; [done|]); done. }
  destruct (String.eqb_spec (lower s') "inf") as [E|_];
    [eapply lower_clear; [exact E|]; apply Hword; auto|].
  destruct (String.eqb_spec (lower s') "infinity") as [E|_];
    [eapply lower_clear; [exact E|]; apply Hword; auto|].
  destruct (String.eqb_spec (lower s') "nan") as [E|_];
    [eapply lower_clear; [exact E|]; apply Hword; auto|].
  cbn in H. destruct (floatnumber s') as [me|] eqn:Hf; [|done].
  by eapply floatnumber_clear.
Qed.

End outsider.

Lemma is_space_float_char c : PyStr.is_space c = true → float_char c = false.
Proof. destruct c as [[] [] [] [] [] [] [] []]; by vm_compute. Qed.

Lemma float_space_is_space c : is_space c = true → PyStr.is_space c = true.
Proof. destruct c as [[] [] [] [] [] [] [] []]; by vm_compute. Qed.

(** A text that [float] accepts holds no ["L"]. *)
Lemma parse_no_L s x : parse s = Some x → has_char "L" s = false.
Proof.
  intros H. rewrite <- (has_char_strip is_space "L" s) by done.
  by eapply parse_clear.
Qed.

(** [float] skips the white space that [strip] removes before it. *)
Lemma parse_strip s x : parse s = Some x → parse (strip s) = Some x.
Proof.
  intros H. assert (strip s = strip_by is_space s) as ->.
  { destruct (strip_split is_space s) as (w & w' & Hw & Hw' & Hs).
    rewrite Hs at 1. unfold strip.
    rewrite strip_spaces by (eapply all_chars_impl; [apply float_space_is_space|done]).
    apply strip_fixed. intros c Hc. eapply parse_clear; [|done].
    by apply is_space_float_char. }
  unfold parse in *. by rewrite strip_idemp.
Qed.


Lemma parse_empty : parse "" = None.
Proof. done. Qed.

End PyFloatFacts.

(** ** CoordinateParser *)

Section CoordinateParser.
Import PyStr PyStrFacts PyFloatFacts.

Lemma of_string_parse s :
  PyFloat.of_string s = match PyFloat.parse s with
                        | Some x => Ok x
                        | None =>
                            Raise (Exn ValueError
                                     ("could not convert string to float: '" +:+ s +:+ "'"))
                        end.
Proof. done. Qed.

Lemma extract_coordinates_str (s : string) :
  extract_coordinates (VStr s) =
    if contains "LAT:" s && contains "LONG:" s then
      match PyFloat.parse (lat_payload s), PyFloat.parse (lon_payload s) with
      | Some x, Some y => (Some x, Some y)
      | _, _ => (None, None)
      end
    else (None, None).
Proof.
  unfold extract_coordinates, extract_coordinates_try, lat_payload, lon_payload, index.
  destruct (contains "LAT:" s && contains "LONG:" s); [|done].
  unfold default, mbind, result_bind.
  destruct (split s "LONG:" !! 0%nat) as [p0|]; cbn [from_option id rbind].
  - rewrite of_string_parse.
    destruct (PyFloat.parse (strip (replace p0 "LAT:" ""))); [|done].
    destruct (split s "LONG:" !! 1%nat) as [p1|]; cbn [from_option id rbind].
    + rewrite of_string_parse. by destruct (PyFloat.parse (strip p1)).
    + done.
  - done.
Qed.







End CoordinateParser.




(** ** TableExtractor *)

Section TableExtractor.

Lemma clean_column_names_header (r : row) :
  is_header_row r = true → clean_column_names r ≠ [].
Proof.
  destruct r as [|c r]; [done|]. cbn [is_header_row].
  intros [Hc _]%andb_prop. unfold clean_column_names.
  rewrite filter_cons_True by (by rewrite Hc). done.
Qed.

Lemma find_header_Some (tbl : table) (h : list string) :
  find_header tbl = Some h → h ≠ [].
Proof.
  unfold find_header.
  destruct (list_find (λ r, is_header_row r) tbl) as [[i r]|] eqn:E; [|done].
  apply list_find_Some in E as (_ & Hr & _).
  intros [= <-]. apply clean_column_names_header. by destruct (is_header_row r).
Qed.

Lemma find_header_None (tbl : table) :
  find_header tbl = None ↔ existsb is_header_row tbl = false.
Proof.
  unfold find_header. rewrite !fmap_None, list_find_None.
  induction tbl as [|r tbl IH]; cbn.
  - split; [done|constructor].
  - rewrite Forall_cons, IH, orb_false_iff.
    destruct (is_header_row r); cbn; intuition (done || auto).
Qed.

(** With a header found in the table, the data are the table without its
    first row, wherever the header stands. *)
Lemma table_data_first_page (tbl : table) (h : list string) :
  find_header tbl = Some h → table_data 0 None tbl = (Some h, drop 1 tbl).
Proof.
  intros Hh. unfold table_data. rewrite Hh.
  pose proof (find_header_Some _ _ Hh). by destruct h.
Qed.

Lemma table_data_other_page (i : nat) header (tbl : table) :
  table_data (S i) header tbl = (header, tbl).
Proof. done. Qed.

Lemma scan_table_header_kept (i : nat) all_rows h (tbl : table) :
  (scan_table i (all_rows, Some h) tbl).2 = Some h.
Proof. by destruct i. Qed.

Lemma scan_tables_header_kept (i : nat) (pg : page) all_rows h :
  (foldl (scan_table i) (all_rows, Some h) pg).2 = Some h.
Proof.
  revert all_rows. induction pg as [|tbl pg IH]; intros all_rows; [done|].
  cbn [foldl]. pose proof (scan_table_header_kept i all_rows h tbl) as H.
  destruct (scan_table i (all_rows, Some h) tbl) as [rows' h']. cbn in H. subst h'.
  apply IH.
Qed.

Lemma scan_table_later_page (i : nat) (st : scan_state) (tbl : table) :
  (scan_table (S i) st tbl).2 = st.2.
Proof. by destruct st. Qed.

Lemma scan_pages_later (i : nat) (pages : list page) (st : scan_state) :
  (scan_pages (S i) pages st).2 = st.2.
Proof.
  revert i st. induction pages as [|pg pages IH]; intros i st; [done|].
  cbn [scan_pages]. rewrite IH. clear IH.
  revert st. induction pg as [|tbl pg IH]; intros st; [done|].
  cbn [foldl]. by rewrite IH, scan_table_later_page.
Qed.

(** The header found on the first page, table after table. *)
Lemma scan_first_page (pg : page) all_rows :
  match (foldl (scan_table 0) (all_rows, None) pg).2 with
  | Some h => h ≠ [] ∧ existsb (existsb is_header_row) pg = true
  | None => existsb (existsb is_header_row) pg = false
  end.
Proof.
  revert all_rows. induction pg as [|tbl pg IH]; intros all_rows; [done|].
  cbn [foldl existsb]. unfold scan_table at 2, table_data.
  destruct (find_header tbl) as [h|] eqn:Hh.
  - pose proof (find_header_Some _ _ Hh) as Hne.
    assert (existsb is_header_row tbl = true) as ->.
    { destruct (existsb is_header_row tbl) eqn:E; [done|].
      apply find_header_None in E. congruence. }
    destruct h as [|c h]; [done|]. cbn [list_truthy].
    by rewrite scan_tables_header_kept.
  - apply find_header_None in Hh as ->. cbn [list_truthy orb]. apply IH.
Qed.

Lemma scan_header (pages : list page) :
  match (scan pages).2 with
  | Some h => h ≠ [] ∧ header_located pages = true
  | None => header_located pages = false
  end.
Proof.
  unfold scan. destruct pages as [|pg pages]; [done|].
  cbn [scan_pages header_located]. rewrite scan_pages_later.
  apply scan_first_page.
Qed.

End TableExtractor.

(** C2.  The header of this table is located and its only data row holds
    a noise marker.  The row passes the guard of line 43, which stands
    before the frame is built; line 48 then removes it, so that no data row
    survives the filtering.  [read_pdf_to_df] does not raise the parse
    error "no valid data found": it goes on with a frame without rows and
    ends in the [ValueError] that pandas raises at line 55. *)
Theorem read_pdf_to_df_guard_before_filters :
  let pages := [[[Sample.header_cells; Sample.mileage]]] in
  header_located pages = true ∧
  scan pages = ([Sample.mileage], Some REQUIRED_COLUMNS) ∧
  has_noise Sample.mileage = true ∧
  (df ← clean_frame [Sample.mileage] REQUIRED_COLUMNS; Ok (rows df)) = Ok [] ∧
  ∃ msg, read_pdf_to_df pages = Raise (Exn ValueError msg) ∧
         Exn ValueError msg ≠ NO_VALID_DATA.
Proof. split_and!; [by vm_compute..|]. eexists. split; by vm_compute. Qed.

(** *** The cells of the frame *)

Lemma make_frame_rows (all_rows : list row) (cols : list string) (df : dataframe) :
  make_frame all_rows cols = Ok df →
  columns df = cols ∧ Forall (λ r, length r = length cols) (rows df).
Proof.
  unfold make_frame. case_decide as Hw; [|done]. intros [= <-]. split; [done|].
  cbn [rows]. apply Forall_fmap, Forall_forall. intros r Hr. cbn.
  rewrite length_app, length_replicate, Hw.
  assert (length r ≤ max_list (length <$> all_rows))%nat; [|lia].
  apply max_list_elem_of_le, list_elem_of_fmap. eauto.
Qed.

Lemma select_required_length (cols : list string) (r : row) :
  length r = length cols →
  length (select_required cols r) = length (filter (λ c, required c) cols).
Proof.
  unfold select_required. rewrite length_fmap. revert r.
  induction cols as [|c cols IH]; intros [|v r] Hlen; try done.
  cbn [zip zip_with]. rewrite !filter_cons. cbn [fst].
  injection Hlen as Hlen. specialize (IH r Hlen). fold (zip cols r).
  destruct (decide (required c)); cbn [length]; by rewrite IH.
Qed.

Lemma clean_frame_rows (all_rows : list row) (header : list string) (df : dataframe) :
  clean_frame all_rows header = Ok df →
  "CUSTOMER ID" ∈ columns df ∧
  Forall (λ r, length r = length (columns df) ∧ Forall (λ c, is_Some c) r) (rows df).
Proof.
  unfold clean_frame, mbind, result_bind.
  destruct (make_frame _ _) as [df0|e] eqn:Hdf0; cbn [rbind]; [|done].
  apply make_frame_rows in Hdf0 as [Hcols Hrows].
  case_bool_decide; [|done].
  destruct (column_index _ _) as [cid|e] eqn:Hcid; cbn [rbind]; [|done].
  intros [= <-]. cbn [columns rows]. split.
  - unfold column_index in Hcid.
    destruct (list_find _ _) as [[i c]|] eqn:Hfind; [|done].
    apply list_find_Some in Hfind as (Hi & -> & _).
    by eapply list_elem_of_lookup_2.
  - apply Forall_forall. intros r [_ [_ Hr]%list_elem_of_filter]%list_elem_of_filter.
    apply list_elem_of_fmap in Hr as (r1 & -> & Hr1).
    apply list_elem_of_fmap in Hr1 as (r0 & -> & Hr0).
    apply list_elem_of_filter in Hr0 as [_ [_ Hr0]%list_elem_of_filter].
    rewrite Forall_forall in Hrows. specialize (Hrows r0 Hr0).
    split.
    + rewrite !length_fmap, select_required_length; [done|]. by rewrite Hcols.
    + apply Forall_fmap, Forall_forall. intros c _. by eexists.
Qed.

Lemma assoc_zip {A} (k : string) (ks : list string) (vs : list A) (rest : list (string * A)) :
  k ∈ ks → length vs = length ks →
  ∃ v, assoc k (zip ks vs ++ rest) = Some v ∧ v ∈ vs.
Proof.
  revert vs. induction ks as [|k' ks IH]; intros [|v vs] Hk Hlen; try done.
  - by apply elem_of_nil in Hk.
  - cbn. destruct (String.eqb_spec k k') as [->|Hne].
    + exists v. split; [done|]. left.
    + apply elem_of_cons in Hk as [->|Hk]; [done|].
      injection Hlen as Hlen. destruct (IH vs Hk Hlen) as (v' & -> & Hv').
      exists v'. split; [done|]. by right.
Qed.

(** Line 53 removes nothing: after line 52 no cell is missing. *)
Lemma notna_normalize (r : row) (i : nat) :
  (i < length r)%nat → notna (at_column i (normalize <$> r)) = true.
Proof.
  intros Hi. unfold at_column. rewrite list_lookup_fmap.
  destruct (lookup_lt_is_Some_2 r i Hi) as [c ->]. done.
Qed.

Lemma customer_filter_keeps_all (rows : list row) (cid : nat) :
  Forall (λ r, (cid < length r)%nat) rows →
  filter (λ r, notna (at_column cid r)) (fmap (M := list) normalize <$> rows)
  = fmap (M := list) normalize <$> rows.
Proof.
  induction 1 as [|r rows Hr _ IH]; [done|].
  rewrite fmap_cons, filter_cons_True, IH; [done|].
  by rewrite notna_normalize.
Qed.

(** Every record that comes out of [read_pdf_to_df] has a customer-id
    cell and it holds a text, which may be empty. *)
Lemma read_pdf_to_df_customer_id_text (pages : list page) (records : list series) :
  read_pdf_to_df pages = Ok records →
  Forall (λ r, ∃ s, getitem r "CUSTOMER ID" = Ok (VStr s)) records.
Proof.
  unfold read_pdf_to_df.
  destruct (scan pages) as [all_rows header].
  destruct header as [[|h header]|]; [done| |done].
  destruct all_rows as [|r0 all_rows]; [done|].
  unfold mbind, result_bind.
  destruct (clean_frame _ _) as [df|e] eqn:Hdf; cbn [rbind]; [|done].
  apply clean_frame_rows in Hdf as [Hcid Hrows].
  unfold locate, mbind, result_bind.
  destruct (column_index _ _) as [ci|e]; cbn [rbind]; [|done].
  destruct (rows df) as [|r1 rows1] eqn:Hr; [done|]. rewrite <- Hr in *. intros [= <-].
  apply Forall_forall. intros r [_ Hrec]%list_elem_of_filter.
  apply list_elem_of_fmap in Hrec as (cells & -> & Hcells).
  rewrite Forall_forall in Hrows. destruct (Hrows cells Hcells) as [Hlen Hsome].
  unfold with_coordinates, getitem. destruct (extract_coordinates _) as [lat lon].
  destruct (assoc_zip "CUSTOMER ID" (columns df) (cell_val <$> cells)
              [("LAT", float_val lat); ("LONG", float_val lon)] Hcid)
    as (v & -> & Hv); [by rewrite length_fmap|].
  apply list_elem_of_fmap in Hv as (c & -> & Hc).
  rewrite Forall_forall in Hsome. destruct (Hsome c Hc) as [s ->]. by exists s.
Qed.

(** C4.  A row whose customer-id cell is missing and a row whose
    customer-id cell is the empty text, both with coordinates that parse,
    are not dropped: they come out of [read_pdf_to_df] as records with the
    customer ids ["None"] and [""].  Line 52 has turned every cell into a
    text before line 53 tests [notna], and an empty text is not missing. *)
Theorem read_pdf_to_df_keeps_rows_without_customer :
  ∃ beta gamma,
    read_pdf_to_df [[[Sample.header_cells; Sample.no_customer; Sample.empty_customer]]]
    = Ok [beta; gamma] ∧
    getitem beta "CUSTOMER NAME" = Ok (VStr "Beta") ∧
    getitem beta "CUSTOMER ID" = Ok (VStr "None") ∧
    getitem gamma "CUSTOMER NAME" = Ok (VStr "Gamma") ∧
    getitem gamma "CUSTOMER ID" = Ok (VStr "").
Proof. eexists _, _. split_and!; by vm_compute. Qed.

(** C6.  In this table the header is the third row.  The data rows are
    the table without its first row: the row between the banner and the
    header is kept, and so is the header row itself; the row above the
    header ends up as a record next to the one below it. *)
Theorem table_data_ignores_header_position :
  let tbl := [Sample.banner; Sample.carried_over; Sample.header_cells; Sample.acme] in
  list_find (λ r, is_header_row r) tbl = Some (2%nat, Sample.header_cells) ∧
  table_data 0 None tbl
  = (Some REQUIRED_COLUMNS, [Sample.carried_over; Sample.header_cells; Sample.acme]) ∧
  ∃ records,
    read_pdf_to_df [[tbl]] = Ok records ∧
    (λ r, get r "CUSTOMER NAME" VNone) <$> records = [VStr "Carried"; VStr "Acme"].
Proof. split_and!; [by vm_compute..|]. eexists. split; by vm_compute. Qed.

(** ** OrderBuilder *)

Section OrderBuilderFacts.

Lemma get_truthy (r : series) (k : string) (d : pyval) :
  truthy (get r k VNone) = true → get r k d = get r k VNone.
Proof. unfold get. by destruct (assoc k r). Qed.

Lemma to_int_truncates (x : float) (n d : Z) :
  exact x = Some (n, d) → ∃ w, PyFloat.to_int x = Ok w ∧ truncation n d w.
Proof.
  destruct x as [s|s| |s m e]; cbn [exact PyFloat.to_int]; try done.
  - intros [= <- <-]. exists 0. split; [done|]. unfold truncation. lia.
  - destruct (Z.leb_spec 0 e) as [He|He]; intros [= <- <-]; eexists; (split; [done|]).
    + unfold truncation. assert (0 ≤ 2 ^ e) by (apply Z.pow_nonneg; lia).
      destruct s; cbn [cond_Zopp]; nia.
    + assert (0 < 2 ^ (- e)) as Hd by (apply Z.pow_pos_nonneg; lia).
      pose proof (Z.mul_div_le (Z.pos m) _ Hd).
      pose proof (Z.mul_succ_div_gt (Z.pos m) _ Hd).
      assert (0 ≤ Z.pos m / 2 ^ (- e)) by (apply Z.div_pos; lia).
      unfold truncation. destruct s; cbn [cond_Zopp]; nia.
Qed.

Lemma to_int_not_finite (x : float) :
  exact x = None → ∃ e, PyFloat.to_int x = Raise e.
Proof.
  destruct x as [s|s| |s m e]; cbn [exact PyFloat.to_int]; try done; eauto.
  by destruct (0 <=? e).
Qed.

Variable float_repr : float → string.

Lemma convert_row_invoice_key (tf tt : Z) (county_asset : gmap string string)
    (r : series) (o : Order.t) :
  assoc "INVOICE NO" r = None →
  convert_row float_repr tf tt county_asset r ≠ Ok (Some o).
Proof.
  intros Hr. unfold convert_row, getitem, mbind, result_bind. rewrite Hr.
  repeat (case_match; cbn [rbind]; try done).
  all: by destruct (order_weight r).
Qed.

(** No order comes out of a frame without the column [INVOICE NO]. *)
Lemma convert_to_orders_no_order (tf tt : Z) (county_asset : gmap string string)
    (gdf : list series) (orders : list Order.t) :
  Forall (λ r, assoc "INVOICE NO" r = None) gdf →
  convert_to_orders float_repr gdf tf tt county_asset = Ok orders → orders = [].
Proof.
  intros Hgdf. revert orders.
  induction Hgdf as [|r gdf Hr _ IH]; intros orders; cbn [convert_to_orders].
  - by intros [= <-].
  - unfold mbind, result_bind.
    pose proof (convert_row_invoice_key tf tt county_asset r) as Hrow.
    destruct (convert_row float_repr tf tt county_asset r) as [[o|]|e]; cbn [rbind]; try done.
    + by destruct (Hrow o).
    + destruct (convert_to_orders float_repr gdf tf tt county_asset) as [rest|e];
        cbn [rbind]; [|done].
      intros [= <-]. by rewrite (IH rest).
Qed.

End OrderBuilderFacts.

(** The frame of [read_pdf_to_df] has the required columns, [LAT] and
    [LONG]; the label [INVOICE NO] of line 176 is none of them. *)
Lemma assoc_None {A} (k : string) (kvs : list (string * A)) :
  k ∉ kvs.*1 → assoc k kvs = None.
Proof.
  induction kvs as [|[k' v] kvs IH]; [done|].
  cbn. intros [Hk Hkvs]%not_elem_of_cons.
  destruct (String.eqb_spec k k'); [done|auto].
Qed.

Lemma read_pdf_to_df_labels (pages : list page) (records : list series) :
  read_pdf_to_df pages = Ok records →
  Forall (λ r, ∀ l, l ∈ labels r → l ∈ REQUIRED_COLUMNS ++ ["LAT"; "LONG"]) records.
Proof.
  unfold read_pdf_to_df. destruct (scan pages) as [all_rows header].
  destruct header as [[|h header]|]; [done| |done].
  destruct all_rows as [|r0 all_rows]; [done|].
  unfold mbind, result_bind.
  destruct (clean_frame _ _) as [df|e] eqn:Hdf; cbn [rbind]; [|done].
  assert (Forall (λ c, c ∈ REQUIRED_COLUMNS) (columns df)) as Hcols.
  { revert Hdf. unfold clean_frame, mbind, result_bind.
    destruct (make_frame _ _) as [df0|e]; cbn [rbind]; [|done].
    case_bool_decide; [|done].
    destruct (column_index _ _); cbn [rbind]; [|done].
    intros [= <-]. cbn [columns]. apply Forall_fmap, Forall_forall.
    intros c [Hc _]%list_elem_of_filter. unfold required in Hc.
    by apply bool_decide_unpack in Hc. }
  unfold locate, mbind, result_bind.
  destruct (column_index _ _) as [ci|e]; cbn [rbind]; [|done].
  destruct (rows df) as [|r1 rows1] eqn:Hrows; [done|]. rewrite <- Hrows. intros [= <-].
  apply Forall_forall. intros r [_ Hr]%list_elem_of_filter l Hl.
  apply list_elem_of_fmap in Hr as (cells & -> & _).
  unfold with_coordinates, labels in Hl.
  destruct (extract_coordinates _) as [lat lon].
  rewrite fmap_app, elem_of_app in Hl. apply elem_of_app.
  destruct Hl as [Hl|Hl]; [left|by right].
  apply list_elem_of_fmap in Hl as ([l' v] & -> & Hl%elem_of_zip_l).
  rewrite Forall_forall in Hcols. auto.
Qed.

Lemma read_pdf_to_df_no_invoice_key (pages : list page) (records : list series) :
  read_pdf_to_df pages = Ok records →
  Forall (λ r, assoc "INVOICE NO" r = None) records.
Proof.
  intros H%read_pdf_to_df_labels. eapply Forall_impl; [exact H|].
  intros r Hr. apply assoc_None. intros Hl%Hr.
  revert Hl. apply (bool_decide_eq_false_1 _). by vm_compute.
Qed.

(** C1.  The record of the sample manifest has parseable coordinates and
    every column that [read_pdf_to_df] produces; [convert_to_orders] does
    not return for it: line 176 reads the column [INVOICE NO], while the
    frame names it [INVOICE NO.], and the [KeyError] leaves the function
    whatever the time window and the assets are. *)
Theorem convert_to_orders_invoice_key (float_repr : float → string) (tf tt : Z)
    (county_asset : gmap string string) :
  extract_coordinates (VStr "LAT: -1.28 LONG: 36.82")
  = (Some Sample.lat_acme, Some Sample.lon_acme) ∧
  getitem Sample.acme_record "INVOICE NO." = Ok (VStr "INV1") ∧
  convert_to_orders float_repr [Sample.acme_record] tf tt county_asset
  = Raise (Exn KeyError "INVOICE NO").
Proof. split_and!; by vm_compute. Qed.

(** C5.  Line 162 does not round and does not give 0 for a tonnage that
    is not a number.  For the tonnage 1.001 the weight is 1000 (the float
    product is just below 1001 and [int] cuts it), for 0.0019 it is 1; the
    nearest integers are 1001 and 2.  For the text ["None"], which line 52
    makes of a missing tonnage cell, the guard [if r.get("TONNAGE")] is
    passed and [float] raises, where the weight should be 0. *)
Theorem order_weight_not_as_specified :
  order_weight [("TONNAGE", VStr "1.001")] = Ok 1000 ∧
  specified_weight [("TONNAGE", VStr "1.001")] = 1001 ∧
  order_weight [("TONNAGE", VStr "0.0019")] = Ok 1 ∧
  specified_weight [("TONNAGE", VStr "0.0019")] = 2 ∧
  truthy (VStr "None") = true ∧
  order_weight [("TONNAGE", VStr "None")]
  = Raise (Exn ValueError "could not convert string to float: 'None'") ∧
  specified_weight [("TONNAGE", VStr "None")] = 0.
Proof. split_and!; by vm_compute. Qed.

(** What line 162 computes, case by case: 0 when the tonnage is absent or
    falsy (the empty text); for a tonnage that [float] accepts and whose
    product with 1000 is finite, this product cut at the decimal point;
    the exception of [float] or of [int] otherwise. *)
Lemma order_weight_truncates (r : series) :
  (truthy (get r "TONNAGE" VNone) = false → order_weight r = Ok 0) ∧
  (∀ t n d,
     truthy (get r "TONNAGE" VNone) = true →
     py_float (get r "TONNAGE" VNone) = Ok t →
     exact (PyFloat.mul t (PyFloat.of_decimal false 1000 0)) = Some (n, d) →
     ∃ w, order_weight r = Ok w ∧ truncation n d w) ∧
  (∀ e,
     truthy (get r "TONNAGE" VNone) = true →
     py_float (get r "TONNAGE" VNone) = Raise e →
     order_weight r = Raise e) ∧
  (∀ t,
     truthy (get r "TONNAGE" VNone) = true →
     py_float (get r "TONNAGE" VNone) = Ok t →
     exact (PyFloat.mul t (PyFloat.of_decimal false 1000 0)) = None →
     ∃ e, order_weight r = Raise e).
Proof.
  unfold order_weight, mbind, result_bind. split_and!.
  - by intros ->.
  - intros t n d Hv Ht Hx. rewrite Hv, (get_truthy _ _ _ Hv), Ht. cbn [rbind].
    by apply to_int_truncates.
  - intros e Hv He. by rewrite Hv, (get_truthy _ _ _ Hv), He.
  - intros t Hv Ht Hx. rewrite Hv, (get_truthy _ _ _ Hv), Ht. cbn [rbind].
    by apply to_int_not_finite.
Qed.

Lemma order_weight_truncates_witness :
  order_weight [("TONNAGE", VStr "")] = Ok 0 ∧
  (∃ w, order_weight [("TONNAGE", VStr "2.5")] = Ok w ∧
        truncation 5497558138880000 2199023255552 w) ∧
  order_weight [("TONNAGE", VStr "None")]
  = Raise (Exn ValueError "could not convert string to float: 'None'") ∧
  (∃ e, order_weight [("TONNAGE", VStr "nan")] = Raise e).
Proof.
  split_and!.
  - apply (order_weight_truncates [("TONNAGE", VStr "")]). reflexivity.
  - eapply (order_weight_truncates [("TONNAGE", VStr "2.5")]); vm_compute; reflexivity.
  - apply (order_weight_truncates [("TONNAGE", VStr "None")]); vm_compute; reflexivity.
  - eapply (order_weight_truncates [("TONNAGE", VStr "nan")]); vm_compute; reflexivity.
Defined.

(** ** RemoteOrderService *)

Section CreateOrders.

Variable remote : nat → outcome.

(** An exception of the call leaves [create_orders], and with it
    [send_orders], at once: the orders that follow are not sent. *)
Lemma create_orders_raises (o : loc) (orders created : list loc) (w : world) (e : exn) :
  remote (calls w) = Raised e →
  create_orders remote (o :: orders) created w
  = (Raise e, World (heap w) (S (calls w))
                    (log w ++ [Post "order/update" (OrderUpdate (heap w o))])).
Proof.
  intros He. cbn [create_orders]. unfold mbind, M_bind, bind, gets, post.
  by rewrite He.
Qed.

(** An error object is reported for its order, and the loop goes on. *)
Lemma create_orders_error_object (o : loc) (orders created : list loc) (w : world)
    (result error : json) :
  remote (calls w) = Decoded result →
  dict_get result "error" = Some error →
  create_orders remote (o :: orders) created w
  = create_orders remote orders created
      (World (heap w) (S (calls w))
             (log w ++ [Post "order/update" (OrderUpdate (heap w o));
                        StError (CreateFailed (Order.n (heap w o)) error);
                        Sleep 1])).
Proof.
  intros Hr He. cbn [create_orders].
  unfold mbind, M_bind, bind, gets, post, emit, mret, M_ret, ret.
  rewrite Hr, He. cbn [heap calls log]. by rewrite <- !(assoc_L (++)).
Qed.

(** Any other answer is taken as the id of the order created. *)
Lemma create_orders_created (o : loc) (orders created : list loc) (w : world)
    (result : json) :
  remote (calls w) = Decoded result →
  dict_get result "error" = None →
  create_orders remote (o :: orders) created w
  = create_orders remote orders (created ++ [o])
      (World (<[o := Order.set_id result (heap w o)]> (heap w)) (S (calls w))
             (log w ++ [Post "order/update" (OrderUpdate (heap w o));
                        StSuccess (Created (Order.n (heap w o)) result);
                        Sleep 1])).
Proof.
  intros Hr He. cbn [create_orders].
  unfold mbind, M_bind, bind, gets, post, emit, modify, mret, M_ret, ret.
  rewrite Hr, He. cbn [heap calls log]. by rewrite <- !(assoc_L (++)).
Qed.

Lemma send_orders_raises (o : loc) (orders : list loc) (w : world) (e : exn) :
  remote (calls w) = Raised e →
  send_orders remote (o :: orders) w
  = (Raise e, World (heap w) (S (calls w))
                    (log w ++ [Post "order/update" (OrderUpdate (heap w o))])).
Proof.
  intros He. unfold send_orders, mbind, M_bind, bind at 1.
  by rewrite (create_orders_raises _ _ _ _ _ He).
Qed.

End CreateOrders.

(** C3.  Three orders are sent and the second call does not return JSON:
    [send_orders] raises the decoding error, nothing is reported for the
    second order, and the third order is never sent; only two requests
    were made, and no optimisation follows. *)
Theorem send_orders_aborts_on_exception :
  let run := send_orders Batch.malformed_second [0; 1; 2]%nat Batch.start in
  run.1 = Raise (Exn JSONDecodeError "Expecting value: line 1 column 1 (char 0)") ∧
  calls run.2 = 2%nat ∧
  log run.2 = [Post "order/update" (OrderUpdate (Batch.orders 0%nat));
               StSuccess (Created (VStr "Acme") (JInt 100));
               Sleep 1;
               Post "order/update" (OrderUpdate (Batch.orders 1%nat))].
Proof. split_and!; by vm_compute. Qed.

Section OptimizeRoute.

Lemma same_but_sequence_refl (h : store) : same_but_sequence h h.
Proof. done. Qed.

Lemma same_but_sequence_trans (h1 h2 h3 : store) :
  same_but_sequence h1 h2 → same_but_sequence h2 h3 → same_but_sequence h1 h3.
Proof. intros H12 H23 l. by rewrite H23, H12. Qed.

(** *** Grouping keeps every order once *)

Lemma group_insert_perm (resource : string) (o : loc) (groups : list (string * list loc)) :
  concat (group_insert resource o groups).*2 ≡ₚ o :: concat groups.*2.
Proof.
  induction groups as [|[k os] groups IH]; [done|].
  cbn [group_insert]. destruct (String.eqb k resource); cbn.
  - rewrite <- (assoc_L (++)). cbn. by rewrite <- Permutation_middle.
  - rewrite IH. by rewrite Permutation_middle.
Qed.

Lemma group_by_resource_perm (h : store) (orders : list loc) :
  concat (group_by_resource h orders).*2 ≡ₚ orders.
Proof.
  unfold group_by_resource.
  assert (∀ groups,
    concat (foldl (λ groups o, group_insert (Order.rp (h o)) o groups) groups orders).*2
    ≡ₚ concat groups.*2 ++ orders) as H; [|by rewrite H].
  induction orders as [|o orders IH]; intros groups; cbn [foldl].
  - by rewrite app_nil_r.
  - rewrite IH, group_insert_perm. apply Permutation_middle.
Qed.

(** *** The sequence numbers *)

Lemma assign_sequence_same (os : list loc) (idx : nat) (oid : json) (h : store) :
  same_but_sequence h (assign_sequence os idx oid h).
Proof.
  intros l. unfold assign_sequence.
  destruct (list_find _ os) as [[i o]|]; [|done].
  destruct (decide (o = l)) as [->|Hne].
  - by rewrite fn_lookup_insert.
  - by rewrite fn_lookup_insert_ne.
Qed.

Lemma assign_sequences_same (os : list loc) (ids : list json) (idx : nat) (h : store) :
  same_but_sequence h (assign_sequences os idx ids h).
Proof.
  revert idx h. induction ids as [|oid ids IH]; intros idx h; [done|].
  cbn [assign_sequences]. eapply same_but_sequence_trans; [|apply IH].
  apply assign_sequence_same.
Qed.

Lemma same_but_sequence_id (h h' : store) (l : loc) :
  same_but_sequence h h' → Order.id (h' l) = Order.id (h l).
Proof. intros H. exact (f_equal Order.id (H l)). Qed.

Lemma picked_same (h h' : store) (os : list loc) (oid : json) :
  same_but_sequence h h' → picked h' os oid = picked h os oid.
Proof.
  intros H. unfold picked. f_equal. apply list_find_ext.
  intros o. by rewrite (same_but_sequence_id _ _ o H).
Qed.

Lemma assign_sequence_picked (os : list loc) (idx : nat) (oid : json) (h : store) (o : loc) :
  picked h os oid = Some o →
  Order.sequence (assign_sequence os idx oid h o) = Some (Z.of_nat idx + 1).
Proof.
  unfold picked, assign_sequence.
  destruct (list_find _ os) as [[i o']|]; [|done].
  intros [= ->]. by rewrite fn_lookup_insert.
Qed.

Lemma assign_sequence_other (os : list loc) (idx : nat) (oid : json) (h : store) (o : loc) :
  picked h os oid ≠ Some o → assign_sequence os idx oid h o = h o.
Proof.
  unfold picked, assign_sequence.
  destruct (list_find _ os) as [[i o']|]; [|done].
  intros Hne. rewrite fn_lookup_insert_ne; [done|]. by intros ->.
Qed.

(** An order that no returned id stands for keeps its entry. *)
Lemma assign_sequences_other (os : list loc) (ids : list json) (idx : nat) (h : store) (o : loc) :
  (∀ j oid, ids !! j = Some oid → picked h os oid ≠ Some o) →
  assign_sequences os idx ids h o = h o.
Proof.
  revert idx h. induction ids as [|oid ids IH]; intros idx h Hids; [done|].
  cbn [assign_sequences]. rewrite IH.
  - apply assign_sequence_other, (Hids 0%nat). done.
  - intros j oid' Hj. rewrite (picked_same h) by apply assign_sequence_same.
    by apply (Hids (S j)).
Qed.

(** The order that the id at position [j] stands for gets the number of
    this position, counted from [idx + 1], unless a later id stands for
    the same order. *)
Lemma assign_sequences_picked (os : list loc) (ids : list json) (idx : nat) (h : store)
    (j : nat) (oid : json) (o : loc) :
  ids !! j = Some oid →
  picked h os oid = Some o →
  (∀ j' oid', (j < j')%nat → ids !! j' = Some oid' → picked h os oid' ≠ Some o) →
  Order.sequence (assign_sequences os idx ids h o) = Some (Z.of_nat (idx + j) + 1).
Proof.
  revert idx h j. induction ids as [|oid0 ids IH]; intros idx h j Hj Ho Hlast; [done|].
  cbn [assign_sequences]. destruct j as [|j].
  - injection Hj as ->. rewrite assign_sequences_other.
    + rewrite Nat.add_0_r. by apply assign_sequence_picked.
    + intros j' oid' Hj'. rewrite (picked_same h) by apply assign_sequence_same.
      apply (Hlast (S j')); [lia|done].
  - replace (idx + S j)%nat with (S idx + j)%nat by lia.
    apply IH; [done| |].
    + by rewrite (picked_same h) by apply assign_sequence_same.
    + intros j' oid' Hlt Hj'. rewrite (picked_same h) by apply assign_sequence_same.
      apply (Hlast (S j')); [lia|done].
Qed.

Variable remote : nat → outcome.

(** *** One group *)

Lemma optimize_group_short (resource : string) (os : list loc) (w : world) :
  (length os < 2)%nat → optimize_group remote resource os w = (Ok os, w).
Proof.
  intros Hlen. unfold optimize_group.
  by destruct (Nat.ltb_spec (length os) 2); [|lia].
Qed.

(** What a group of two orders or more does, by the outcome of its call. *)
Lemma optimize_group_long (resource : string) (os : list loc) (w : world) :
  (2 ≤ length os)%nat →
  let sent := log w ++ [Post "order/optimize" (optimization_request (heap w) resource os)] in
  optimize_group remote resource os w =
    match remote (calls w) with
    | Raised e =>
        (Ok os, World (heap w) (S (calls w))
                      (sent ++ [StWarning (OptimizationError resource e)]))
    | Decoded result =>
        match dict_get result "orders" with
        | None =>
            (Ok os, World (heap w) (S (calls w))
                          (sent ++ [StWarning (OptimizationFailed resource)]))
        | Some returned =>
            match iterate returned with
            | Raise e =>
                (Ok os, World (heap w) (S (calls w))
                              (sent ++ [StWarning (OptimizationError resource e)]))
            | Ok ids =>
                (Ok os, World (assign_sequences os 0 ids (heap w)) (S (calls w)) sent)
            end
        end
    end.
Proof.
  intros Hlen sent. unfold optimize_group.
  destruct (Nat.ltb_spec (length os) 2); [lia|].
  destruct os as [|o os]; [cbn in Hlen; lia|].
  unfold sent, optimization_request, try_except, mbind, M_bind, bind, gets, lift, index,
    post, modify, emit, mret, M_ret, ret.
  cbn [lookup list_lookup head default from_option id heap calls log].
  destruct (remote (calls w)) as [e|result]; [done|].
  destruct (dict_get result "orders") as [returned|]; [|done].
  by destruct (iterate returned).
Qed.

Lemma optimize_group_returns (resource : string) (os : list loc) (w : world) :
  ∃ w', optimize_group remote resource os w = (Ok os, w') ∧
        same_but_sequence (heap w) (heap w').
Proof.
  destruct (Nat.lt_ge_cases (length os) 2) as [Hlen|Hlen].
  - exists w. by rewrite optimize_group_short.
  - rewrite optimize_group_long by done.
    destruct (remote (calls w)) as [e|result]; [by eexists|].
    destruct (dict_get result "orders") as [returned|]; [|by eexists].
    destruct (iterate returned); [|by eexists].
    eexists. split; [done|]. apply assign_sequences_same.
Qed.

Lemma optimize_groups_returns (groups : list (string * list loc)) (w : world) :
  ∃ w', optimize_groups remote groups w = (Ok (concat groups.*2), w') ∧
        same_but_sequence (heap w) (heap w').
Proof.
  revert w. induction groups as [|[resource os] groups IH]; intros w.
  - by exists w.
  - cbn [optimize_groups]. unfold mbind, M_bind, bind.
    destruct (optimize_group_returns resource os w) as (w1 & -> & H1).
    destruct (IH w1) as (w2 & -> & H2).
    exists w2. split; [done|]. by eapply same_but_sequence_trans.
Qed.

(** The worlds that the groups are met in: each group starts in the world
    that the group before it has left. *)
Lemma optimize_groups_worlds (groups : list (string * list loc)) (w : world) :
  ∃ ws : list world,
    length ws = length groups ∧
    optimize_groups remote groups w = (Ok (concat groups.*2), default w (last ws)) ∧
    ∀ k resource os wk wk',
      groups !! k = Some (resource, os) →
      (w :: ws) !! k = Some wk → ws !! k = Some wk' →
      optimize_group remote resource os wk = (Ok os, wk') ∧
      same_but_sequence (heap w) (heap wk).
Proof.
  revert w. induction groups as [|[resource os] groups IH]; intros w.
  - exists []. split_and!; [done|done|]. by intros k resource os wk wk' Hk.
  - destruct (optimize_group_returns resource os w) as (w1 & Hrun & H1).
    destruct (IH w1) as (ws & Hlen & Hruns & Hk).
    exists (w1 :: ws). split_and!.
    + cbn [length]. by rewrite Hlen.
    + cbn [optimize_groups]. unfold mbind, M_bind, bind. rewrite Hrun, Hruns.
      rewrite last_cons. by destruct (last ws).
    + intros [|k] resource' os' wk wk' Hg Hwk Hwk'.
      * cbn in Hg, Hwk, Hwk'. by simplify_eq.
      * cbn in Hg, Hwk, Hwk'.
        destruct (Hk k resource' os' wk wk' Hg Hwk Hwk') as [Hstep Hsame].
        split; [done|]. by eapply same_but_sequence_trans.
Qed.

Lemma optimize_route_by_groups (orders : list loc) (w : world) :
  optimize_route remote orders w
  = optimize_groups remote (group_by_resource (heap w) orders) w.
Proof. done. Qed.

(** [optimize_route] returns, with the orders it was given. *)
Lemma optimize_route_returns (orders : list loc) (w : world) :
  ∃ optimized w',
    optimize_route remote orders w = (Ok optimized, w') ∧
    optimized ≡ₚ orders ∧
    same_but_sequence (heap w) (heap w').
Proof.
  unfold optimize_route, mbind, M_bind, bind, gets.
  destruct (optimize_groups_returns (group_by_resource (heap w) orders) w)
    as (w' & -> & Hsame).
  eexists _, w'. split_and!; [done| |done]. apply group_by_resource_perm.
Qed.

End OptimizeRoute.

(** C10.  Whatever the service answers, [optimize_route] returns: the
    list it returns holds the orders of its input, each as often as the
    input does, and every order of the store is the one it was but for its
    [sequence]. *)
Theorem optimize_route_keeps_orders (remote : nat → outcome) (orders : list loc) (w : world) :
  ∃ optimized w',
    optimize_route remote orders w = (Ok optimized, w') ∧
    optimized ≡ₚ orders ∧
    ∀ l, Order.set_sequence None (heap w' l) = Order.set_sequence None (heap w l).
Proof. apply optimize_route_returns. Qed.

(** ** The groups of [optimize_route] *)

Section Groups.

Lemma unique_snoc (l : list string) (c : string) :
  unique (l ++ [c]) = if bool_decide (c ∈ unique l) then unique l else unique l ++ [c].
Proof. unfold unique. by rewrite foldl_app. Qed.

Lemma unique_elem_of (l : list string) (c : string) : c ∈ unique l ↔ c ∈ l.
Proof.
  induction l as [|c' l IH] using rev_ind; [done|].
  rewrite unique_snoc, elem_of_app, list_elem_of_singleton, <- IH.
  case_bool_decide as Hc'.
  - split; [auto|]. by intros [?| ->].
  - by rewrite elem_of_app, list_elem_of_singleton.
Qed.

Lemma unique_NoDup (l : list string) : NoDup (unique l).
Proof.
  induction l as [|c l IH] using rev_ind; [constructor|].
  rewrite unique_snoc. case_bool_decide as Hc; [done|].
  apply NoDup_app. split_and!; [done| |apply NoDup_singleton].
  intros c' Hc' ->%list_elem_of_singleton. done.
Qed.

Lemma unique_id (l : list string) : NoDup l → unique l = l.
Proof.
  induction l as [|c l IH] using rev_ind; [done|].
  intros (Hl & Hc & _)%NoDup_app. rewrite unique_snoc, IH by done.
  rewrite bool_decide_eq_false_2; [done|].
  intros Hin. apply (Hc c Hin). by apply list_elem_of_singleton.
Qed.

Lemma filter_none {A} (P : A → Prop) `{∀ x, Decision (P x)} (l : list A) :
  (∀ x, x ∈ l → ¬ P x) → filter P l = [].
Proof.
  intros Hl. destruct (filter P l) as [|x l'] eqn:E; [done|].
  assert (x ∈ filter P l) as [Hx Hin]%list_elem_of_filter by (rewrite E; left).
  by destruct (Hl x Hin).
Qed.

Lemma group_by_resource_snoc (h : store) (orders : list loc) (o : loc) :
  group_by_resource h (orders ++ [o])
  = group_insert (Order.rp (h o)) o (group_by_resource h orders).
Proof. unfold group_by_resource. by rewrite foldl_app. Qed.

Lemma group_insert_new (resource : string) (o : loc) (groups : list (string * list loc)) :
  resource ∉ groups.*1 → group_insert resource o groups = groups ++ [(resource, [o])].
Proof.
  induction groups as [|[k os] groups IH]; [done|].
  cbn. intros [Hk Hg]%not_elem_of_cons.
  destruct (String.eqb_spec k resource) as [->|_]; [done|]. by rewrite IH.
Qed.

Lemma group_insert_old (resource : string) (o : loc) (G : string → list loc)
    (keys : list string) :
  NoDup keys → resource ∈ keys →
  group_insert resource o ((λ k, (k, G k)) <$> keys)
  = (λ k, (k, G k ++ if bool_decide (k = resource) then [o] else [])) <$> keys.
Proof.
  induction keys as [|k keys IH]; intros Hnd Hin; [by apply elem_of_nil in Hin|].
  apply NoDup_cons in Hnd as [Hk Hnd]. cbn [fmap list_fmap group_insert].
  destruct (String.eqb_spec k resource) as [->|Hne].
  - rewrite bool_decide_eq_true_2 by done. f_equal.
    apply list_fmap_ext. intros i k Hi.
    rewrite bool_decide_eq_false_2, app_nil_r; [done|].
    intros ->. apply Hk. by eapply list_elem_of_lookup_2.
  - rewrite bool_decide_eq_false_2, app_nil_r by done. f_equal.
    apply IH; [done|]. apply elem_of_cons in Hin as [->|Hin]; done.
Qed.

(** The groups are the resources in the order of their first appearance,
    each with its orders in the order of the list. *)
Lemma group_by_resource_groups (h : store) (orders : list loc) :
  group_by_resource h orders
  = (λ k, (k, filter (λ o, Order.rp (h o) = k) orders))
      <$> unique ((λ o, Order.rp (h o)) <$> orders).
Proof.
  induction orders as [|o orders IH] using rev_ind; [done|].
  rewrite group_by_resource_snoc, IH, fmap_app.
  change ((λ o, Order.rp (h o)) <$> [o]) with [Order.rp (h o)]. rewrite unique_snoc.
  set (keys := unique _). set (r := Order.rp (h o)).
  case_bool_decide as Hr.
  - rewrite group_insert_old by (done || apply unique_NoDup).
    apply list_fmap_ext. intros i k Hi. f_equal.
    rewrite filter_app, filter_cons, filter_nil. fold r.
    case_bool_decide as Hk; subst.
    + by rewrite decide_True.
    + rewrite decide_False; [done|]. by intros <-.
  - rewrite group_insert_new.
    + rewrite fmap_app. cbn [fmap list_fmap]. f_equal.
      * apply list_fmap_ext. intros i k Hi. f_equal.
        rewrite filter_app, filter_cons, filter_nil. fold r.
        rewrite decide_False, app_nil_r; [done|].
        intros Hk. apply Hr. rewrite Hk. by eapply list_elem_of_lookup_2.
      * f_equal. f_equal. rewrite filter_app, filter_cons, filter_nil. fold r.
        rewrite decide_True by done.
        assert (filter (λ o', Order.rp (h o') = r) orders = []) as ->; [|done].
        apply filter_none. intros o' Ho' Hrp. apply Hr.
        apply unique_elem_of, list_elem_of_fmap. eauto.
    + rewrite <- list_fmap_compose. cbn. by rewrite list_fmap_id.
Qed.

End Groups.

(** C8.  [optimize_route] goes through its resource groups: the resources
    in the order of their first appearance, each with its orders.  The
    group at position [k] is met in the world [wk] that the groups before
    it have left (the world of the call for the first one) and leaves the
    world [wk'], and [optimize_route] returns, in the world that the last
    group leaves, with the groups appended one after the other as they
    are.  For every group [os]:
    - with fewer than two orders nothing is sent and nothing changes;
    - with two or more, when the call raises (network error, body that is
      not JSON), when the answer has no ['orders'] entry, or when this
      entry cannot be iterated, the store is left as it is and one warning
      follows the request in the log;
    - when the answer lists order ids, the loop gives the order that the
      id at position [j] stands for the number [j + 1] when it reaches this
      position, and this is its [sequence] in the end unless a later id
      stands for the same order; an order that no id stands for keeps its
      entry, and nothing but [sequence] changes. *)
Theorem optimize_route_group_outcomes (remote : nat → outcome) (orders : list loc)
    (w : world) :
  let resource_of := λ o, Order.rp (heap w o) in
  let groups := (λ resource, (resource, filter (λ o, resource_of o = resource) orders))
                  <$> unique (resource_of <$> orders) in
  ∃ ws : list world,
    length ws = length groups ∧
    optimize_route remote orders w = (Ok (concat groups.*2), default w (last ws)) ∧
    ∀ k resource os wk wk',
      groups !! k = Some (resource, os) →
      (w :: ws) !! k = Some wk → ws !! k = Some wk' →
      let sent := log wk ++ [Post "order/optimize"
                               (optimization_request (heap wk) resource os)] in
      same_but_sequence (heap w) (heap wk) ∧
      ((length os < 2)%nat → wk' = wk) ∧
      (∀ e, (2 ≤ length os)%nat → remote (calls wk) = Raised e →
         wk' = World (heap wk) (S (calls wk))
                     (sent ++ [StWarning (OptimizationError resource e)])) ∧
      (∀ result, (2 ≤ length os)%nat → remote (calls wk) = Decoded result →
         dict_get result "orders" = None →
         wk' = World (heap wk) (S (calls wk))
                     (sent ++ [StWarning (OptimizationFailed resource)])) ∧
      (∀ result returned e, (2 ≤ length os)%nat → remote (calls wk) = Decoded result →
         dict_get result "orders" = Some returned → iterate returned = Raise e →
         wk' = World (heap wk) (S (calls wk))
                     (sent ++ [StWarning (OptimizationError resource e)])) ∧
      (∀ result returned ids, (2 ≤ length os)%nat → remote (calls wk) = Decoded result →
         dict_get result "orders" = Some returned → iterate returned = Ok ids →
         wk' = World (assign_sequences os 0 ids (heap wk)) (S (calls wk)) sent ∧
         same_but_sequence (heap wk) (heap wk') ∧
         (∀ j oid o, ids !! j = Some oid → picked (heap wk) os oid = Some o →
            Order.sequence (assign_sequences os 0 (take (S j) ids) (heap wk) o)
            = Some (Z.of_nat j + 1)) ∧
         (∀ j oid o, ids !! j = Some oid → picked (heap wk) os oid = Some o →
            (∀ j' oid', (j < j')%nat → ids !! j' = Some oid' →
               picked (heap wk) os oid' ≠ Some o) →
            Order.sequence (heap wk' o) = Some (Z.of_nat j + 1)) ∧
         (∀ o, (∀ j oid, ids !! j = Some oid → picked (heap wk) os oid ≠ Some o) →
            heap wk' o = heap wk o)).
Proof.
  intros resource_of groups.
  destruct (optimize_groups_worlds remote groups w) as (ws & Hlen & Hrun & Hk).
  exists ws. split_and!; [done| |].
  { rewrite optimize_route_by_groups, group_by_resource_groups. exact Hrun. }
  intros k resource os wk wk' Hg Hwk Hwk' sent.
  destruct (Hk k resource os wk wk' Hg Hwk Hwk') as [Hstep Hsame].
  split_and!.
  - done.
  - intros Hshort. rewrite optimize_group_short in Hstep by done. congruence.
  - intros e Hlong He. rewrite optimize_group_long in Hstep by done.
    rewrite He in Hstep. by injection Hstep as <-.
  - intros result Hlong Hr Hd. rewrite optimize_group_long in Hstep by done.
    rewrite Hr, Hd in Hstep. by injection Hstep as <-.
  - intros result returned e Hlong Hr Hd Hi. rewrite optimize_group_long in Hstep by done.
    rewrite Hr, Hd, Hi in Hstep. by injection Hstep as <-.
  - intros result returned ids Hlong Hr Hd Hi. rewrite optimize_group_long in Hstep by done.
    rewrite Hr, Hd, Hi in Hstep. injection Hstep as <-. cbn [heap].
    split_and!; [done|..].
    + apply assign_sequences_same.
    + intros j oid o Hj Ho.
      apply (assign_sequences_picked os (take (S j) ids) 0 (heap wk) j oid o); [|done|].
      * rewrite lookup_take_lt by lia. done.
      * intros j' oid' Hlt Hj'. apply lookup_lt_Some in Hj'.
        rewrite length_take in Hj'. lia.
    + intros j oid o Hj Ho Hlast.
      by apply (assign_sequences_picked os ids 0 (heap wk) j oid o).
    + intros o Ho. by apply assign_sequences_other.
Qed.

Lemma optimize_route_group_outcomes_witness :
  let w := World Batch.created 4 [] in
  let down := λ _ : nat, Raised (Exn RequestException "Connection refused") in
  let answer := Batch.optimized (JDict [("orders", JList [JInt 103; JInt 100; JInt 101])]) in
  let sent := [Post "order/optimize"
                 (OrderOptimize [JInt 100; JInt 101; JInt 103] "KDA 001" 1 1700000000
                                "optimal" "time")] in
  optimize_route down [0; 1; 2; 3]%nat w
  = (Ok [0; 1; 3; 2]%nat,
     World Batch.created 5
           (sent ++ [StWarning (OptimizationError "KDA 001"
                                  (Exn RequestException "Connection refused"))])) ∧
  optimize_route (Batch.optimized (JDict [("error", JInt 4)])) [0; 1; 2; 3]%nat w
  = (Ok [0; 1; 3; 2]%nat,
     World Batch.created 5 (sent ++ [StWarning (OptimizationFailed "KDA 001")])) ∧
  (∃ w', optimize_route answer [0; 1; 2; 3]%nat w = (Ok [0; 1; 3; 2]%nat, w') ∧
         calls w' = 5%nat ∧ log w' = sent ∧
         Order.sequence (heap w' 1%nat) = Some 3 ∧
         heap w' 2%nat = Batch.created 2%nat).
Proof.
  intros w down answer sent. split_and!.
  - destruct (optimize_route_group_outcomes down [0; 1; 2; 3]%nat w)
      as (ws & Hlen & Hrun & Hk).
    destruct ws as [|w1 [|w2 [|w3 ws]]]; try discriminate Hlen.
    destruct (Hk 0%nat "KDA 001" [0; 1; 3]%nat w w1 eq_refl eq_refl eq_refl)
      as (_ & _ & Hraised & _).
    destruct (Hk 1%nat "KDB 002" [2%nat] w1 w2 eq_refl eq_refl eq_refl)
      as (_ & Hshort & _).
    rewrite Hrun. cbn [last default from_option id].
    rewrite (Hshort ltac:(cbn; lia)).
    rewrite (Hraised _ ltac:(cbn; lia) eq_refl). reflexivity.
  - destruct (optimize_route_group_outcomes (Batch.optimized (JDict [("error", JInt 4)]))
                [0; 1; 2; 3]%nat w) as (ws & Hlen & Hrun & Hk).
    destruct ws as [|w1 [|w2 [|w3 ws]]]; try discriminate Hlen.
    destruct (Hk 0%nat "KDA 001" [0; 1; 3]%nat w w1 eq_refl eq_refl eq_refl)
      as (_ & _ & _ & Hfailed & _).
    destruct (Hk 1%nat "KDB 002" [2%nat] w1 w2 eq_refl eq_refl eq_refl)
      as (_ & Hshort & _).
    rewrite Hrun. cbn [last default from_option id].
    rewrite (Hshort ltac:(cbn; lia)).
    rewrite (Hfailed _ ltac:(cbn; lia) eq_refl eq_refl). reflexivity.
  - destruct (optimize_route_group_outcomes answer [0; 1; 2; 3]%nat w)
      as (ws & Hlen & Hrun & Hk).
    destruct ws as [|w1 [|w2 [|w3 ws]]]; try discriminate Hlen.
    destruct (Hk 0%nat "KDA 001" [0; 1; 3]%nat w w1 eq_refl eq_refl eq_refl)
      as (_ & _ & _ & _ & _ & Hok).
    destruct (Hk 1%nat "KDB 002" [2%nat] w1 w2 eq_refl eq_refl eq_refl)
      as (_ & Hshort & _).
    destruct (Hok _ _ [JInt 103; JInt 100; JInt 101] ltac:(cbn; lia) eq_refl eq_refl eq_refl)
      as (Hw1 & _ & _ & Hlast & Hother).
    exists w2. rewrite Hrun. cbn [last default from_option id].
    rewrite (Hshort ltac:(cbn; lia)). split_and!.
    + reflexivity.
    + by rewrite Hw1.
    + by rewrite Hw1.
    + apply (Hlast 2%nat (JInt 101)); [reflexivity|reflexivity|].
      intros j' oid' Hlt Hj'. apply lookup_lt_Some in Hj'. cbn in Hj'. lia.
    + apply Hother. intros j oid Hj.
      destruct j as [|[|[|j]]]; cbn in Hj; [injection Hj as <-..|done]; by vm_compute.
Defined.

(** ** More on the coordinate texts *)

Section MarkerFacts.
Import PyStr PyStrFacts PyFloatFacts.

Lemma split_two_markers (a b t : string) :
  has_char "L" a = false → has_char "L" b = false →
  split ("LAT:" +:+ a +:+ "LONG:" +:+ b +:+ "LONG:" +:+ t) "LONG:"
  = ("LAT:" +:+ a) :: b :: split t "LONG:".
Proof.
  intros Ha Hb. unfold split.
  change (split_go "LONG:" ("LAT:" +:+ a +:+ "LONG:" +:+ b +:+ "LONG:" +:+ t) 0 "")
    with (split_go "LONG:" (a +:+ "LONG:" +:+ b +:+ "LONG:" +:+ t) 0 (String.rev "LAT:")).
  rewrite (split_go_first "L" "ONG:") by done.
  by rewrite (split_go_first "L" "ONG:") by done.
Qed.

Lemma extract_coordinates_two_markers (a b t : string) (x y : float) :
  PyFloat.parse a = Some x → PyFloat.parse b = Some y →
  extract_coordinates (VStr ("LAT:" +:+ a +:+ "LONG:" +:+ b +:+ "LONG:" +:+ t))
  = (Some x, Some y).
Proof.
  intros Ha Hb. rewrite extract_coordinates_str.
  pose proof (parse_no_L _ _ Ha) as Ha'. pose proof (parse_no_L _ _ Hb) as Hb'.
  assert (contains "LAT:" ("LAT:" +:+ a +:+ "LONG:" +:+ b +:+ "LONG:" +:+ t) = true) as ->
    by apply (contains_app "LAT:" "").
  assert (contains "LONG:" ("LAT:" +:+ a +:+ "LONG:" +:+ b +:+ "LONG:" +:+ t) = true) as ->.
  { rewrite <- app_assoc. apply contains_app. }
  unfold lat_payload, lon_payload. rewrite split_two_markers by done.
  unfold default. cbn [lookup list_lookup from_option id andb].
  rewrite (replace_leading "L" "AT:") by done.
  by rewrite (parse_strip _ _ Ha), (parse_strip _ _ Hb).
Qed.

Lemma extract_coordinates_long_first (t : string) :
  extract_coordinates (VStr ("LONG:" +:+ t)) = (None, None).
Proof.
  rewrite extract_coordinates_str.
  destruct (contains "LAT:" _ && contains "LONG:" _); [|done].
  assert (lat_payload ("LONG:" +:+ t) = "") as ->; [|done].
  unfold lat_payload, split.
  change ("LONG:" +:+ t) with ("" +:+ "LONG:" +:+ t).
  by rewrite (split_go_first "L" "ONG:").
Qed.

End MarkerFacts.

(** X1.  [extract_coordinates] reads the longitude between the first
    and the second [LONG:] marker: what follows a second marker is ignored,
    whatever it is.  The latitude is what stands before the first [LONG:]:
    a text that begins with [LONG:] gives no coordinates, even when a
    latitude follows. *)
Theorem extract_coordinates_markers (a b t : string) (x y : float) :
  PyFloat.parse a = Some x → PyFloat.parse b = Some y →
  extract_coordinates (VStr ("LAT:" +:+ a +:+ "LONG:" +:+ b +:+ "LONG:" +:+ t))
  = (Some x, Some y) ∧
  extract_coordinates (VStr ("LONG:" +:+ b +:+ "LAT:" +:+ a)) = (None, None).
Proof.
  intros Ha Hb. split.
  - by apply extract_coordinates_two_markers.
  - apply extract_coordinates_long_first.
Qed.

Lemma extract_coordinates_markers_witness :
  extract_coordinates (VStr "LAT: -1.28 LONG: 36.82 LONG: east of the depot")
  = (Some Sample.lat_acme, Some Sample.lon_acme) ∧
  extract_coordinates (VStr "LONG: 36.82 LAT: -1.28 ") = (None, None).
Proof.
  apply (extract_coordinates_markers " -1.28 " " 36.82 " " east of the depot");
    vm_compute; reflexivity.
Defined.

(** ** The cells and the labels of the frame *)

Section Texts.
Import PyStr PyStrFacts.

Lemma all_chars_app (p : ascii → bool) (s t : string) :
  all_chars p (s +:+ t) = all_chars p s && all_chars p t.
Proof.
  induction s as [|c s IH]; [done|].
  rewrite app_cons. cbn. by rewrite IH, andb_assoc.
Qed.

Lemma has_char_rev (c : ascii) (s : string) : has_char c (String.rev s) = has_char c s.
Proof.
  induction s as [|c' s IH]; [done|].
  rewrite rev_cons, has_char_app, IH. cbn. rewrite orb_false_r. apply orb_comm.
Qed.

(** Stripping adds no character. *)
Lemma has_char_strip_absent (sp : ascii → bool) (c : ascii) (s : string) :
  has_char c s = false → has_char c (strip_by sp s) = false.
Proof.
  destruct (strip_split sp s) as (w & w' & _ & _ & Hs). intros H.
  rewrite Hs, !has_char_app in H.
  by apply orb_false_elim in H as [_ [H _]%orb_false_elim].
Qed.

Lemma strip_empty (sp : ascii → bool) (s : string) :
  strip_by sp s = "" ↔ all_chars sp s = true.
Proof.
  split.
  - intros H. destruct (strip_split sp s) as (w & w' & Hw & Hw' & Hs).
    rewrite Hs, H, !all_chars_app, Hw, Hw'. done.
  - intros H. rewrite <- (app_nil_r s).
    change (s +:+ "") with (s +:+ "" +:+ ""). by rewrite strip_spaces.
Qed.

(** [s.replace(c, new)] for a character [c] leaves no [c]. *)
Lemma replace_char_absent (c : ascii) (new s : string) :
  has_char c new = false → has_char c (replace s (String c "") new) = false.
Proof.
  intros Hnew. unfold replace. induction s as [|c' s IH]; [done|].
  cbn. destruct (Ascii.eqb_spec c c') as [<-|Hne].
  - by rewrite has_char_app, Hnew, IH.
  - cbn. rewrite IH, orb_false_r. by apply Ascii.eqb_neq.
Qed.

Lemma collapse_go_no_newline (s run : string) (nl : bool) :
  (nl = false → has_char "010" run = false) →
  has_char "010" (collapse_go s run nl) = false.
Proof.
  revert run nl. induction s as [|c s IH]; intros run nl Hrun.
  - cbn. destruct nl; [done|]. rewrite has_char_rev. by apply Hrun.
  - cbn [collapse_go]. destruct (is_space c) eqn:Hc.
    + apply IH. intros [Hnl Hlf]%orb_false_elim. cbn [has_char].
      rewrite (Hrun Hnl), orb_false_r. by rewrite Ascii.eqb_sym.
    + rewrite has_char_app. cbn [has_char]. rewrite IH by done.
      assert (Ascii.eqb "010" c = false) as ->.
      { apply Ascii.eqb_neq. by intros <-. }
      destruct nl; [done|]. rewrite has_char_rev. by rewrite Hrun.
Qed.

Lemma collapse_newlines_no_newline (s : string) :
  has_char "010" (collapse_newlines s) = false.
Proof. by apply collapse_go_no_newline. Qed.

End Texts.

Section Frame.
Import PyStr PyStrFacts.

Lemma nonblank_cell (c : cell) :
  String.eqb (strip (py_str c)) "" = true ↔ ∃ s, c = Some s ∧ all_chars is_space s = true.
Proof.
  destruct c as [s|]; cbn [py_str default from_option id].
  - rewrite String.eqb_eq. unfold strip. rewrite strip_empty. split; [eauto|].
    by intros (s' & [= <-] & H).
  - split; [done|]. by intros (s & ? & _).
Qed.

Lemma clean_name_fixed (c : cell) :
  let n := strip (replace (py_str c) LF " ") in
  strip (replace n LF " ") = n.
Proof.
  intros n. assert (has_char "010" n = false) as Hn.
  { apply has_char_strip_absent. by apply (replace_char_absent "010" " "). }
  unfold replace, LF. rewrite (replace_go_clear "010" "" " " n Hn).
  apply strip_idemp.
Qed.

Lemma clean_frame_columns (all_rows : list row) (header : list string) (df : dataframe) :
  clean_frame all_rows header = Ok df →
  NoDup (columns df) ∧ Forall (λ c, c ∈ REQUIRED_COLUMNS) (columns df) ∧
  Forall (λ r, Forall (λ c, ∃ c', c = normalize c') r) (rows df).
Proof.
  unfold clean_frame, mbind, result_bind.
  destruct (make_frame _ _) as [df0|e]; cbn [rbind]; [|done].
  case_bool_decide as Hnd; [|done].
  destruct (column_index _ _) as [cid|e]; cbn [rbind]; [|done].
  intros [= <-]. cbn [columns rows]. split_and!.
  - done.
  - apply Forall_fmap, Forall_forall. intros c [Hc _]%list_elem_of_filter.
    unfold required in Hc. by apply bool_decide_unpack in Hc.
  - apply Forall_forall.
    intros r [_ [_ Hr]%list_elem_of_filter]%list_elem_of_filter.
    apply list_elem_of_fmap in Hr as (r1 & -> & _).
    apply Forall_fmap, Forall_forall. intros c _. by exists c.
Qed.

Lemma column_index_lookup (cols : list string) (label : string) (i : nat) :
  column_index cols label = Ok i → cols !! i = Some label ∧ label ∈ cols.
Proof.
  unfold column_index. destruct (list_find _ cols) as [[j c]|] eqn:Hfind; [|done].
  intros [= ->]. apply list_find_Some in Hfind as (Hi & -> & _).
  split; [done|]. by eapply list_elem_of_lookup_2.
Qed.

Lemma assoc_app_miss {A} (k : string) (kvs rest : list (string * A)) :
  k ∉ kvs.*1 → assoc k (kvs ++ rest) = assoc k rest.
Proof.
  induction kvs as [|[k' v] kvs IH]; [done|].
  cbn. intros [Hk Hkvs]%not_elem_of_cons.
  destruct (String.eqb_spec k k'); [done|auto].
Qed.

Lemma assoc_zip_at {A} (ks : list string) (vs : list A) (rest : list (string * A))
    (k : string) (i : nat) :
  column_index ks k = Ok i → length vs = length ks →
  ∃ v, vs !! i = Some v ∧ assoc k (zip ks vs ++ rest) = Some v.
Proof.
  unfold column_index. destruct (list_find _ ks) as [[j c]|] eqn:Hfind; [|done].
  intros [= ->]. apply list_find_Some in Hfind as (Hi & -> & Hfirst).
  revert vs i Hi Hfirst. induction ks as [|k' ks IH]; intros [|v vs] i Hi Hfirst Hlen; try done.
  destruct i as [|i]; cbn in Hi.
  - injection Hi as ->. exists v. cbn. by rewrite String.eqb_refl.
  - injection Hlen as Hlen. cbn [zip zip_with app assoc].
    destruct (String.eqb_spec k k') as [->|Hne].
    + by destruct (Hfirst 0%nat k' eq_refl ltac:(lia)).
    + apply (IH vs i Hi); [|done]. intros j y Hj Hlt. apply (Hfirst (S j) y Hj). lia.
Qed.

(** What [read_pdf_to_df] returns: the columns of the frame, the position
    of the coordinates and the rows of cells behind the records. *)
Lemma read_pdf_to_df_frame (pages : list page) (records : list series) :
  read_pdf_to_df pages = Ok records →
  ∃ cols ci cells,
    NoDup cols ∧ Forall (λ c, c ∈ REQUIRED_COLUMNS) cols ∧ "CUSTOMER ID" ∈ cols ∧
    column_index cols "COORDINATES" = Ok ci ∧
    Forall (λ r, length r = length cols ∧ Forall (λ c, ∃ c', c = normalize c') r) cells ∧
    records
    = filter (λ r, negb (isna (get r "LAT" VNone)) && negb (isna (get r "LONG" VNone)))
             (with_coordinates cols ci <$> cells).
Proof.
  unfold read_pdf_to_df. destruct (scan pages) as [all_rows header].
  destruct header as [[|h header]|]; [done| |done].
  destruct all_rows as [|r0 all_rows]; [done|].
  unfold mbind, result_bind.
  destruct (clean_frame _ _) as [df|e] eqn:Hdf; cbn [rbind]; [|done].
  pose proof (clean_frame_rows _ _ _ Hdf) as [Hcid Hrows].
  pose proof (clean_frame_columns _ _ _ Hdf) as (Hnd & Hreq & Hcells).
  unfold locate, mbind, result_bind.
  destruct (column_index _ _) as [ci|e] eqn:Hci; cbn [rbind]; [|done].
  destruct (rows df) as [|r1 rows1] eqn:Hr; [done|]. rewrite <- Hr in *. intros [= <-].
  exists (columns df), ci, (rows df). split_and!; try done.
  apply Forall_forall. intros r Hin. rewrite Forall_forall in Hrows, Hcells.
  split; [by apply Hrows|by apply Hcells].
Qed.

Lemma lat_long_not_required (l : string) :
  l ∈ ["LAT"; "LONG"] → l ∉ REQUIRED_COLUMNS.
Proof.
  intros Hl. repeat (apply elem_of_cons in Hl as [->|Hl]; [by apply (bool_decide_unpack _)|]).
  by apply elem_of_nil in Hl.
Qed.

Lemma with_coordinates_labels (cols : list string) (ci : nat) (r : row) :
  length r = length cols →
  labels (with_coordinates cols ci r) = cols ++ ["LAT"; "LONG"].
Proof.
  intros Hlen. unfold with_coordinates, labels.
  destruct (extract_coordinates _) as [lat lon].
  rewrite fmap_app, fst_zip; [done|]. rewrite length_fmap. lia.
Qed.

Lemma with_coordinates_assoc (cols : list string) (ci : nat) (r : row) :
  Forall (λ c, c ∈ REQUIRED_COLUMNS) cols →
  let '(lat, lon) := extract_coordinates (cell_val (at_column ci r)) in
  assoc "LAT" (with_coordinates cols ci r) = Some (float_val lat) ∧
  assoc "LONG" (with_coordinates cols ci r) = Some (float_val lon).
Proof.
  intros Hcols. unfold with_coordinates.
  destruct (extract_coordinates _) as [lat lon].
  assert (∀ l, l ∈ ["LAT"; "LONG"] → l ∉ (zip cols (cell_val <$> r)).*1) as Hmiss.
  { intros l Hl Hin. apply (lat_long_not_required l Hl).
    apply list_elem_of_fmap in Hin as ([l' v] & -> & Hin%elem_of_zip_l).
    rewrite Forall_forall in Hcols. auto. }
  rewrite !assoc_app_miss by (apply Hmiss; set_solver). done.
Qed.

Lemma clean_twice (l : list cell) :
  let clean := λ c, strip (replace (py_str c) LF " ") in
  clean_column_names (Some <$> (clean <$> l)) = filter (λ n, n ≠ "") (clean <$> l).
Proof.
  intros clean. unfold clean_column_names. fold clean.
  induction l as [|c l IH]; [done|].
  cbn [fmap list_fmap]. rewrite !filter_cons. cbn [cell_truthy].
  destruct (String.eqb_spec (clean c) "") as [->|Hne]; cbn [negb].
  - rewrite decide_False by (by intros []). rewrite decide_False by (by intros []). apply IH.
  - rewrite decide_True by done. rewrite decide_True by done.
    cbn [fmap list_fmap]. f_equal; [|apply IH].
    apply clean_name_fixed.
Qed.

End Frame.

(** X2.  The blank-row filter of line 41 drops a row only when every cell
    of it is a text made of white space (or empty): a row with a missing
    cell is never dropped, since [str(None)] is the text ["None"]. *)
Theorem nonblank_false_iff_white_texts (r : row) :
  nonblank r = false ↔
  Forall (λ c, ∃ s, c = Some s ∧ PyStr.all_chars PyStr.is_space s = true) r.
Proof.
  unfold nonblank. induction r as [|c r IH]; [by split|].
  cbn [existsb]. rewrite orb_false_iff, negb_false_iff, nonblank_cell, IH, Forall_cons.
  done.
Qed.

(** X3.  The header is cleaned twice, at line 36 and at line 46: the
    second cleaning leaves every name as the first one made it and drops
    the names that the first one left empty (those of the cells made of
    white space). *)
Theorem clean_column_names_twice (cols : list cell) :
  clean_column_names (Some <$> clean_column_names cols)
  = filter (λ n, n ≠ "") (clean_column_names cols).
Proof. unfold clean_column_names at 2 3. apply clean_twice. Qed.

(** X4.  Every record that [read_pdf_to_df] hands on is located: its
    [COORDINATES] cell is a text from which [extract_coordinates] gets two
    floats, they are the [LAT] and the [LONG] of the record, and neither is
    NaN. *)
Theorem read_pdf_to_df_records_located (pages : list page) (records : list series) :
  read_pdf_to_df pages = Ok records →
  Forall (λ r, ∃ s x y,
      getitem r "COORDINATES" = Ok (VStr s) ∧
      extract_coordinates (VStr s) = (Some x, Some y) ∧
      getitem r "LAT" = Ok (VFloat x) ∧ getitem r "LONG" = Ok (VFloat y) ∧
      PyFloat.is_nan x = false ∧ PyFloat.is_nan y = false) records.
Proof.
  intros (cols & ci & cells & Hnd & Hreq & _ & Hci & Hcells & ->)%read_pdf_to_df_frame.
  apply Forall_forall. intros r [Hkeep Hr]%list_elem_of_filter.
  apply list_elem_of_fmap in Hr as (cs & -> & Hcs).
  rewrite Forall_forall in Hcells. destruct (Hcells cs Hcs) as [Hlen Hnorm].
  pose proof (with_coordinates_assoc cols ci cs Hreq) as Hll.
  unfold get in Hkeep. unfold getitem.
  destruct (assoc_zip_at cols (cell_val <$> cs)
              (let '(lat, lon) := extract_coordinates (cell_val (at_column ci cs)) in
               [("LAT", float_val lat); ("LONG", float_val lon)]) "COORDINATES" ci Hci)
    as (v & Hv & Hassoc); [by rewrite length_fmap|].
  rewrite list_lookup_fmap in Hv. unfold at_column in Hll.
  destruct (cs !! ci) as [c|] eqn:Hc; [|done]. injection Hv as <-.
  rewrite Forall_forall in Hnorm. destruct (Hnorm c) as [c' ->]; [by eapply list_elem_of_lookup_2|].
  cbn [default from_option id cell_val normalize] in *.
  unfold with_coordinates, at_column in *. rewrite Hc in *.
  cbn [default from_option id cell_val normalize] in *.
  destruct (extract_coordinates _) as [[x|] [y|]] eqn:Hxy;
    destruct Hll as [Hlat Hlon]; rewrite Hlat, Hlon in *; cbn in Hkeep;
    rewrite ?andb_false_r in Hkeep; try done.
  eexists _, x, y. rewrite Hassoc. split_and!; [done|done|done|done|..].
  - apply andb_prop_elim in Hkeep as [Hx _]. by apply negb_prop_elim, Is_true_false in Hx.
  - apply andb_prop_elim in Hkeep as [_ Hy]. by apply negb_prop_elim, Is_true_false in Hy.
Qed.

Lemma read_pdf_to_df_records_located_witness :
  ∃ records,
    read_pdf_to_df [[[Sample.header_cells; Sample.acme; Sample.unlocated]]] = Ok records ∧
    length records = 1%nat ∧
    Forall (λ r, ∃ s x y,
        getitem r "COORDINATES" = Ok (VStr s) ∧
        extract_coordinates (VStr s) = (Some x, Some y) ∧
        getitem r "LAT" = Ok (VFloat x) ∧ getitem r "LONG" = Ok (VFloat y) ∧
        PyFloat.is_nan x = false ∧ PyFloat.is_nan y = false) records.
Proof.
  eexists. split; [vm_compute; reflexivity|]. split; [reflexivity|].
  apply (read_pdf_to_df_records_located
           [[[Sample.header_cells; Sample.acme; Sample.unlocated]]]).
  vm_compute. reflexivity.
Defined.

(** X6.  In every record that [read_pdf_to_df] hands on, the value under
    a label other than [LAT] and [LONG] is a text without line break and
    without white space at its ends (line 52); a missing cell has become
    the text ["None"], so that no such value is missing. *)
Theorem read_pdf_to_df_cells_are_clean_texts (pages : list page) (records : list series) :
  read_pdf_to_df pages = Ok records →
  Forall (λ r, ∀ l v,
      getitem r l = Ok v → l ≠ "LAT" → l ≠ "LONG" →
      ∃ s, v = VStr s ∧ PyStr.strip s = s ∧ PyStr.has_char "010" s = false) records.
Proof.
  intros (cols & ci & cells & Hnd & Hreq & _ & Hci & Hcells & ->)%read_pdf_to_df_frame.
  apply Forall_forall. intros r [_ Hr]%list_elem_of_filter.
  apply list_elem_of_fmap in Hr as (cs & -> & Hcs).
  rewrite Forall_forall in Hcells. destruct (Hcells cs Hcs) as [Hlen Hnorm].
  intros l v Hv Hlat Hlon. unfold getitem, with_coordinates in Hv.
  destruct (extract_coordinates _) as [lat lon].
  destruct (decide (l ∈ cols)) as [Hl|Hl].
  - destruct (assoc_zip l cols (cell_val <$> cs)
                [("LAT", float_val lat); ("LONG", float_val lon)] Hl)
      as (v' & Hassoc & Hin); [by rewrite length_fmap|].
    rewrite Hassoc in Hv. injection Hv as <-.
    apply list_elem_of_fmap in Hin as (c & -> & Hc).
    rewrite Forall_forall in Hnorm. destruct (Hnorm c Hc) as [c' ->].
    eexists. split; [done|]. split.
    + apply PyStrFacts.strip_idemp.
    + apply has_char_strip_absent, collapse_newlines_no_newline.
  - rewrite assoc_app_miss in Hv.
    + cbn in Hv. destruct (String.eqb_spec l "LAT"); [done|].
      by destruct (String.eqb_spec l "LONG").
    + intros Hin. apply Hl.
      by apply list_elem_of_fmap in Hin as ([l' v'] & -> & Hin%elem_of_zip_l).
Qed.

Lemma read_pdf_to_df_cells_are_clean_texts_witness :
  ∃ records,
    read_pdf_to_df [[[Sample.header_cells; Sample.no_customer]]] = Ok records ∧
    length records = 1%nat ∧
    Forall (λ r, ∀ l v,
        getitem r l = Ok v → l ≠ "LAT" → l ≠ "LONG" →
        ∃ s, v = VStr s ∧ PyStr.strip s = s ∧ PyStr.has_char "010" s = false) records.
Proof.
  eexists. split; [vm_compute; reflexivity|]. split; [reflexivity|].
  apply (read_pdf_to_df_cells_are_clean_texts [[[Sample.header_cells; Sample.no_customer]]]).
  vm_compute. reflexivity.
Defined.

(** ** The rows behind the records *)

Section RowFilters.
Import PyStr PyStrFacts.

Lemma existsb_replicate {A} (p : A → bool) (n : nat) (a : A) :
  p a = false → existsb p (replicate n a) = false.
Proof. intros Ha. induction n as [|n IH]; [done|]. cbn. by rewrite Ha, IH. Qed.

Lemma repeats_header_pad (r : row) (n : nat) :
  repeats_header (r ++ replicate n None) = repeats_header r.
Proof.
  unfold repeats_header. rewrite existsb_app, existsb_replicate, orb_false_r; [done|].
  by vm_compute.
Qed.

Lemma has_noise_pad (r : row) (n : nat) :
  has_noise (r ++ replicate n None) = has_noise r.
Proof.
  unfold has_noise. rewrite existsb_app, existsb_replicate, orb_false_r; [done|].
  by vm_compute.
Qed.

Lemma at_column_pad (p n : nat) (r : row) :
  at_column p (r ++ replicate n None) = at_column p r.
Proof.
  unfold at_column. destruct (decide (p < length r)%nat) as [Hp|Hp].
  - by rewrite lookup_app_l.
  - rewrite lookup_app_r, (lookup_ge_None_2 r) by lia.
    by destruct (replicate n None !! (p - length r)%nat) as [c|] eqn:E;
      [apply lookup_replicate in E as [-> _]|].
Qed.

Lemma filter_fmap_same {A} (f : A → A) (p : A → bool) (l : list A) :
  (∀ a, p (f a) = p a) →
  filter (λ a, p a) (f <$> l) = f <$> filter (λ a, p a) l.
Proof.
  intros Hp. induction l as [|a l IH]; [done|].
  cbn [fmap list_fmap]. rewrite !filter_cons, Hp, IH.
  by destruct (decide (p a)).
Qed.

Lemma filter_all {A} (P : A → Prop) `{∀ x, Decision (P x)} (l : list A) :
  Forall P l → filter P l = l.
Proof.
  induction 1 as [|a l Ha _ IH]; [done|]. by rewrite filter_cons_True, IH.
Qed.

(** The header that the scan keeps is the cleaned first row of the first
    page that passes the test of line 35, the tables taken in their order. *)
Lemma list_find_app_snd {A} (P : A → Prop) `{∀ x, Decision (P x)} (l1 l2 : list A) :
  snd <$> list_find P (l1 ++ l2)
  = match list_find P l1 with
    | Some ix => Some ix.2
    | None => snd <$> list_find P l2
    end.
Proof.
  induction l1 as [|a l1 IH]; [done|].
  cbn. destruct (decide (P a)); [done|].
  rewrite <- !option_fmap_compose.
  destruct (list_find P l1) as [[i x]|] eqn:E1; cbn in *.
  - destruct (list_find P (l1 ++ l2)) as [[j y]|]; cbn in *; congruence.
  - destruct (list_find P (l1 ++ l2)) as [[j y]|], (list_find P l2) as [[k z]|];
      cbn in *; congruence.
Qed.

Lemma scan_first_page_header (pg : page) all_rows :
  (foldl (scan_table 0) (all_rows, None) pg).2
  = clean_column_names <$> (snd <$> list_find (λ r, is_header_row r) (concat pg)).
Proof.
  revert all_rows. induction pg as [|tbl pg IH]; intros all_rows; [done|].
  cbn [foldl concat]. rewrite list_find_app_snd.
  unfold scan_table at 2, table_data, find_header.
  destruct (list_find (λ r, is_header_row r) tbl) as [[i r]|] eqn:Hfind.
  - cbn [fmap option_fmap option_map snd].
    assert (clean_column_names r ≠ []) as Hne.
    { apply clean_column_names_header. apply list_find_Some in Hfind as (_ & Hr & _).
      by destruct (is_header_row r). }
    destruct (clean_column_names r) as [|c h] eqn:Hh; [done|]. cbn [list_truthy].
    by rewrite scan_tables_header_kept.
  - cbn [fmap option_fmap option_map list_truthy]. apply IH.
Qed.

Lemma scan_header_row (pages : list page) (header : list string) :
  (scan pages).2 = Some header →
  ∃ pg rest i r,
    pages = pg :: rest ∧
    list_find (λ r, is_header_row r) (concat pg) = Some (i, r) ∧
    header = clean_column_names r.
Proof.
  unfold scan. destruct pages as [|pg pages]; [done|].
  cbn [scan_pages]. rewrite scan_pages_later, scan_first_page_header.
  destruct (list_find _ (concat pg)) as [[i r]|] eqn:Hfind; [|done].
  intros [= <-]. by exists pg, pages, i, r.
Qed.

Lemma required_empty : required "" = false.
Proof. by vm_compute. Qed.

Lemma filter_required_clean_twice (r : row) :
  filter (λ c, required c) (clean_column_names (Some <$> clean_column_names r))
  = filter (λ c, required c) (clean_column_names r).
Proof.
  unfold clean_column_names at 2 3. rewrite clean_twice.
  induction (filter (λ c, cell_truthy c) r) as [|c l IH]; [done|].
  cbn [fmap list_fmap]. rewrite (filter_cons (λ n, n ≠ "")).
  destruct (decide (strip (replace (py_str c) LF " ") ≠ "")) as [Hne|Heq].
  - rewrite !filter_cons, IH. done.
  - apply dec_stable in Heq. rewrite filter_cons, Heq, required_empty.
    rewrite decide_False by (by intros []). apply IH.
Qed.

(** The value of a record under a required column is the cell of the row
    in this column. *)
Lemma selected_cell (names : list string) :
  ∀ (vals : row) (rest : series) (p : nat) (name : string),
    NoDup ((λ c, upper (strip c)) <$> filter (λ c, required c) names) →
    length vals = length names →
    names !! p = Some name →
    required name = true →
    assoc (upper (strip name))
      (zip ((λ c, upper (strip c)) <$> filter (λ c, required c) names)
           (cell_val <$> (normalize <$> select_required names vals)) ++ rest)
    = Some (cell_val (normalize (at_column p vals))).
Proof.
  unfold select_required.
  induction names as [|n0 names IH]; intros [|v0 vals] rest p name Hnd Hlen Hp Hreq;
    try done.
  injection Hlen as Hlen. cbn [zip zip_with]. rewrite !filter_cons in *. cbn [fst] in *.
  fold (zip names vals).
  destruct (decide (required n0)) as [Hn0|Hn0].
  - cbn [fmap list_fmap snd zip zip_with app assoc] in *.
    apply NoDup_cons in Hnd as [Hfresh Hnd].
    destruct p as [|p]; cbn in Hp.
    + injection Hp as ->. by rewrite String.eqb_refl.
    + destruct (String.eqb_spec (upper (strip name)) (upper (strip n0))) as [Heq|_].
      * exfalso. apply Hfresh. rewrite <- Heq. apply list_elem_of_fmap.
        exists name. split; [done|]. apply list_elem_of_filter.
        split; [by rewrite Hreq|]. by eapply list_elem_of_lookup_2.
      * change (at_column (S p) (v0 :: vals)) with (at_column p vals). by apply IH.
  - destruct p as [|p]; cbn in Hp.
    + injection Hp as ->. by rewrite Hreq in Hn0.
    + change (at_column (S p) (v0 :: vals)) with (at_column p vals). by apply IH.
Qed.

Lemma nonempty_filter_keeps_all (rows : list row) :
  Forall (λ r, r ≠ []) rows →
  filter (λ r, existsb notna r) (fmap (M := list) normalize <$> rows)
  = fmap (M := list) normalize <$> rows.
Proof.
  induction 1 as [|r rows Hr _ IH]; [done|].
  rewrite fmap_cons, filter_cons_True, IH; [done|].
  by destruct r.
Qed.

(** Lines 46-53 in one step: the filters of line 53 remove nothing. *)
Lemma clean_frame_normal_form (all_rows : list row) (header : list string) (df : dataframe) :
  clean_frame all_rows header = Ok df →
  let names := clean_column_names (Some <$> header) in
  let cols := (λ c, upper (strip c)) <$> filter (λ c, required c) names in
  let cells := λ r,
    normalize <$> select_required names (r ++ replicate (length names - length r) None) in
  NoDup cols ∧
  Forall (λ r, (length r ≤ length names)%nat) all_rows ∧
  columns df = cols ∧
  rows df = cells <$> filter (λ r, negb (has_noise r))
                        (filter (λ r, negb (repeats_header r)) all_rows).
Proof.
  intros Hdf names cols cells. revert Hdf.
  unfold clean_frame, make_frame, mbind, result_bind. fold names.
  case_decide as Hw; cbn [rbind]; [|done]. cbn [columns rows]. fold cols.
  case_bool_decide as Hnd; [|done].
  destruct (column_index cols "CUSTOMER ID") as [cid|e] eqn:Hcid; cbn [rbind]; [|done].
  intros [= <-]. cbn [columns rows].
  assert (Forall (λ r, (length r ≤ length names)%nat) all_rows) as Hlen.
  { apply Forall_forall. intros r Hr. rewrite Hw.
    apply max_list_elem_of_le, list_elem_of_fmap. eauto. }
  split_and!; [done|done|done|]. rewrite <- Hw.
  set (pad := λ r : row, r ++ replicate (length names - length r) None).
  rewrite (filter_fmap_same pad (λ r, negb (repeats_header r)))
    by (intros r; unfold pad; by rewrite repeats_header_pad).
  rewrite (filter_fmap_same pad (λ r, negb (has_noise r)))
    by (intros r; unfold pad; by rewrite has_noise_pad).
  set (kept := filter (λ r, negb (has_noise r)) _).
  assert (Forall (λ r, length r = length (filter (λ c, required c) names))
                 (select_required names <$> (pad <$> kept))) as Hsel.
  { apply Forall_fmap, Forall_fmap, Forall_forall. intros r Hr. cbn.
    apply select_required_length. unfold pad.
    rewrite length_app, length_replicate.
    assert (length r ≤ length names)%nat; [|lia].
    rewrite Forall_forall in Hlen. apply Hlen.
    by apply list_elem_of_filter in Hr as [_ [_ Hr]%list_elem_of_filter]. }
  assert (cid < length (filter (λ c, required c) names))%nat as Hcidlt.
  { apply column_index_lookup in Hcid as [Hcid _].
    apply lookup_lt_Some in Hcid. unfold cols in Hcid. by rewrite length_fmap in Hcid. }
  rewrite customer_filter_keeps_all.
  2:{ eapply Forall_impl; [exact Hsel|]. intros r ->. done. }
  rewrite nonempty_filter_keeps_all.
  2:{ eapply Forall_impl; [exact Hsel|]. intros r Hr ->. cbn in Hr. lia. }
  rewrite <- !list_fmap_compose. done.
Qed.

(** The frame of line 56, from the rows that the scan has collected. *)
Lemma read_pdf_to_df_rows (pages : list page) (records : list series) :
  read_pdf_to_df pages = Ok records →
  ∃ header ci,
    (scan pages).2 = Some header ∧
    let names := clean_column_names (Some <$> header) in
    let cols := (λ c, upper (strip c)) <$> filter (λ c, required c) names in
    let cells := λ r,
      normalize <$> select_required names (r ++ replicate (length names - length r) None) in
    NoDup cols ∧
    "CUSTOMER ID" ∈ cols ∧
    column_index cols "COORDINATES" = Ok ci ∧
    Forall (λ r, (length r ≤ length names)%nat) (scan pages).1 ∧
    records
    = filter (λ r, negb (isna (get r "LAT" VNone)) && negb (isna (get r "LONG" VNone)))
        (with_coordinates cols ci
           <$> (cells <$> filter (λ r, negb (has_noise r))
                            (filter (λ r, negb (repeats_header r)) (scan pages).1))).
Proof.
  unfold read_pdf_to_df. destruct (scan pages) as [all_rows header]. cbn [fst snd].
  destruct header as [[|h header]|]; [done| |done].
  destruct all_rows as [|r0 all_rows]; [done|].
  unfold mbind, result_bind.
  destruct (clean_frame _ _) as [df|e] eqn:Hdf; cbn [rbind]; [|done].
  pose proof (clean_frame_rows _ _ _ Hdf) as [Hcid _].
  apply clean_frame_normal_form in Hdf as (Hnd & Hlen & Hcols & Hrows).
  unfold locate, mbind, result_bind. rewrite Hcols in *.
  destruct (column_index _ "COORDINATES") as [ci|e] eqn:Hci; cbn [rbind]; [|done].
  rewrite Hrows. clear Hrows. intros Hrun.
  exists (h :: header), ci. split_and!; [done..|].
  revert Hrun. cbn zeta.
  match goal with |- context [with_coordinates _ _ <$> ?E] => destruct E; [done|] end.
  by intros [= <-].
Qed.

End RowFilters.

Section RecordFacts.
Import PyStr PyStrFacts.

Lemma padded_cells_length (names : list string) (r : row) :
  (length r ≤ length names)%nat →
  length (normalize <$> select_required names
                          (r ++ replicate (length names - length r) None))
  = length ((λ c, upper (strip c)) <$> filter (λ c, required c) names).
Proof.
  intros Hlen. rewrite !length_fmap. apply select_required_length.
  rewrite length_app, length_replicate. lia.
Qed.

Lemma required_columns (names : list string) :
  Forall (λ c, c ∈ REQUIRED_COLUMNS)
         ((λ c, upper (strip c)) <$> filter (λ c, required c) names).
Proof.
  apply Forall_fmap, Forall_forall. intros c [Hc _]%list_elem_of_filter.
  unfold required in Hc. by apply bool_decide_unpack in Hc.
Qed.

Lemma kept_rows_elem_of (all_rows : list row) (r : row) :
  r ∈ filter (λ r, negb (has_noise r)) (filter (λ r, negb (repeats_header r)) all_rows) →
  r ∈ all_rows.
Proof. by intros [_ [_ Hr]%list_elem_of_filter]%list_elem_of_filter. Qed.

End RecordFacts.

(** X5.  All records of the frame of line 56 have the same labels, each
    once: the labels of the required columns that the header row names, in
    the order of the header row, followed by [LAT] and [LONG].  The header
    row is the first row of the first page that passes the test of line
    35; a column of it is kept when its cleaned name, stripped and in upper
    case, is a required column, and this is its label.  [CUSTOMER ID] and
    [COORDINATES] are among the labels, and no other column of the document
    is kept. *)
Theorem read_pdf_to_df_record_labels (pages : list page) (records : list series) :
  read_pdf_to_df pages = Ok records →
  ∃ pg rest i hrow,
    pages = pg :: rest ∧
    list_find (λ r, is_header_row r) (concat pg) = Some (i, hrow) ∧
    let cols := (λ c, PyStr.upper (PyStr.strip c))
                  <$> filter (λ c, required c) (clean_column_names hrow) in
    Forall (λ c, c ∈ REQUIRED_COLUMNS) cols ∧
    "CUSTOMER ID" ∈ cols ∧ "COORDINATES" ∈ cols ∧
    NoDup (cols ++ ["LAT"; "LONG"]) ∧
    Forall (λ r, labels r = cols ++ ["LAT"; "LONG"]) records.
Proof.
  intros (header & ci & Hheader & Hnd & Hcid & Hci & Hlen & ->)%read_pdf_to_df_rows.
  apply scan_header_row in Hheader as (pg & rest & i & hrow & -> & Hfind & ->).
  exists pg, rest, i, hrow. split; [done|]. split; [done|]. cbn zeta.
  rewrite <- filter_required_clean_twice.
  set (names := clean_column_names (Some <$> clean_column_names hrow)) in *.
  split_and!.
  - apply required_columns.
  - done.
  - by eapply column_index_lookup.
  - apply NoDup_app. split_and!; [done| |by apply (bool_decide_unpack _)].
    intros l Hl Hl'. apply (lat_long_not_required l Hl').
    pose proof (required_columns names) as Hreq. rewrite Forall_forall in Hreq. auto.
  - apply Forall_forall. intros rec [_ Hrec]%list_elem_of_filter.
    apply list_elem_of_fmap in Hrec as (cs & -> & Hcs).
    apply list_elem_of_fmap in Hcs as (r & -> & Hr%kept_rows_elem_of).
    apply with_coordinates_labels, padded_cells_length.
    rewrite Forall_forall in Hlen. by apply Hlen.
Qed.

Lemma read_pdf_to_df_record_labels_witness :
  let pages :=
    [[[Sample.banner;
       Some <$> ["Tonnage"; "Driver"; "Coordinates"; " customer id "];
       Some <$> ["2"; "Otieno"; "LAT: -1.28 LONG: 36.82"; "C1"]]]] in
  ∃ records,
    read_pdf_to_df pages = Ok records ∧
    length records = 1%nat ∧
    ∃ pg rest i hrow,
      pages = pg :: rest ∧
      list_find (λ r, is_header_row r) (concat pg) = Some (i, hrow) ∧
      let cols := (λ c, PyStr.upper (PyStr.strip c))
                    <$> filter (λ c, required c) (clean_column_names hrow) in
      Forall (λ c, c ∈ REQUIRED_COLUMNS) cols ∧
      "CUSTOMER ID" ∈ cols ∧ "COORDINATES" ∈ cols ∧
      NoDup (cols ++ ["LAT"; "LONG"]) ∧
      Forall (λ r, labels r = cols ++ ["LAT"; "LONG"]) records.
Proof.
  intros pages. eexists. split; [vm_compute; reflexivity|]. split; [reflexivity|].
  apply (read_pdf_to_df_record_labels pages). vm_compute. reflexivity.
Defined.

(** X7.  The records of the frame of line 56 are made, in their order,
    from the rows that line 41 has collected ([all_rows]) and that repeat
    no required column name (line 47) and hold no noise marker (line 48).
    Each such row gives one candidate: under the label of a required column
    of the header it has the cleaned text (line 52) of the cell of the row
    in this column, the text of [None] when the row is too short, and its
    [LAT] and [LONG] are what [extract_coordinates] gets from its
    [COORDINATES].  The records are the candidates whose [LAT] and [LONG]
    are there and not NaN (line 56); the filters of line 53 remove none. *)
Theorem read_pdf_to_df_records_from_rows (pages : list page) (records : list series) :
  read_pdf_to_df pages = Ok records →
  ∃ pg rest i hrow (record : row → series),
    pages = pg :: rest ∧
    list_find (λ r, is_header_row r) (concat pg) = Some (i, hrow) ∧
    let names := clean_column_names (Some <$> clean_column_names hrow) in
    let kept := filter (λ r, negb (has_noise r))
                  (filter (λ r, negb (repeats_header r)) (scan pages).1) in
    records
    = filter (λ rec, negb (isna (get rec "LAT" VNone)) && negb (isna (get rec "LONG" VNone)))
             (record <$> kept) ∧
    ∀ r, r ∈ kept →
      (∀ p name, names !! p = Some name → required name = true →
         getitem (record r) (PyStr.upper (PyStr.strip name))
         = Ok (VStr (PyStr.strip (PyStr.collapse_newlines (py_str (at_column p r)))))) ∧
      ∃ s, getitem (record r) "COORDINATES" = Ok (VStr s) ∧
           get (record r) "LAT" VNone = float_val (extract_coordinates (VStr s)).1 ∧
           get (record r) "LONG" VNone = float_val (extract_coordinates (VStr s)).2.
Proof.
  intros Hrun.
  pose proof (read_pdf_to_df_rows _ _ Hrun)
    as (header & ci & Hheader & Hnd & _ & Hci & Hlen & Hrec).
  pose proof (scan_header_row _ _ Hheader) as (pg & rest & i & hrow & Hpages & Hfind & ->).
  set (names := clean_column_names (Some <$> clean_column_names hrow)) in *.
  set (cols := (λ c, PyStr.upper (PyStr.strip c)) <$> filter (λ c, required c) names) in *.
  exists pg, rest, i, hrow,
    (λ r, with_coordinates cols ci
            (normalize <$> select_required names
                             (r ++ replicate (length names - length r) None))).
  split; [done|]. split; [done|]. cbn zeta. fold names.
  split; [by rewrite Hrec, <- list_fmap_compose|].
  intros r Hr%kept_rows_elem_of.
  rewrite Forall_forall in Hlen. specialize (Hlen r Hr).
  set (cells := normalize <$> select_required names _).
  assert (length cells = length cols) as Hcells by (by apply padded_cells_length).
  pose proof (with_coordinates_assoc cols ci cells (required_columns names)) as Hll.
  split.
  - intros p name Hp Hreq. unfold getitem, with_coordinates.
    destruct (extract_coordinates _) as [lat lon]. subst cells cols.
    rewrite (selected_cell names _ _ p name Hnd); [|rewrite length_app, length_replicate; lia|done|done].
    by rewrite at_column_pad.
  - destruct (assoc_zip_at cols (cell_val <$> cells)
                (let '(lat, lon) := extract_coordinates (cell_val (at_column ci cells)) in
                 [("LAT", float_val lat); ("LONG", float_val lon)]) "COORDINATES" ci Hci)
      as (v & Hv & Hassoc); [by rewrite length_fmap|].
    rewrite list_lookup_fmap in Hv. unfold at_column in Hll.
    destruct (cells !! ci) as [c|] eqn:Hc; [|done]. injection Hv as <-.
    assert (∃ c', c = normalize c') as [c' ->].
    { pose proof Hc as Hc2. unfold cells in Hc2.
      apply list_lookup_fmap_Some in Hc2 as (c' & Heq & _). by exists c'. }
    exists (PyStr.strip (PyStr.collapse_newlines (py_str c'))).
    unfold getitem, get, with_coordinates, at_column in *. rewrite Hc in *.
    cbn [default from_option id cell_val normalize] in *.
    destruct (extract_coordinates _) as [lat lon].
    destruct Hll as [-> ->]. by rewrite Hassoc.
Qed.

Lemma read_pdf_to_df_records_from_rows_witness :
  let pages :=
    [[[Sample.banner; Sample.header_cells; Sample.acme; Sample.mileage];
      [Sample.header_cells; Sample.unlocated; Sample.empty_customer]]] in
  ∃ records,
    read_pdf_to_df pages = Ok records ∧
    (λ r, get r "CUSTOMER NAME" VNone) <$> records = [VStr "Acme"; VStr "Gamma"] ∧
    ∃ pg rest i hrow (record : row → series),
      pages = pg :: rest ∧
      list_find (λ r, is_header_row r) (concat pg) = Some (i, hrow) ∧
      let names := clean_column_names (Some <$> clean_column_names hrow) in
      let kept := filter (λ r, negb (has_noise r))
                    (filter (λ r, negb (repeats_header r)) (scan pages).1) in
      records
      = filter (λ rec, negb (isna (get rec "LAT" VNone))
                       && negb (isna (get rec "LONG" VNone)))
               (record <$> kept) ∧
      ∀ r, r ∈ kept →
        (∀ p name, names !! p = Some name → required name = true →
           getitem (record r) (PyStr.upper (PyStr.strip name))
           = Ok (VStr (PyStr.strip (PyStr.collapse_newlines (py_str (at_column p r)))))) ∧
        ∃ s, getitem (record r) "COORDINATES" = Ok (VStr s) ∧
             get (record r) "LAT" VNone = float_val (extract_coordinates (VStr s)).1 ∧
             get (record r) "LONG" VNone = float_val (extract_coordinates (VStr s)).2.
Proof.
  intros pages. eexists. split; [vm_compute; reflexivity|]. split; [reflexivity|].
  apply (read_pdf_to_df_records_from_rows pages). vm_compute. reflexivity.
Defined.

(** ** The orders of [convert_to_orders] *)

Section Conversion.

Variable float_repr : float → string.
Variable tf tt : Z.
Variable county_asset : gmap string string.

Lemma convert_row_order (r : series) (o : Order.t) :
  convert_row float_repr tf tt county_asset r = Ok (Some o) →
  extract_coordinates (get r "COORDINATES" VNone) = (Some (Order.y o), Some (Order.x o)) ∧
  getitem r "CUSTOMER NAME" = Ok (Order.n o) ∧
  order_weight r = Ok (Order.w (Order.p o)) ∧
  Order.rp o
  = (let asset := asset_of county_asset (get r "Correct County" VNone) in
     if String.eqb asset "" then "Unassigned" else asset) ∧
  Order.tf o = tf ∧ Order.tt o = tt ∧ Order.id o = JInt 0 ∧ Order.sequence o = None.
Proof.
  unfold convert_row, getitem, get, mbind, result_bind.
  destruct (assoc "COORDINATES" r) as [coord_str|]; cbn [rbind]; [|done].
  destruct (extract_coordinates coord_str) as [[lat|] [lon|]]; try done.
  destruct (order_weight r) as [w|e]; cbn [rbind]; [|done].
  destruct (assoc "Correct County" r) as [county|]; cbn [rbind]; [|done].
  destruct (assoc "CUSTOMER NAME" r) as [n|]; cbn [rbind]; [|done].
  destruct (assoc "AMOUNT" r) as [c|]; cbn [rbind]; [|done].
  destruct (assoc "CUSTOMER ID" r) as [cid|]; cbn [rbind]; [|done].
  destruct (assoc "INVOICE NO" r) as [uic|]; cbn [rbind]; [|done].
  by intros [= <-].
Qed.

Lemma convert_row_skipped (r : series) :
  convert_row float_repr tf tt county_asset r = Ok None → located r = false.
Proof.
  unfold convert_row, located, getitem, get, mbind, result_bind.
  destruct (assoc "COORDINATES" r) as [coord_str|]; cbn [rbind]; [|done].
  destruct (extract_coordinates coord_str) as [[lat|] [lon|]]; try done.
  destruct (order_weight r) as [w|e]; cbn [rbind]; [|done].
  destruct (assoc "Correct County" r) as [county|]; cbn [rbind]; [|done].
  destruct (assoc "CUSTOMER NAME" r) as [n|]; cbn [rbind]; [|done].
  destruct (assoc "AMOUNT" r) as [c|]; cbn [rbind]; [|done].
  destruct (assoc "CUSTOMER ID" r) as [cid|]; cbn [rbind]; [|done].
  by destruct (assoc "INVOICE NO" r) as [uic|].
Qed.

Lemma convert_row_located (r : series) (o : Order.t) :
  convert_row float_repr tf tt county_asset r = Ok (Some o) → located r = true.
Proof. intros (H & _)%convert_row_order. unfold located. by rewrite H. Qed.

Lemma convert_to_orders_cons (r : series) (gdf : list series) (orders : list Order.t) :
  convert_to_orders float_repr (r :: gdf) tf tt county_asset = Ok orders →
  ∃ o rest,
    convert_row float_repr tf tt county_asset r = Ok o ∧
    convert_to_orders float_repr gdf tf tt county_asset = Ok rest ∧
    orders = option_list o ++ rest.
Proof.
  cbn [convert_to_orders]. unfold mbind, result_bind.
  destruct (convert_row float_repr tf tt county_asset r) as [o|e]; cbn [rbind]; [|done].
  destruct (convert_to_orders float_repr gdf tf tt county_asset) as [rest|e];
    cbn [rbind]; [|done].
  intros [= <-]. eauto.
Qed.

Lemma convert_to_orders_records (gdf : list series) (orders : list Order.t) :
  convert_to_orders float_repr gdf tf tt county_asset = Ok orders →
  Forall2 (λ r o, convert_row float_repr tf tt county_asset r = Ok (Some o))
          (filter (λ r, located r) gdf) orders.
Proof.
  revert orders. induction gdf as [|r gdf IH]; intros orders.
  - intros [= <-]. constructor.
  - intros (o & rest & Hr & Hrest & ->)%convert_to_orders_cons.
    destruct o as [o|]; cbn [option_list].
    + rewrite filter_cons_True; [|rewrite (convert_row_located r o Hr); exact I].
      constructor; [done|by apply IH].
    + rewrite filter_cons_False; [|rewrite (convert_row_skipped r Hr); exact id].
      by apply IH.
Qed.

Lemma convert_to_orders_first_failure (done_ failed : list series) (r : series) (e : exn) :
  Forall (λ r', ∃ o, convert_row float_repr tf tt county_asset r' = Ok o) done_ →
  convert_row float_repr tf tt county_asset r = Raise e →
  convert_to_orders float_repr (done_ ++ r :: failed) tf tt county_asset = Raise e.
Proof.
  intros Hdone Hr. induction Hdone as [|r' done_ [o Ho] _ IH].
  - cbn [app convert_to_orders]. unfold mbind, result_bind. by rewrite Hr.
  - cbn [app convert_to_orders]. unfold mbind, result_bind in *. by rewrite Ho, IH.
Qed.

End Conversion.

(** X8.  When [convert_to_orders] returns, it has built one order for
    every record whose coordinates parse, in the order of the frame, and
    none for the other records: the order has the parsed coordinates as [y]
    and [x], the customer name of the record, the weight of line 162, the
    time window handed in, the id 0 and no sequence number. *)
Theorem convert_to_orders_one_order_per_located_record (float_repr : float → string)
    (tf tt : Z) (county_asset : gmap string string) (gdf : list series)
    (orders : list Order.t) :
  convert_to_orders float_repr gdf tf tt county_asset = Ok orders →
  Forall2 (λ r o,
      extract_coordinates (get r "COORDINATES" VNone) = (Some (Order.y o), Some (Order.x o)) ∧
      getitem r "CUSTOMER NAME" = Ok (Order.n o) ∧
      order_weight r = Ok (Order.w (Order.p o)) ∧
      Order.tf o = tf ∧ Order.tt o = tt ∧ Order.id o = JInt 0 ∧ Order.sequence o = None)
    (filter (λ r, located r) gdf) orders.
Proof.
  intros H%convert_to_orders_records. eapply Forall2_impl; [exact H|].
  intros r o (Hc & Hn & Hw & _ & Htf & Htt & Hid & Hseq)%convert_row_order. done.
Qed.

Lemma convert_to_orders_one_order_per_located_record_witness :
  ∃ orders,
    convert_to_orders Delivery.repr [Delivery.acme; Delivery.beta; Delivery.gamma]
      1700000000 1700086400 Delivery.assets = Ok orders ∧
    Forall2 (λ r o,
        extract_coordinates (get r "COORDINATES" VNone)
        = (Some (Order.y o), Some (Order.x o)) ∧
        getitem r "CUSTOMER NAME" = Ok (Order.n o) ∧
        order_weight r = Ok (Order.w (Order.p o)) ∧
        Order.tf o = 1700000000 ∧ Order.tt o = 1700086400 ∧
        Order.id o = JInt 0 ∧ Order.sequence o = None)
      [Delivery.acme; Delivery.gamma] orders.
Proof.
  eexists. split; [vm_compute; reflexivity|].
  apply (convert_to_orders_one_order_per_located_record Delivery.repr
           1700000000 1700086400 Delivery.assets
           [Delivery.acme; Delivery.beta; Delivery.gamma]).
  vm_compute. reflexivity.
Defined.

(** X9.  Every order that [convert_to_orders] builds has a resource that
    is not empty: the asset entered for the county of its record, and
    ["Unassigned"] when the county has no entry, when the entry is empty or
    when the county of the record is missing. *)
Theorem convert_to_orders_resource_never_empty (float_repr : float → string)
    (tf tt : Z) (county_asset : gmap string string) (gdf : list series)
    (orders : list Order.t) :
  convert_to_orders float_repr gdf tf tt county_asset = Ok orders →
  Forall2 (λ r o,
      Order.rp o ≠ "" ∧
      (∀ county, getitem r "Correct County" = Ok (VStr county) →
         Order.rp o = match county_asset !! county with
                      | Some asset => if String.eqb asset "" then "Unassigned" else asset
                      | None => "Unassigned"
                      end) ∧
      (∀ v, getitem r "Correct County" = Ok v → (∀ county, v ≠ VStr county) →
         Order.rp o = "Unassigned"))
    (filter (λ r, located r) gdf) orders.
Proof.
  intros H%convert_to_orders_records. eapply Forall2_impl; [exact H|].
  intros r o (_ & _ & _ & -> & _)%convert_row_order. unfold getitem, get. split_and!.
  - cbn zeta. by destruct (String.eqb_spec (asset_of county_asset
                                              match assoc "Correct County" r with
                                              | Some v => v
                                              | None => VNone
                                              end) "").
  - intros county Hc. destruct (assoc "Correct County" r) as [v|]; [|done].
    injection Hc as ->. cbn. by destruct (county_asset !! county).
  - intros v Hv Hne. destruct (assoc "Correct County" r) as [v'|]; [|done].
    injection Hv as ->. destruct v; try done. by destruct (Hne s).
Qed.

Lemma convert_to_orders_resource_never_empty_witness :
  ∃ orders,
    convert_to_orders Delivery.repr [Delivery.acme; Delivery.beta; Delivery.gamma]
      1700000000 1700086400 Delivery.assets = Ok orders ∧
    Forall2 (λ r o,
        Order.rp o ≠ "" ∧
        (∀ county, getitem r "Correct County" = Ok (VStr county) →
           Order.rp o = match Delivery.assets !! county with
                        | Some asset => if String.eqb asset "" then "Unassigned" else asset
                        | None => "Unassigned"
                        end) ∧
        (∀ v, getitem r "Correct County" = Ok v → (∀ county, v ≠ VStr county) →
           Order.rp o = "Unassigned"))
      [Delivery.acme; Delivery.gamma] orders.
Proof.
  eexists. split; [vm_compute; reflexivity|].
  apply (convert_to_orders_resource_never_empty Delivery.repr
           1700000000 1700086400 Delivery.assets
           [Delivery.acme; Delivery.beta; Delivery.gamma]).
  vm_compute. reflexivity.
Defined.

(** X10.  [convert_to_orders] is all or nothing: the first record of the
    frame whose conversion raises (a tonnage that is not a number, a
    column that is missing) ends the call with its exception, and no order
    is returned for the records before it or after it. *)
Theorem convert_to_orders_first_exception (float_repr : float → string) (tf tt : Z)
    (county_asset : gmap string string) (before after : list series) (r : series)
    (e : exn) :
  Forall (λ r', ∃ o, convert_row float_repr tf tt county_asset r' = Ok o) before →
  convert_row float_repr tf tt county_asset r = Raise e →
  convert_to_orders float_repr (before ++ r :: after) tf tt county_asset = Raise e.
Proof. apply convert_to_orders_first_failure. Qed.

Lemma convert_to_orders_first_exception_witness :
  convert_to_orders Delivery.repr
    [Delivery.acme; Delivery.beta; Delivery.delta; Delivery.gamma]
    1700000000 1700086400 Delivery.assets
  = Raise (Exn ValueError "could not convert string to float: 'two'").
Proof.
  apply (convert_to_orders_first_exception Delivery.repr 1700000000 1700086400
           Delivery.assets [Delivery.acme; Delivery.beta] [Delivery.gamma] Delivery.delta).
  - repeat constructor; eexists; vm_compute; reflexivity.
  - vm_compute. reflexivity.
Defined.

(** ** Requests of the route update and of the creation *)

Section RouteUpdates.

Variable remote : nat → outcome.

Lemma requests_app (l l' : list event) : requests (l ++ l') = requests l ++ requests l'.
Proof. apply omap_app. Qed.

Lemma pauses_app (l l' : list event) : pauses (l ++ l') = pauses l ++ pauses l'.
Proof. apply omap_app. Qed.

Lemma requests_post (svc : string) (params : request) (l : list event) :
  requests (Post svc params :: l) = (svc, params) :: requests l.
Proof. done. Qed.

Lemma pauses_post (svc : string) (params : request) (l : list event) :
  pauses (Post svc params :: l) = pauses l.
Proof. done. Qed.

Lemma for_each_cons {A} (a : A) (l : list A) (body : A → M unit) (w : world) :
  for_each (a :: l) body w
  = match for_each [a] body w with
    | (Ok _, w') => for_each l body w'
    | (Raise e, w') => (Raise e, w')
    end.
Proof.
  cbn [for_each]. unfold mbind, M_bind, bind, ret.
  by destruct (body a w) as [[[]|e] w'].
Qed.

Lemma update_route_paths_one (o : loc) (w : world) :
  ∃ warnings,
    update_route_paths remote [o] w
    = (Ok (), World (heap w) (S (calls w))
                    (log w ++ Post "order/route_update"
                                   (OrderRouteUpdate (Order.id (heap w o)) "optimal" 1)
                              :: warnings ++ [Sleep 1])) ∧
    requests warnings = [] ∧ pauses warnings = [].
Proof.
  unfold update_route_paths. cbn [for_each].
  unfold try_except, mbind, M_bind, bind, gets, post, emit, mret, M_ret, ret.
  cbn [heap calls log].
  destruct (remote (calls w)) as [e|result].
  - exists [StWarning (RouteUpdateError (Order.n (heap w o)) e)].
    split; [|done]. cbn [heap calls log]. by rewrite <- !(assoc_L (++)).
  - destruct (dict_get result "error") as [error|].
    + exists [StWarning (RouteUpdateFailed (Order.n (heap w o)) error)].
      split; [|done]. cbn [heap calls log]. by rewrite <- !(assoc_L (++)).
    + exists []. split; [|done]. cbn [heap calls log]. by rewrite <- !(assoc_L (++)).
Qed.

Lemma update_route_paths_step (o : loc) (orders : list loc) (w : world) :
  ∃ warnings,
    update_route_paths remote (o :: orders) w
    = update_route_paths remote orders
        (World (heap w) (S (calls w))
               (log w ++ Post "order/route_update"
                              (OrderRouteUpdate (Order.id (heap w o)) "optimal" 1)
                         :: warnings ++ [Sleep 1])) ∧
    requests warnings = [] ∧ pauses warnings = [].
Proof.
  destruct (update_route_paths_one o w) as (warnings & H & Hw).
  exists warnings. split; [|done].
  unfold update_route_paths in *. by rewrite for_each_cons, H.
Qed.

Lemma update_route_paths_returns (orders : list loc) (w : world) :
  ∃ w',
    update_route_paths remote orders w = (Ok (), w') ∧
    heap w' = heap w ∧
    calls w' = (calls w + length orders)%nat ∧
    requests (log w')
    = requests (log w)
      ++ ((λ o, ("order/route_update", OrderRouteUpdate (Order.id (heap w o)) "optimal" 1))
            <$> orders) ∧
    pauses (log w') = pauses (log w) ++ replicate (length orders) 1.
Proof.
  revert w. induction orders as [|o orders IH]; intros w.
  - exists w. cbn. rewrite !app_nil_r. split_and!; [done|done|lia|done|done].
  - destruct (update_route_paths_step o orders w) as (warnings & -> & Hreq & Hpause).
    destruct (IH (World (heap w) (S (calls w))
                        (log w ++ Post "order/route_update"
                                       (OrderRouteUpdate (Order.id (heap w o)) "optimal" 1)
                                  :: warnings ++ [Sleep 1])))
      as (w' & -> & Hheap & Hcalls & Hlog & Hsleep).
    cbn [heap calls log] in *. exists w'. split_and!; [done|done|cbn; lia| |].
    + rewrite Hlog, requests_app, requests_post, requests_app, Hreq.
      cbn. by rewrite <- (assoc_L (++)).
    + rewrite Hsleep, pauses_app, pauses_post, pauses_app, Hpause.
      cbn. by rewrite <- (assoc_L (++)).
Qed.

End RouteUpdates.

(** X11.  Whatever the service answers, [update_route_paths] returns: it
    sends one [order/route_update] request per order, in the order of the
    list, each with the id of its order, the path type [optimal] and the
    flags 1; it pauses one second after every order and changes no order. *)
Theorem update_route_paths_one_request_per_order (remote : nat → outcome)
    (orders : list loc) (w : world) :
  ∃ w',
    update_route_paths remote orders w = (Ok (), w') ∧
    heap w' = heap w ∧
    calls w' = (calls w + length orders)%nat ∧
    requests (log w')
    = requests (log w)
      ++ ((λ o, ("order/route_update", OrderRouteUpdate (Order.id (heap w o)) "optimal" 1))
            <$> orders) ∧
    pauses (log w') = pauses (log w) ++ replicate (length orders) 1.
Proof. apply update_route_paths_returns. Qed.

Section Creation.

Variable remote : nat → outcome.

(** The answers to the calls made from the world [w] on. *)
Lemma answers_tail (k : nat) (v : json) (replies : list json) :
  (∀ i u, (v :: replies) !! i = Some u → remote (k + i) = Decoded u) →
  remote k = Decoded v ∧ ∀ i u, replies !! i = Some u → remote (S k + i) = Decoded u.
Proof.
  intros H. split.
  - rewrite <- (Nat.add_0_r k). by apply H.
  - intros i u Hi. replace (S k + i)%nat with (k + S i)%nat by lia. by apply H.
Qed.

Lemma create_orders_answers (orders : list loc) :
  ∀ (replies : list json) (created : list loc) (w : world),
    NoDup orders →
    length replies = length orders →
    (∀ i v, replies !! i = Some v → remote (calls w + i) = Decoded v) →
    ∃ w',
      create_orders remote orders created w
      = (Ok (created ++ (filter (λ ov, accepted ov.2) (zip orders replies)).*1), w') ∧
      calls w' = (calls w + length orders)%nat ∧
      requests (log w')
      = requests (log w) ++ ((λ o, ("order/update", OrderUpdate (heap w o))) <$> orders) ∧
      (∀ i o v, orders !! i = Some o → replies !! i = Some v →
         heap w' o = if accepted v then Order.set_id v (heap w o) else heap w o) ∧
      (∀ l, l ∉ orders → heap w' l = heap w l).
Proof.
  induction orders as [|o orders IH]; intros replies created w Hnd Hlen Hans.
  - exists w. destruct replies; [|done]. cbn. rewrite !app_nil_r.
    split_and!; [done|lia|done|done|done].
  - destruct replies as [|v replies]; [done|]. injection Hlen as Hlen.
    apply NoDup_cons in Hnd as [Ho Hnd].
    apply answers_tail in Hans as [Hv Hans].
    cbn [zip zip_with]. rewrite filter_cons. cbn [snd fst].
    destruct (dict_get v "error") as [error|] eqn:Herr.
    + assert (accepted v = false) as Hacc.
      { unfold accepted. rewrite Herr. by apply bool_decide_eq_false_2. }
      rewrite (create_orders_error_object remote o orders created w v error Hv Herr).
      destruct (decide (accepted v)) as [Ht|_]; [exfalso; rewrite Hacc in Ht; exact Ht|].
      set (w1 := World _ _ _).
      destruct (IH replies created w1 Hnd Hlen Hans) as (w' & -> & Hc & Hr & Hh & Hl).
      exists w'. subst w1. cbn [heap calls log] in *. split_and!.
      * done.
      * cbn [length]. lia.
      * rewrite Hr, requests_app. cbn. by rewrite <- (assoc_L (++)).
      * intros [|i] o' v' Ho' Hv'; cbn in Ho', Hv'.
        -- injection Ho' as <-. injection Hv' as <-. rewrite Hacc. by apply Hl.
        -- by apply (Hh i).
      * intros l [_ Hl']%not_elem_of_cons. by apply Hl.
    + assert (accepted v = true) as Hacc.
      { unfold accepted. rewrite Herr. by apply bool_decide_eq_true_2. }
      rewrite (create_orders_created remote o orders created w v Hv Herr).
      destruct (decide (accepted v)) as [_|Hf]; [|exfalso; apply Hf; rewrite Hacc; exact I].
      set (w1 := World _ _ _).
      destruct (IH replies (created ++ [o]) w1 Hnd Hlen Hans) as (w' & -> & Hc & Hr & Hh & Hl).
      assert (∀ l, l ≠ o → heap w1 l = heap w l) as Hw1.
      { intros l Hne. subst w1. cbn [heap]. by rewrite fn_lookup_insert_ne. }
      exists w'. split_and!.
      * cbn [fmap list_fmap fst]. by rewrite <- (assoc_L (++)).
      * subst w1. cbn [heap calls log length] in *. lia.
      * rewrite Hr. subst w1. cbn [heap log]. rewrite requests_app.
        cbn [fmap list_fmap]. rewrite <- (assoc_L (++)). f_equal. cbn. f_equal.
        apply list_fmap_ext. intros i o' Ho'. rewrite fn_lookup_insert_ne; [done|].
        intros ->. apply Ho. by eapply list_elem_of_lookup_2.
      * intros [|i] o' v' Ho' Hv'; cbn in Ho', Hv'.
        -- injection Ho' as <-. injection Hv' as <-.
           rewrite Hacc. rewrite Hl by done. subst w1. cbn [heap]. by rewrite fn_lookup_insert.
        -- rewrite (Hh i o' v' Ho' Hv'), Hw1; [done|].
           intros ->. apply Ho. by eapply list_elem_of_lookup_2.
      * intros l [Hne Hl']%not_elem_of_cons. rewrite Hl by done. by apply Hw1.
Qed.

(** When every answer is an error object nothing is created, and
    [send_orders] ends after the loop. *)
Lemma create_orders_all_rejected (orders : list loc) :
  ∀ (created : list loc) (w : world),
    (∀ i, (i < length orders)%nat →
       ∃ result error, remote (calls w + i) = Decoded result ∧
                       dict_get result "error" = Some error) →
    ∃ events,
      create_orders remote orders created w
      = (Ok created, World (heap w) (calls w + length orders) (log w ++ events)) ∧
      requests events = (λ o, ("order/update", OrderUpdate (heap w o))) <$> orders ∧
      Forall (λ ev, ∀ m, ev ≠ StSuccess m ∧ ev ≠ StInfo m) events.
Proof.
  induction orders as [|o orders IH]; intros created w Hans.
  - exists []. cbn. rewrite app_nil_r, Nat.add_0_r. by destruct w.
  - destruct (Hans 0%nat) as (result & error & Hr & He); [cbn; lia|].
    rewrite Nat.add_0_r in Hr.
    rewrite (create_orders_error_object remote o orders created w result error Hr He).
    set (w1 := World _ _ _).
    destruct (IH created w1) as (events & -> & Hreq & Hev).
    { intros i Hi. subst w1. cbn [calls].
      replace (S (calls w) + i)%nat with (calls w + S i)%nat by lia.
      apply Hans. cbn. lia. }
    subst w1. cbn [heap calls log] in *.
    exists ([Post "order/update" (OrderUpdate (heap w o));
             StError (CreateFailed (Order.n (heap w o)) error); Sleep 1] ++ events).
    split_and!.
    + rewrite <- (assoc_L (++)).
      by assert (S (calls w) + length orders = calls w + length (o :: orders))%nat as ->
        by (cbn [length]; lia).
    + rewrite requests_app, Hreq. done.
    + apply Forall_app. split; [|done]. by repeat constructor.
Qed.

End Creation.

(** X12.  When no call raises and the orders are distinct objects, the
    creation loop of [send_orders] sends one [order/update] request per
    order, in the order of the list, with the order as it was handed in;
    the orders answered with an error object keep their id and are left
    out of the created orders, every other order gets the answer to its
    own request as its id and is created, in the order of the list; no
    other order of the store changes. *)
Theorem create_orders_ids_from_answers (remote : nat → outcome) (orders : list loc)
    (replies : list json) (w : world) :
  NoDup orders →
  length replies = length orders →
  (∀ i v, replies !! i = Some v → remote (calls w + i)%nat = Decoded v) →
  ∃ w',
    create_orders remote orders [] w
    = (Ok (filter (λ ov, accepted ov.2) (zip orders replies)).*1, w') ∧
    calls w' = (calls w + length orders)%nat ∧
    requests (log w')
    = requests (log w) ++ ((λ o, ("order/update", OrderUpdate (heap w o))) <$> orders) ∧
    (∀ i o v, orders !! i = Some o → replies !! i = Some v →
       heap w' o = if accepted v then Order.set_id v (heap w o) else heap w o) ∧
    (∀ l, l ∉ orders → heap w' l = heap w l).
Proof. intros Hnd Hlen Hans. exact (create_orders_answers remote orders replies [] w Hnd Hlen Hans). Qed.

Lemma create_orders_ids_from_answers_witness :
  let remote := λ k : nat,
    match k with
    | 1%nat => Decoded (JDict [("error", JInt 4)])
    | _ => Decoded (JInt (100 + Z.of_nat k))
    end in
  ∃ w',
    create_orders remote [0; 1; 2]%nat [] Batch.start = (Ok [0; 2]%nat, w') ∧
    calls w' = 3%nat ∧
    Order.id (heap w' 0%nat) = JInt 100 ∧
    Order.id (heap w' 1%nat) = JInt 0 ∧
    Order.id (heap w' 2%nat) = JInt 102.
Proof.
  intros remote.
  destruct (create_orders_ids_from_answers remote [0; 1; 2]%nat
              [JInt 100; JDict [("error", JInt 4)]; JInt 102] Batch.start)
    as (w' & Hrun & Hcalls & _ & Hids & _).
  - by apply (bool_decide_unpack _).
  - reflexivity.
  - intros [|[|[|i]]] v Hv; cbn in Hv; [by injection Hv as <-..|done].
  - exists w'. split_and!.
    + exact Hrun.
    + exact Hcalls.
    + by rewrite (Hids 0%nat 0%nat (JInt 100)).
    + by rewrite (Hids 1%nat 1%nat (JDict [("error", JInt 4)])).
    + by rewrite (Hids 2%nat 2%nat (JInt 102)).
Defined.

(** X13.  When the service answers every [order/update] request with an
    error object, [send_orders] returns after the creation loop: it has
    sent the creation requests and nothing else (no optimisation, no route
    update), reports no success and leaves every order as it was. *)
Theorem send_orders_nothing_created (remote : nat → outcome) (orders : list loc)
    (w : world) :
  (∀ i, (i < length orders)%nat →
     ∃ result error, remote (calls w + i)%nat = Decoded result ∧
                     dict_get result "error" = Some error) →
  ∃ events,
    send_orders remote orders w
    = (Ok (), World (heap w) (calls w + length orders) (log w ++ events)) ∧
    requests events = (λ o, ("order/update", OrderUpdate (heap w o))) <$> orders ∧
    Forall (λ ev, ∀ m, ev ≠ StSuccess m ∧ ev ≠ StInfo m) events.
Proof.
  intros Hans.
  destruct (create_orders_all_rejected remote orders [] w Hans) as (events & Hrun & H).
  exists events. split; [|done].
  unfold send_orders, mbind, M_bind, bind at 1. by rewrite Hrun.
Qed.

Lemma send_orders_nothing_created_witness :
  ∃ events,
    send_orders (Batch.optimized (JDict [("error", JInt 4)])) [0; 1; 2]%nat Batch.start
    = (Ok (), World Batch.orders 3 events) ∧
    requests events
    = [("order/update", OrderUpdate (Batch.orders 0%nat));
       ("order/update", OrderUpdate (Batch.orders 1%nat));
       ("order/update", OrderUpdate (Batch.orders 2%nat))].
Proof.
  destruct (send_orders_nothing_created (Batch.optimized (JDict [("error", JInt 4)]))
              [0; 1; 2]%nat Batch.start) as (events & Hrun & Hreq & _).
  - intros i _. exists (JDict [("error", JInt 4)]), (JInt 4). split; reflexivity.
  - exists events. split; [exact Hrun|exact Hreq].
Defined.

Section OptimizeRequests.

Variable remote : nat → outcome.

Lemma optimization_request_same (h h' : store) (resource : string) (os : list loc) :
  same_but_sequence h h' →
  optimization_request h' resource os = optimization_request h resource os.
Proof.
  intros H. unfold optimization_request. f_equal.
  - apply list_fmap_ext. intros i o _. by apply same_but_sequence_id.
  - exact (f_equal Order.tf (H _)).
Qed.

Lemma optimize_group_requests (resource : string) (os : list loc) (w : world) :
  ∃ w',
    optimize_group remote resource os w = (Ok os, w') ∧
    same_but_sequence (heap w) (heap w') ∧
    calls w' = (calls w + length (filter long [(resource, os)]))%nat ∧
    requests (log w')
    = requests (log w)
      ++ ((λ g, ("order/optimize", optimization_request (heap w) g.1 g.2))
            <$> filter long [(resource, os)]).
Proof.
  rewrite filter_cons, filter_nil.
  destruct (decide (long (resource, os))) as [Hlen|Hlen]; unfold long in Hlen; cbn in Hlen.
  - rewrite optimize_group_long by done.
    assert (∀ h' warnings,
      same_but_sequence (heap w) h' → requests warnings = [] →
      ∃ w', (Ok os, World h' (S (calls w))
                    ((log w ++ [Post "order/optimize"
                                  (optimization_request (heap w) resource os)])
                     ++ warnings)) = (Ok os, w') ∧
            same_but_sequence (heap w) (heap w') ∧
            calls w' = (calls w + length [(resource, os)])%nat ∧
            requests (log w')
            = requests (log w)
              ++ ((λ g, ("order/optimize", optimization_request (heap w) g.1 g.2))
                    <$> [(resource, os)])) as Hend.
    { intros h' warnings Hh' Hw. eexists. split; [done|]. cbn [heap calls log].
      split_and!; [done|cbn; lia|]. by rewrite !requests_app, Hw, app_nil_r. }
    destruct (remote (calls w)) as [e|result]; [by apply Hend|].
    destruct (dict_get result "orders") as [returned|]; [|by apply Hend].
    destruct (iterate returned) as [ids|e]; [|by apply Hend].
    rewrite <- (app_nil_r (log w ++ _)). apply Hend; [|done]. apply assign_sequences_same.
  - rewrite optimize_group_short by lia. exists w. cbn. rewrite app_nil_r.
    split_and!; [done|done|lia|done].
Qed.

Lemma optimize_groups_requests (groups : list (string * list loc)) (w : world) :
  ∃ w',
    optimize_groups remote groups w = (Ok (concat groups.*2), w') ∧
    same_but_sequence (heap w) (heap w') ∧
    calls w' = (calls w + length (filter long groups))%nat ∧
    requests (log w')
    = requests (log w)
      ++ ((λ g, ("order/optimize", optimization_request (heap w) g.1 g.2))
            <$> filter long groups).
Proof.
  revert w. induction groups as [|[resource os] groups IH]; intros w.
  - exists w. cbn. rewrite app_nil_r. split_and!; [done|done|lia|done].
  - cbn [optimize_groups]. unfold mbind, M_bind, bind.
    destruct (optimize_group_requests resource os w) as (w1 & -> & H1 & Hc1 & Hr1).
    destruct (IH w1) as (w2 & -> & H2 & Hc2 & Hr2).
    exists w2. split_and!; [done|by eapply same_but_sequence_trans| |].
    + change ((resource, os) :: groups) with ([(resource, os)] ++ groups).
      rewrite filter_app, length_app. lia.
    + change ((resource, os) :: groups) with ([(resource, os)] ++ groups).
      rewrite Hr2, Hr1, filter_app, fmap_app, <- (assoc_L (++)). do 2 f_equal.
      apply list_fmap_ext. intros i g _. f_equal. by apply optimization_request_same.
Qed.

Lemma group_by_resource_singletons (h : store) (orders : list loc) :
  NoDup ((λ o, Order.rp (h o)) <$> orders) →
  group_by_resource h orders = (λ o, (Order.rp (h o), [o])) <$> orders.
Proof.
  induction orders as [|o orders IH] using rev_ind; [done|].
  rewrite fmap_app. intros (Hnd & Ho & _)%NoDup_app.
  rewrite group_by_resource_snoc, IH by done. rewrite group_insert_new.
  - by rewrite fmap_app.
  - rewrite <- list_fmap_compose. intros Hin. apply (Ho _ Hin). cbn. left.
Qed.

Lemma optimize_groups_singletons (h : store) (orders : list loc) (w : world) :
  optimize_groups remote ((λ o, (Order.rp (h o), [o])) <$> orders) w = (Ok orders, w).
Proof.
  induction orders as [|o orders IH]; [done|].
  cbn [fmap list_fmap optimize_groups]. unfold mbind, M_bind, bind.
  rewrite optimize_group_short by (cbn; lia). cbn [fmap list_fmap] in IH. by rewrite IH.
Qed.

End OptimizeRequests.

(** X14.  [optimize_route] hands the orders back grouped by resource: the
    resources come in the order of their first appearance, the orders of a
    resource in the order of the input, whatever the service answers (the
    answer sets [sequence], it never reorders the list).  One
    [order/optimize] request is sent for every resource with two orders or
    more, in this order, with the ids of the orders of the resource and the
    departure time of the first of them; no request is sent for a resource
    with one order. *)
Theorem optimize_route_grouped_by_resource (remote : nat → outcome) (orders : list loc)
    (w : world) :
  let resource := λ o, Order.rp (heap w o) in
  let groups := (λ k, (k, filter (λ o, resource o = k) orders))
                  <$> unique (resource <$> orders) in
  let optimized := filter long groups in
  ∃ w',
    optimize_route remote orders w = (Ok (concat groups.*2), w') ∧
    calls w' = (calls w + length optimized)%nat ∧
    requests (log w')
    = requests (log w)
      ++ ((λ g, ("order/optimize", optimization_request (heap w) g.1 g.2)) <$> optimized).
Proof.
  intros resource groups optimized. rewrite optimize_route_by_groups.
  rewrite group_by_resource_groups. fold resource groups.
  destruct (optimize_groups_requests remote groups w) as (w' & Hrun & _ & Hcalls & Hreq).
  by exists w'.
Qed.

(** X15.  When every order has a resource of its own, [optimize_route]
    sends nothing and returns the list it was given, in the same order; no
    order changes. *)
Theorem optimize_route_distinct_resources (remote : nat → outcome) (orders : list loc)
    (w : world) :
  NoDup ((λ o, Order.rp (heap w o)) <$> orders) →
  optimize_route remote orders w = (Ok orders, w).
Proof.
  intros Hnd. rewrite optimize_route_by_groups.
  rewrite group_by_resource_singletons by done.
  apply optimize_groups_singletons.
Qed.

Lemma optimize_route_distinct_resources_witness :
  optimize_route Batch.malformed_second [2; 0]%nat Batch.start = (Ok [2; 0]%nat, Batch.start).
Proof.
  apply (optimize_route_distinct_resources Batch.malformed_second [2; 0]%nat Batch.start).
  by apply (bool_decide_unpack _).
Defined.

(** ** The sequence numbers when the service echoes the ids *)

Section Echo.

Lemma picked_own (h : store) (os : list loc) (i : nat) (o : loc) :
  (∀ i j o o', os !! i = Some o → os !! j = Some o' →
     py_eq (Order.id (h o)) (Order.id (h o')) = true ↔ i = j) →
  os !! i = Some o →
  picked h os (Order.id (h o)) = Some o.
Proof.
  intros Hids Hi. unfold picked.
  destruct (list_find _ os) as [[j o']|] eqn:Hfind.
  - apply list_find_Some in Hfind as (Hj & Heq & _). cbn. f_equal.
    apply (Hids j i o' o Hj Hi) in Heq as ->. congruence.
  - apply list_find_None in Hfind. rewrite Forall_forall in Hfind.
    destruct (Hfind o); [by eapply list_elem_of_lookup_2|].
    by apply (Hids i i o o Hi Hi).
Qed.

Lemma picked_elem_of (h : store) (os : list loc) (oid : json) (o : loc) :
  picked h os oid = Some o → o ∈ os ∧ py_eq (Order.id (h o)) oid = true.
Proof.
  unfold picked. destruct (list_find _ os) as [[j o']|] eqn:Hfind; [|done].
  intros [= <-]. apply list_find_Some in Hfind as (Hj & Heq & _).
  split; [by eapply list_elem_of_lookup_2|done].
Qed.

End Echo.

(** X16.  When the orders of a group have ids that differ from one
    another and the service returns these ids, each once, in the order it
    has chosen, the loop of lines 116-120 numbers the orders by this order:
    the order whose id stands at position [j] of the answer (counted from
    0) gets the sequence number [j + 1], and nothing but [sequence]
    changes. *)
Theorem assign_sequences_by_returned_order (h : store) (os : list loc)
    (returned : list json) :
  (∀ i j o o', os !! i = Some o → os !! j = Some o' →
     py_eq (Order.id (h o)) (Order.id (h o')) = true ↔ i = j) →
  NoDup returned →
  (∀ oid, oid ∈ returned → ∃ o, o ∈ os ∧ oid = Order.id (h o)) →
  same_but_sequence h (assign_sequences os 0 returned h) ∧
  ∀ j o, o ∈ os → returned !! j = Some (Order.id (h o)) →
    Order.sequence (assign_sequences os 0 returned h o) = Some (Z.of_nat j + 1).
Proof.
  intros Hids Hnd Hfrom. split; [apply assign_sequences_same|].
  intros j o Ho Hj. apply list_elem_of_lookup in Ho as [i Hi].
  apply (assign_sequences_picked os returned 0 h j (Order.id (h o)) o); [done| |].
  - by eapply picked_own.
  - intros j' oid' Hlt Hj' [Hin Heq]%picked_elem_of.
    destruct (Hfrom oid') as (o' & Ho' & ->); [by eapply list_elem_of_lookup_2|].
    apply list_elem_of_lookup in Ho' as [i' Hi'].
    apply (Hids i i' o o' Hi Hi') in Heq as <-.
    assert (o' = o) as -> by congruence.
    pose proof (NoDup_lookup _ _ _ _ Hnd Hj Hj'). lia.
Qed.

Lemma assign_sequences_by_returned_order_witness :
  let h' := assign_sequences [0; 1; 3]%nat 0 [JInt 103; JInt 100; JInt 101] Batch.created in
  Order.sequence (h' 3%nat) = Some 1 ∧
  Order.sequence (h' 0%nat) = Some 2 ∧
  Order.sequence (h' 1%nat) = Some 3.
Proof.
  intros h'.
  destruct (assign_sequences_by_returned_order Batch.created [0; 1; 3]%nat
              [JInt 103; JInt 100; JInt 101]) as [_ Hseq].
  - intros [|[|[|i]]] [|[|[|j]]] o o' Ho Ho'; cbn in Ho, Ho';
      try done; injection Ho as <-; injection Ho' as <-; by vm_compute.
  - repeat (apply NoDup_cons; split;
            [intros Hin; repeat (apply elem_of_cons in Hin as [[=]|Hin]);
             by apply elem_of_nil in Hin|]).
    apply NoDup_nil_2.
  - intros oid Hin.
    apply elem_of_cons in Hin as [->|Hin];
      [exists 3%nat; split; [by apply (bool_decide_unpack _)|reflexivity]|].
    apply elem_of_cons in Hin as [->|Hin];
      [exists 0%nat; split; [by apply (bool_decide_unpack _)|reflexivity]|].
    apply elem_of_cons in Hin as [->|Hin];
      [exists 1%nat; split; [by apply (bool_decide_unpack _)|reflexivity]|].
    by apply elem_of_nil in Hin.
  - split_and!.
    + apply (Hseq 0%nat 3%nat); [by apply (bool_decide_unpack _)|reflexivity].
    + apply (Hseq 1%nat 0%nat); [by apply (bool_decide_unpack _)|reflexivity].
    + apply (Hseq 2%nat 1%nat); [by apply (bool_decide_unpack _)|reflexivity].
Defined.

(** ** The calls of [send_orders] *)

Section SendOrders.

Variable remote : nat → outcome.




End SendOrders.



(** ** Session, assets and driver *)

Section SessionFacts.

Variable remote : nat → outcome.

Lemma login_to_wialon_run (token : string) (w : world) :
  login_to_wialon remote token w
  = (match remote (calls w) with
     | Raised e => Raise e
     | Decoded data =>
         present ← json_contains "eid" data;
         if negb present then Ok (LoginFailed data)
         else eid ← json_getitem data "eid"; Ok (LoggedIn eid)
     end, World (heap w) (S (calls w)) (log w)).
Proof.
  unfold login_to_wialon, get_json, mbind, M_bind, bind, lift, result_bind, mret, M_ret, ret.
  destruct (remote (calls w)) as [e|data]; [done|].
  destruct (json_contains "eid" data) as [[]|e]; cbn [rbind negb]; [|done|done].
  by destruct (json_getitem data "eid").
Qed.

End SessionFacts.

(** X18.  [login_to_wialon] makes one call.  It returns a session id
    exactly when the answer is a JSON object with the key [eid], and the
    id is the value under this key; for an object without the key it ends
    with the exception "Login failed"; an answer that is no object never
    gives a session id, whatever it holds; and an exception of the call
    (no connection, a body that is not JSON) leaves the function. *)
Theorem login_to_wialon_session_iff_eid (remote : nat → outcome) (token : string)
    (w : world) :
  let run := login_to_wialon remote token w in
  run.2 = World (heap w) (S (calls w)) (log w) ∧
  (∀ eid, run.1 = Ok (LoggedIn eid) ↔
          ∃ kvs, remote (calls w) = Decoded (JDict kvs) ∧ assoc "eid" kvs = Some eid) ∧
  (∀ data, run.1 = Ok (LoginFailed data) → remote (calls w) = Decoded data) ∧
  (∀ kvs, remote (calls w) = Decoded (JDict kvs) → assoc "eid" kvs = None →
          run.1 = Ok (LoginFailed (JDict kvs))) ∧
  (∀ e, remote (calls w) = Raised e → run.1 = Raise e).
Proof.
  intros run. subst run. rewrite login_to_wialon_run. cbn [fst snd]. split_and!.
  - done.
  - intros eid. split.
    + destruct (remote (calls w)) as [e|data]; [done|].
      destruct data as [| | | | |l|kvs]; try done.
      * unfold mbind, result_bind. cbn. by destruct (PyStr.contains "eid" s).
      * unfold mbind, result_bind. cbn. by destruct (existsb _ l).
      * unfold mbind, result_bind. cbn [json_contains json_getitem rbind].
        destruct (assoc "eid" kvs) as [v|] eqn:Heid; [|by case_bool_decide].
        case_bool_decide; cbn [negb rbind]; [|done]. intros [= <-]. by exists kvs.
    + intros (kvs & -> & Heid). unfold mbind, result_bind.
      cbn [json_contains json_getitem rbind]. rewrite Heid.
      by rewrite bool_decide_eq_true_2 by eauto.
  - intros data. destruct (remote (calls w)) as [e|data']; [done|].
    unfold mbind, result_bind.
    destruct (json_contains "eid" data') as [[]|e]; cbn [rbind negb]; [|congruence|done].
    by destruct (json_getitem data' "eid").
  - intros kvs -> Heid. unfold mbind, result_bind.
    cbn [json_contains json_getitem rbind]. rewrite Heid.
    by rewrite bool_decide_eq_false_2 by (by intros [? ?]).
  - by intros e ->.
Qed.

Lemma login_to_wialon_session_iff_eid_witness :
  (login_to_wialon (λ _, Decoded (JDict [("eid", JStr "0a1b"); ("user", JStr "mawa")]))
     "token" Batch.start).1 = Ok (LoggedIn (JStr "0a1b")) ∧
  (login_to_wialon (λ _, Decoded (JDict [("error", JInt 4)])) "token" Batch.start).1
  = Ok (LoginFailed (JDict [("error", JInt 4)])) ∧
  (login_to_wialon (λ _, Raised (Exn RequestException "Connection refused"))
     "token" Batch.start).1 = Raise (Exn RequestException "Connection refused").
Proof.
  split_and!.
  - apply (login_to_wialon_session_iff_eid _ "token" Batch.start). eexists. by split.
  - by apply (login_to_wialon_session_iff_eid _ "token" Batch.start).
  - by apply (login_to_wialon_session_iff_eid _ "token" Batch.start).
Defined.

Section AssetFacts.

Variable text_input : string → string.

Lemma foldl_insert_lookup (f : string → string) (l : list string) (m : gmap string string)
    (c : string) :
  foldl (λ m c, <[c := f c]> m) m l !! c
  = if bool_decide (c ∈ l) then Some (f c) else m !! c.
Proof.
  revert m. induction l as [|c' l IH]; intros m; [done|].
  cbn [foldl]. rewrite IH. destruct (decide (c = c')) as [->|Hne].
  - rewrite lookup_insert_eq. rewrite (bool_decide_eq_true_2 (c' ∈ c' :: l)) by left.
    by case_bool_decide.
  - rewrite lookup_insert_ne by done.
    case_bool_decide as Hl.
    + by rewrite bool_decide_eq_true_2 by (by right).
    + rewrite bool_decide_eq_false_2; [done|]. by intros [?|?]%elem_of_cons.
Qed.

Lemma counties_elem_of (county : list (option string)) (c : string) :
  c ∈ sorted (unique (omap id county)) ↔ Some c ∈ county.
Proof.
  unfold sorted. rewrite sorting.merge_sort_Permutation, unique_elem_of, list_elem_of_omap.
  split.
  - intros (x & Hx & Heq). cbn in Heq. by subst.
  - intros H. by exists (Some c).
Qed.

Lemma assign_assets_ui_entries (county : list (option string)) (c : string) :
  assign_assets_ui text_input county !! c
  = if bool_decide (Some c ∈ county) then Some (text_input ("asset_" +:+ c)) else None.
Proof.
  unfold assign_assets_ui. rewrite (foldl_insert_lookup (λ c, text_input ("asset_" +:+ c))).
  rewrite lookup_empty. pose proof (counties_elem_of county c) as H.
  do 2 case_bool_decide; tauto.
Qed.

End AssetFacts.

(** X19.  The assets that [assign_assets_ui] returns have one entry for
    every county that occurs in the column [Correct County], holding the
    text of the input of this county, and no other entry: the records
    without a county add none.  Looked up from a record as line 163 does,
    a county of the frame gives the text of its input, anything else the
    empty text. *)
Theorem assign_assets_ui_one_entry_per_county (text_input : string → string)
    (county : list (option string)) (c : string) :
  assign_assets_ui text_input county !! c
  = (if bool_decide (Some c ∈ county) then Some (text_input ("asset_" +:+ c)) else None) ∧
  asset_of (assign_assets_ui text_input county) (VStr c)
  = (if bool_decide (Some c ∈ county) then text_input ("asset_" +:+ c) else "") ∧
  asset_of (assign_assets_ui text_input county) VNone = "" ∧
  asset_of (assign_assets_ui text_input county) (VFloat S754_nan) = "".
Proof.
  split_and!; [|cbn [asset_of]|done|done].
  - apply assign_assets_ui_entries.
  - rewrite assign_assets_ui_entries. by case_bool_decide.
Qed.

Section UploaderFacts.

Variable float_repr : float → string.
Variable json_repr : json → string.
Variable text_input : string → string.
Variable remote : nat → outcome.

(** Lines 257-259: the extraction, the assets and the conversion. *)
Lemma run_wialon_uploader_conversion_raises (token : string) (frame : result (list series))
    (tf tt : Z) (w : world) (e : exn) :
  token ≠ "" →
  (gdf ← frame;
   county ← county_column gdf;
   convert_to_orders float_repr gdf tf tt (assign_assets_ui text_input county)) = Raise e →
  run_wialon_uploader float_repr json_repr text_input remote true true token frame tf tt w
  = (Ok (), World (heap w) (calls w) (log w ++ [StError (Text ("❌ " +:+ exn_str e))])).
Proof.
  intros Htoken Hraise. unfold run_wialon_uploader.
  destruct (String.eqb_spec token "") as [|_]; [done|]. cbn [negb orb].
  unfold try_except, mbind, M_bind, bind, lift.
  unfold mbind, result_bind in Hraise.
  destruct frame as [gdf|e']; cbn [rbind] in Hraise; [|by injection Hraise as ->].
  destruct (county_column gdf) as [county|e']; cbn [rbind] in Hraise;
    [|by injection Hraise as ->].
  by rewrite Hraise.
Qed.

Lemma convert_to_orders_located_raises (tf tt : Z) (county_asset : gmap string string)
    (gdf : list series) :
  Forall (λ r, assoc "INVOICE NO" r = None) gdf →
  Exists (λ r, located r = true) gdf →
  ∃ e, convert_to_orders float_repr gdf tf tt county_asset = Raise e.
Proof.
  intros Hkey Hloc.
  destruct (convert_to_orders float_repr gdf tf tt county_asset) as [orders|e] eqn:Hrun;
    [|by exists e].
  pose proof (convert_to_orders_no_order float_repr tf tt county_asset gdf orders Hkey Hrun)
    as ->.
  apply convert_to_orders_records, Forall2_nil_inv_r in Hrun.
  apply Exists_exists in Hloc as (r & Hr & Hlocated).
  assert (r ∈ filter (λ r, located r) gdf) as Hin.
  { apply list_elem_of_filter. split; [by rewrite Hlocated|done]. }
  rewrite Hrun in Hin. by apply elem_of_nil in Hin.
Qed.

Lemma run_wialon_uploader_no_session (token : string) (gdf : list series)
    (county : list (option string)) (orders : list Order.t) (tf tt : Z) (w : world) :
  token ≠ "" →
  county_column gdf = Ok county →
  convert_to_orders float_repr gdf tf tt (assign_assets_ui text_input county) = Ok orders →
  (∀ kvs eid, remote (calls w) = Decoded (JDict kvs) → assoc "eid" kvs ≠ Some eid) →
  ∃ msg,
    run_wialon_uploader float_repr json_repr text_input remote true true token (Ok gdf)
      tf tt w
    = (Ok (), World (heap w) (S (calls w))
                    (log w ++ [StInfo (Text (pretty (length orders)
                                             +:+ " orders prepared. Sending now…"));
                               StError (Text msg)])).
Proof.
  intros Htoken Hcounty Horders Hsession. unfold run_wialon_uploader.
  destruct (String.eqb_spec token "") as [|_]; [done|]. cbn [negb orb].
  unfold try_except, mbind at 1 2 3 4 5, M_bind, bind, lift. rewrite Hcounty, Horders.
  unfold emit at 1. cbn [heap calls log]. rewrite login_to_wialon_run. cbn [heap calls log].
  assert (∀ m, ∃ msg,
    emit (StError (Text m))
      (World (heap w) (S (calls w))
             (log w ++ [StInfo (Text (pretty (length orders)
                                      +:+ " orders prepared. Sending now…"))]))
    = (Ok (), World (heap w) (S (calls w))
                    (log w ++ [StInfo (Text (pretty (length orders)
                                             +:+ " orders prepared. Sending now…"));
                               StError (Text msg)]))) as Hend.
  { intros m. exists m. unfold emit. cbn [heap calls log]. by rewrite <- (assoc_L (++)). }
  destruct (remote (calls w)) as [e|data] eqn:Hremote; [by apply Hend|].
  unfold mbind, result_bind.
  destruct (json_contains "eid" data) as [[]|e] eqn:Hin; cbn [rbind negb];
    [|by apply Hend|by apply Hend].
  destruct (json_getitem data "eid") as [eid|e] eqn:Hget; cbn [rbind]; [|by apply Hend].
  destruct data as [| | | | | |kvs]; try done.
  cbn in Hget. destruct (assoc "eid" kvs) as [v|] eqn:Heid; [|done].
  by destruct (Hsession kvs v).
Qed.

End UploaderFacts.

(** X20.  After the form is sent, [run_wialon_uploader] makes no call to
    the service, not even the login, in these cases, and it does not
    raise:
    - without a file or without a token it asks for both;
    - when the extraction raises, it reports this exception;
    - when the frame has a record with coordinates that parse and no
      column [INVOICE NO] (the frame of [read_pdf_to_df] names the column
      [INVOICE NO.]), lines 258-259 raise before the login of line 261,
      and the exception is reported. *)
Theorem run_wialon_uploader_no_call (float_repr : float → string) (json_repr : json → string)
    (text_input : string → string) (remote : nat → outcome) (token : string)
    (tf tt : Z) (w : world) :
  let run := run_wialon_uploader float_repr json_repr text_input remote true in
  let reported := λ m, (Ok (), World (heap w) (calls w) (log w ++ [StError (Text m)])) in
  (∀ frame, run false token frame tf tt w
            = reported "Please upload a PDF and enter your token.") ∧
  (∀ frame, run true "" frame tf tt w
            = reported "Please upload a PDF and enter your token.") ∧
  (∀ e, token ≠ "" → run true token (Raise e) tf tt w = reported ("❌ " +:+ exn_str e)) ∧
  (∀ gdf, token ≠ "" →
     Forall (λ r, assoc "INVOICE NO" r = None) gdf →
     Exists (λ r, located r = true) gdf →
     ∃ e, run true token (Ok gdf) tf tt w = reported ("❌ " +:+ exn_str e)).
Proof.
  intros run reported. split_and!.
  - done.
  - intros frame. unfold run, run_wialon_uploader. done.
  - intros e Htoken. by apply run_wialon_uploader_conversion_raises.
  - intros gdf Htoken Hkey Hloc.
    assert (∃ e, (gdf ← Ok gdf;
                  county ← county_column gdf;
                  convert_to_orders float_repr gdf tf tt (assign_assets_ui text_input county))
                 = Raise e) as [e He].
    { unfold mbind, result_bind. cbn [rbind].
      destruct (county_column gdf) as [county|e]; cbn [rbind]; [|by exists e].
      by apply convert_to_orders_located_raises. }
    exists e. by apply run_wialon_uploader_conversion_raises.
Qed.

Lemma run_wialon_uploader_no_call_witness :
  run_wialon_uploader Delivery.repr (λ _, "") (λ _, "KDA 001") Batch.malformed_second
    true true "token" (Raise NO_VALID_DATA) 1700000000 1700086400 Batch.start
  = (Ok (), World Batch.orders 0
                  [StError (Text "❌ PDF parsing failed — no valid data found.")]) ∧
  ∃ e,
    run_wialon_uploader Delivery.repr (λ _, "") (λ _, "KDA 001") Batch.malformed_second
      true true "token" (Ok [Sample.acme_record]) 1700000000 1700086400 Batch.start
    = (Ok (), World Batch.orders 0 [StError (Text ("❌ " +:+ exn_str e))]).
Proof.
  pose proof (run_wialon_uploader_no_call Delivery.repr (λ _, "") (λ _, "KDA 001")
                Batch.malformed_second "token" 1700000000 1700086400 Batch.start)
    as (_ & _ & Hraise & Hkey).
  split.
  - by apply (Hraise NO_VALID_DATA).
  - apply (Hkey [Sample.acme_record]); [done| |].
    + by repeat constructor.
    + constructor. vm_compute. reflexivity.
Defined.

(** X21.  No order is sent without a session: when the orders are built
    and the answer to the login is anything but a JSON object with the key
    [eid] (an exception of the call, an error object, a list, a text),
    [run_wialon_uploader] has made the one call of the login, reports the
    number of orders prepared and then an error, and sends no request. *)
Theorem run_wialon_uploader_needs_session (float_repr : float → string)
    (json_repr : json → string) (text_input : string → string) (remote : nat → outcome)
    (token : string) (gdf : list series) (county : list (option string))
    (orders : list Order.t) (tf tt : Z) (w : world) :
  token ≠ "" →
  county_column gdf = Ok county →
  convert_to_orders float_repr gdf tf tt (assign_assets_ui text_input county) = Ok orders →
  (∀ kvs eid, remote (calls w) = Decoded (JDict kvs) → assoc "eid" kvs ≠ Some eid) →
  ∃ msg,
    run_wialon_uploader float_repr json_repr text_input remote true true token (Ok gdf)
      tf tt w
    = (Ok (), World (heap w) (S (calls w))
                    (log w ++ [StInfo (Text (pretty (length orders)
                                             +:+ " orders prepared. Sending now…"));
                               StError (Text msg)])).
Proof. apply run_wialon_uploader_no_session. Qed.

Lemma run_wialon_uploader_needs_session_witness :
  ∃ msg,
    run_wialon_uploader Delivery.repr (λ _, "{'error': 4}") (λ _, "KDA 001")
      (λ _, Decoded (JDict [("error", JInt 4)]))
      true true "token" (Ok [Delivery.acme; Delivery.gamma]) 1700000000 1700086400
      Batch.start
    = (Ok (), World Batch.orders 1
                    [StInfo (Text "2 orders prepared. Sending now…");
                     StError (Text msg)]).
Proof.
  destruct (run_wialon_uploader_needs_session Delivery.repr (λ _, "{'error': 4}")
              (λ _, "KDA 001") (λ _, Decoded (JDict [("error", JInt 4)])) "token"
              [Delivery.acme; Delivery.gamma] _
              _ 1700000000 1700086400 Batch.start ltac:(done) eq_refl eq_refl)
    as [msg Hrun].
  - intros kvs eid [= <-]. done.
  - exists msg. exact Hrun.
Defined.
